(** * InstanceSchedule: desired-state resolution and usage reconstruction

    A shallow embedding of [source/code/configuration/instance_schedule.py]
    (class [InstanceSchedule]) and the properties of its two operations,
    [get_desired_state] and [get_usage]. *)

From stdpp Require Import base option list strings gmap sets sorting.
From Stdlib Require Import ZArith Lia.

Local Open Scope Z_scope.

(** ** Python values *)

(** The exceptions the modelled code can raise.
    [pytz.UnknownTimeZoneError], a [KeyError], carries the name that was
    looked up. *)
Inductive PyError : Type :=
  | TypeError : PyError
  | ValueError : string → PyError
  | UnknownTimeZoneError : string → PyError.

Inductive Result (A : Type) : Type :=
  | Ok : A → Result A
  | Raise : PyError → Result A.
Arguments Ok {A} _.
Arguments Raise {A} _.

Global Instance Result_bind : MBind Result := fun A B k m =>
  match m with
  | Ok a => k a
  | Raise e => Raise e
  end.

(** Python compares [time] and [datetime] objects by their field tuples. *)
Fixpoint tuple_cmp (x y : list Z) : comparison :=
  match x, y with
  | [], [] => Eq
  | [], _ :: _ => Lt
  | _ :: _, [] => Gt
  | a :: x', b :: y' =>
      match a ?= b with
      | Eq => tuple_cmp x' y'
      | c => c
      end
  end.

(** [datetime.time], naive. *)
Record time : Type := mk_time {
  t_hour : Z;
  t_minute : Z;
  t_second : Z;
  t_microsecond : Z
}.

Definition time_tuple (t : time) : list Z :=
  [t_hour t; t_minute t; t_second t; t_microsecond t].

(** [t1 > t2] on [datetime.time]. *)
Definition time_gt (t1 t2 : time) : bool :=
  match tuple_cmp (time_tuple t1) (time_tuple t2) with
  | Gt => true
  | _ => false
  end.

Definition valid_time (t : time) : bool :=
  (0 <=? t_hour t) && (t_hour t <? 24) &&
  (0 <=? t_minute t) && (t_minute t <? 60) &&
  (0 <=? t_second t) && (t_second t <? 60) &&
  (0 <=? t_microsecond t) && (t_microsecond t <? 1000000).

(** [datetime.datetime]; the calendar date is kept as its proleptic ordinal
    ([date.toordinal()]). *)
Record datetime : Type := mk_datetime {
  ordinal : Z;
  hour : Z;
  minute : Z;
  second : Z;
  microsecond : Z
}.

Definition datetime_tuple (d : datetime) : list Z :=
  [ordinal d; hour d; minute d; second d; microsecond d].

Definition dt_gt (a b : datetime) : bool :=
  match tuple_cmp (datetime_tuple a) (datetime_tuple b) with
  | Gt => true
  | _ => false
  end.

Definition dt_le (a b : datetime) : bool := negb (dt_gt a b).

Definition dt_lt (a b : datetime) : bool :=
  match tuple_cmp (datetime_tuple a) (datetime_tuple b) with
  | Lt => true
  | _ => false
  end.

Definition valid_datetime (d : datetime) : bool :=
  (0 <=? hour d) && (hour d <? 24) &&
  (0 <=? minute d) && (minute d <? 60) &&
  (0 <=? second d) && (second d <? 60) &&
  (0 <=? microsecond d) && (microsecond d <? 1000000).

(** Microseconds since ordinal 0, the scale on which [timedelta] works. *)
Definition to_us (d : datetime) : Z :=
  (((ordinal d * 24 + hour d) * 60 + minute d) * 60 + second d) * 1000000
  + microsecond d.

Definition of_us (n : Z) : datetime :=
  {| ordinal := n / 86400000000;
     hour := (n / 3600000000) mod 24;
     minute := (n / 60000000) mod 60;
     second := (n / 1000000) mod 60;
     microsecond := n mod 1000000 |}.

(** [d + timedelta(microseconds=n)] *)
Definition add_us (d : datetime) (n : Z) : datetime := of_us (to_us d + n).

(** [d + timedelta(days=1)] *)
Definition add_day (d : datetime) : datetime :=
  {| ordinal := ordinal d + 1; hour := hour d; minute := minute d;
     second := second d; microsecond := microsecond d |}.

(** [d.replace(hour=h, minute=m)]: seconds and microseconds are kept. *)
Definition replace (d : datetime) (h m : Z) : datetime :=
  {| ordinal := ordinal d; hour := h; minute := m;
     second := second d; microsecond := microsecond d |}.

Global Instance time_eq_dec : EqDecision time.
Proof. solve_decision. Defined.

Global Instance datetime_eq_dec : EqDecision datetime.
Proof. solve_decision. Defined.

Global Instance datetime_countable : Countable datetime.
Proof.
  refine (inj_countable'
    (fun d => (ordinal d, hour d, minute d, second d, microsecond d))
    (fun '(o, h, m, s, u) => mk_datetime o h m s u) _).
  intros []; reflexivity.
Defined.

(** ** The schedule's data *)

Inductive State : Type :=
  | STATE_UNKNOWN
  | STATE_ANY
  | STATE_STOPPED
  | STATE_RUNNING
  | STATE_RETAIN_RUNNING
  | STATE_STANDBY.

Global Instance State_eq_dec : EqDecision State.
Proof. solve_decision. Defined.

(** A running period, as far as this class uses it: its name, its optional
    begin and end time of day, and its own decision at a localized instant
    ([period.get_desired_state(logger, localized_time)]). *)
Module Period.
Record t : Type := mk {
  name : string;
  begintime : option time;
  endtime : option time;
  get_desired_state : datetime → State
}.
End Period.

(** An entry of [self.periods]: [{"period": ..., "instancetype": ...}]. *)
Record SchedulePeriod : Type := mk_entry {
  period : Period.t;
  instancetype : option string
}.

(** An entry of [periods_with_desired_states]. *)
Record PeriodWithState : Type := mk_polled {
  pws_period : Period.t;
  pws_instancetype : option string;
  pws_state : State
}.

(** The instance under evaluation. The stand-in built by [get_usage] has
    only [allow_resize = False]; its other attributes are never read, see
    [get_desired_state_no_resize]. *)
Module Instance.
Record t : Type := mk {
  allow_resize : bool;
  is_running : bool;
  instancetype : option string
}.
End Instance.

Record InstanceSchedule : Type := mk_schedule {
  name : string;
  periods : option (list SchedulePeriod);
  timezone : string;
  override_status : option string;
  schedule_dt : datetime
}.

Definition DesiredState : Type := State * option string * option string.

Definition ERR_STOP_MUST_BE_LATER_OR_EQUAL_TO_START : string :=
  "stop_date must be equal or later than start_date".

(** ** [get_desired_state] *)

Section Schedule.

(** [configuration.OVERRIDE_STATUS_RUNNING], declared outside this file. *)
Variable OVERRIDE_STATUS_RUNNING : string.

(** [dt.astimezone(pytz.timezone(tz))], the conversion to the schedule's
    timezone. *)
Variable astimezone : string → datetime → datetime.

Definition get_check_time (self : InstanceSchedule) (time : option datetime)
  : datetime :=
  let check_time := match time with
                    | Some t => t
                    | None => schedule_dt self
                    end in
  astimezone (timezone self) check_time.

Definition latest_starttime (p1 p2 : PeriodWithState) : PeriodWithState :=
  match Period.begintime (pws_period p1) with
  | None => p2
  | Some b1 =>
      match Period.begintime (pws_period p2) with
      | None => p1
      | Some b2 => if time_gt b1 b2 then p1 else p2
      end
  end.

Definition requires_adjust_instance_size
  (desired_instance_type : option string) (checked_instance : Instance.t)
  : bool :=
  Instance.allow_resize checked_instance &&
  bool_decide (desired_instance_type ≠ None) &&
  Instance.is_running checked_instance &&
  bool_decide (desired_instance_type ≠ Instance.instancetype checked_instance).

Definition _reduce {A : Type} (fn : A → A → A) (items : list A) : option A :=
  match items with
  | [] => None
  | x :: rest => Some (fold_left fn rest x)
  end.

Definition handle_running_state (inst : Instance.t)
  (running : list PeriodWithState) : Result DesiredState :=
  match _reduce latest_starttime running with
  | None => Raise TypeError
  | Some current_running_period =>
      let desired_type :=
        if Instance.allow_resize inst
        then pws_instancetype current_running_period
        else None in
      let desired_state :=
        if requires_adjust_instance_size desired_type inst
        then STATE_STOPPED
        else STATE_RUNNING in
      Ok (desired_state, desired_type,
          Some (Period.name (pws_period current_running_period)))
  end.

Definition handle_any_state : DesiredState := (STATE_ANY, None, None).

Definition handle_stopped_state : DesiredState := (STATE_STOPPED, None, None).

Definition handle_override_status (self : InstanceSchedule) (o : string)
  : DesiredState :=
  (if bool_decide (o = OVERRIDE_STATUS_RUNNING)
   then STATE_RUNNING else STATE_STOPPED,
   None, Some "override_status"%string).

Definition poll (localized_time : datetime) (p : SchedulePeriod)
  : PeriodWithState :=
  {| pws_period := period p;
     pws_instancetype := instancetype p;
     pws_state := Period.get_desired_state (period p) localized_time |}.

Definition is_state (s : State) (p : PeriodWithState) : bool :=
  bool_decide (pws_state p = s).

Definition resolve (inst : Instance.t)
  (periods_with_desired_states : list PeriodWithState) : Result DesiredState :=
  let periods_with_running_state :=
    List.filter (is_state STATE_RUNNING) periods_with_desired_states in
  match periods_with_running_state with
  | _ :: _ => handle_running_state inst periods_with_running_state
  | [] =>
      if existsb (is_state STATE_ANY) periods_with_desired_states
      then Ok handle_any_state
      else Ok handle_stopped_state
  end.

Definition get_desired_state (self : InstanceSchedule) (inst : Instance.t)
  (dt : option datetime) : Result DesiredState :=
  match override_status self with
  | Some o => Ok (handle_override_status self o)
  | None =>
      let localized_time := get_check_time self dt in
      match periods self with
      | None => Raise TypeError
      | Some ps => resolve inst (map (poll localized_time) ps)
      end
  end.

Section Pytz.

(** Whether [pytz.timezone(tz)] finds the zone [tz]; for any other name it
    raises [UnknownTimeZoneError]. *)
Variable known_timezone : string → bool.

(** [get_check_time] with the lookup of the zone:
    [check_time.astimezone(pytz.timezone(self.timezone))] raises when
    [pytz] does not know the name, and is [get_check_time] when it does. *)
Definition get_check_time_pytz (self : InstanceSchedule)
  (time : option datetime) : Result datetime :=
  if known_timezone (timezone self) then Ok (get_check_time self time)
  else Raise (UnknownTimeZoneError (timezone self)).

(** [get_desired_state] with the lookup of the zone. The override is
    tested first; the localized time is computed before the periods are
    iterated. *)
Definition get_desired_state_pytz (self : InstanceSchedule)
  (inst : Instance.t) (dt : option datetime) : Result DesiredState :=
  match override_status self with
  | Some o => Ok (handle_override_status self o)
  | None =>
      localized_time ← get_check_time_pytz self dt;
      match periods self with
      | None => Raise TypeError
      | Some ps => resolve inst (map (poll localized_time) ps)
      end
  end.

End Pytz.

(** ** [get_usage] *)

(** The dictionary built by [make_period]; ["instancetype"] is present only
    when the type is not [None]. *)
Record RunningPeriod : Type := mk_running_period {
  rp_begin : datetime;
  rp_end : datetime;
  rp_billing_hours : Z;
  rp_billing_seconds : Z;
  rp_instancetype : option string
}.

(** [int((stopdt - startdt).total_seconds())]: [int] truncates towards zero.
    The difference of two datetimes is an exact number of microseconds. *)
Definition running_seconds (startdt stopdt : datetime) : Z :=
  Z.max (Z.quot (to_us stopdt - to_us startdt) 1000000) 60.

(** [int(((stopdt - startdt).total_seconds() - 1) / 3600) + 1], on the
    microsecond scale: [(us / 10^6 - 1) / 3600 = (us - 10^6) / (3600 * 10^6)]. *)
Definition running_hours (startdt stopdt : datetime) : Z :=
  Z.quot (to_us stopdt - to_us startdt - 1000000) 3600000000 + 1.

Definition make_period (started_dt stopped_dt : datetime)
  (inst_type : option string) : RunningPeriod :=
  {| rp_begin := started_dt;
     rp_end := stopped_dt;
     rp_billing_hours := running_hours started_dt stopped_dt;
     rp_billing_seconds := running_seconds started_dt stopped_dt;
     rp_instancetype := inst_type |}.

(** One day's entry of the result. *)
Record DayUsage : Type := mk_day {
  running_periods : gmap (option string) RunningPeriod;
  billing_seconds : Z;
  billing_hours : Z
}.

Record Usage : Type := mk_usage {
  schedule : string;
  usage : gmap Z DayUsage
}.

(** The variables of the boundary walk. *)
Record Walk : Type := mk_walk {
  w_running_periods : gmap (option string) RunningPeriod;
  w_started : option datetime;
  w_starting_period : option string;
  w_current_state : option State;
  w_instance_type : option string
}.

Definition walk_init : Walk :=
  {| w_running_periods := ∅; w_started := None; w_starting_period := None;
     w_current_state := None; w_instance_type := None |}.

(** [running_periods[starting_period] = make_period(started, stopped,
    instance_type)]; subtracting from [started = None] is a [TypeError]. *)
Definition close_period (st : Walk) (stopped : datetime)
  (new_state : option State) : Result Walk :=
  match w_started st with
  | None => Raise TypeError
  | Some started =>
      Ok {| w_running_periods :=
              <[w_starting_period st :=
                  make_period started stopped (w_instance_type st)]>
                (w_running_periods st);
            w_started := w_started st;
            w_starting_period := w_starting_period st;
            w_current_state := new_state;
            w_instance_type := w_instance_type st |}
  end.

(** The walk's variables after [instance_type] is assigned. *)
Definition with_instance_type (st : Walk) (ty : option string) : Walk :=
  {| w_running_periods := w_running_periods st;
     w_started := w_started st;
     w_starting_period := w_starting_period st;
     w_current_state := w_current_state st;
     w_instance_type := ty |}.

(** The body of [for tm in sorted(list(timeline))], after the call of
    [get_desired_state]. *)
Definition walk_step (st : Walk) (tm : datetime) (r : DesiredState)
  : Result Walk :=
  let '(desired_state, instance_type, period) := r in
  let st := with_instance_type st instance_type in
  if bool_decide (w_current_state st ≠ Some desired_state) then
    if bool_decide (desired_state = STATE_RUNNING) then
      Ok {| w_running_periods := w_running_periods st;
            w_started := Some tm;
            w_starting_period := period;
            w_current_state := Some STATE_RUNNING;
            w_instance_type := instance_type |}
    else if bool_decide (desired_state = STATE_STOPPED) then
      if bool_decide (w_current_state st = Some STATE_RUNNING) then
        close_period st tm (Some STATE_STOPPED)
      else Ok st
    else Ok st
  else Ok st.

(** [sum([running_periods[k][field] for k in running_periods])] *)
Definition map_total (f : RunningPeriod → Z)
  (m : gmap (option string) RunningPeriod) : Z :=
  map_fold (fun _ rp acc => f rp + acc) 0 m.

Definition sum_billing_seconds (m : gmap (option string) RunningPeriod) : Z :=
  map_total rp_billing_seconds m.

Definition sum_billing_hours (m : gmap (option string) RunningPeriod) : Z :=
  map_total rp_billing_hours m.

Definition datetime_le (a b : datetime) : Prop := dt_le a b = true.

Global Instance datetime_le_dec a b : Decision (datetime_le a b).
Proof. unfold datetime_le. apply _. Defined.

(** The boundary instants one period contributes. [if begintime:] holds
    of every time; where midnight counts as false the instant left out is
    00:00, which the timeline has from the start. *)
Definition add_boundaries (dt : datetime) (timeline : gset datetime)
  (p : SchedulePeriod) : gset datetime :=
  let begintime := Period.begintime (period p) in
  let endtime := Period.endtime (period p) in
  match begintime, endtime with
  | None, None => timeline ∪ {[replace dt 0 0]} ∪ {[replace dt 23 59]}
  | _, _ =>
      let timeline :=
        match begintime with
        | Some b => timeline ∪ {[replace dt (t_hour b) (t_minute b)]}
        | None => timeline
        end in
      match endtime with
      | Some e => timeline ∪ {[replace dt (t_hour e) (t_minute e)]}
      | None => timeline
      end
  end.

Definition build_timeline (ps : list SchedulePeriod) (dt : datetime)
  : gset datetime :=
  fold_left (add_boundaries dt) ps {[replace dt 0 0]}.

(** [sorted(list(timeline))] *)
Definition sorted_timeline (timeline : gset datetime) : list datetime :=
  merge_sort datetime_le (elements timeline).

(** [dt.replace(hour=23, minute=59) + timedelta(minutes=1)] *)
Definition day_close (dt : datetime) : datetime :=
  add_us (replace dt 23 59) 60000000.

(** The stand-in instance: [{"instance_str": "instance", "allow_resize":
    False}]. *)
Definition placeholder_instance : Instance.t :=
  {| Instance.allow_resize := false; Instance.is_running := false;
     Instance.instancetype := None |}.

Fixpoint walk (self : InstanceSchedule) (inst : Instance.t) (st : Walk)
  (tms : list datetime) : Result Walk :=
  match tms with
  | [] => Ok st
  | tm :: rest =>
      r ← get_desired_state self inst (Some tm);
      st' ← walk_step st tm r;
      walk self inst st' rest
  end.

(** One iteration of [while dt <= stop]: the entry for the day of [dt]. *)
Definition day_usage (self : InstanceSchedule) (instance : option Instance.t)
  (dt : datetime) : Result DayUsage :=
  match periods self with
  | None => Raise TypeError
  | Some ps =>
      let timeline := build_timeline ps dt in
      let inst := default placeholder_instance instance in
      st ← walk self inst walk_init (sorted_timeline timeline);
      st ← (if bool_decide (w_current_state st = Some STATE_RUNNING)
            then close_period st (day_close dt) (w_current_state st)
            else Ok st);
      Ok {| running_periods := w_running_periods st;
            billing_seconds := sum_billing_seconds (w_running_periods st);
            billing_hours := sum_billing_hours (w_running_periods st) |}
  end.

(** [while dt <= stop: ...; dt += timedelta(days=1)]. The results are keyed
    by [str(dt.date())], here by the ordinal of the date. [fuel] bounds the
    number of iterations; by [usage_loop_fuel] the bound [get_usage] gives
    is never what ends the loop. *)
Fixpoint usage_loop (self : InstanceSchedule) (instance : option Instance.t)
  (stop : datetime) (fuel : nat) (dt : datetime) (result : gmap Z DayUsage)
  : Result (gmap Z DayUsage) :=
  match fuel with
  | O => Ok result
  | S fuel' =>
      if dt_le dt stop then
        day ← day_usage self instance dt;
        usage_loop self instance stop fuel' (add_day dt)
          (<[ordinal dt := day]> result)
      else Ok result
  end.

(** [start_dt] is a [datetime], the case [isinstance(start_dt, datetime)];
    [stop_dt or start_dt] is [stop_dt] unless it is [None]. *)
Definition get_usage (self : InstanceSchedule) (start_dt : datetime)
  (stop_dt : option datetime) (instance : option Instance.t) : Result Usage :=
  let stop := default start_dt stop_dt in
  if dt_gt start_dt stop then
    Raise (ValueError ERR_STOP_MUST_BE_LATER_OR_EQUAL_TO_START)
  else
    let dt := start_dt in
    result ← usage_loop self instance stop
               (Z.to_nat (ordinal stop - ordinal dt + 1)) dt ∅;
    Ok {| schedule := name self; usage := result |}.

(** The arguments [start_dt] and [stop_dt] as Python values: a
    [datetime.date], kept as its ordinal, or a [datetime.datetime]. *)
Inductive PyDate : Type :=
  | a_date (o : Z)
  | a_datetime (d : datetime).

(** [get_usage] on both kinds of argument. [stop_dt or start_dt] is
    [stop_dt] unless it is [None]. Ordering a [date] and a [datetime] is a
    [TypeError], so [start_dt > stop] raises it when the two are of
    different kinds. A [date] given as start passes the test of the range
    against a [date]; it is then replaced by the [datetime] of its
    midnight, and the test [dt <= stop] of the loop compares that
    [datetime] with the [date] that [stop] still is. *)
Definition get_usage_any (self : InstanceSchedule) (start_dt : PyDate)
  (stop_dt : option PyDate) (instance : option Instance.t) : Result Usage :=
  let stop := default start_dt stop_dt in
  match start_dt, stop with
  | a_datetime start, a_datetime stop =>
      get_usage self start (Some stop) instance
  | a_date start, a_date stop =>
      if start >? stop then
        Raise (ValueError ERR_STOP_MUST_BE_LATER_OR_EQUAL_TO_START)
      else Raise TypeError
  | _, _ => Raise TypeError
  end.

(** ** [__str__] *)

(** The attributes of the schedule that only [__str__] reads. *)
Record ScheduleFlags : Type := mk_flags {
  description : option string;
  stop_new_instances : option bool;
  use_maintenance_window : option bool;
  enforced : option bool;
  retain_running : option bool
}.

Definition dquote : string := String (Ascii.ascii_of_nat 34) EmptyString.

Definition newline : string := String (Ascii.ascii_of_nat 10) EmptyString.

(** The entry of [pl] for one period. *)
Definition period_str (p : SchedulePeriod) : string :=
  Period.name (period p) +:+
  match instancetype p with
  | Some ty => ":instancetype " +:+ ty
  | None => ""
  end.

(** The list [attributes] when it is joined. A string, [None] or a flag is
    tested for its truth value: the empty string, [None] and [False] are
    false. *)
Definition attributes (self : InstanceSchedule) (flags : ScheduleFlags)
  : list string :=
  match description flags with
  | Some d => if bool_decide (d = "") then [] else [" (" +:+ d +:+ ")"]
  | None => []
  end ++
  match override_status self with
  | Some o =>
      ["always " +:+ (if bool_decide (o = "") then "stopped" else "running")
       +:+ " through override_status"]
  | None => []
  end ++
  (if bool_decide (timezone self = "") then []
   else ["timezone is " +:+ timezone self]) ++
  match stop_new_instances flags with
  | Some b => ["new instanced are " +:+ (if b then "" else "not ") +:+ "stopped"]
  | None => []
  end ++
  match use_maintenance_window flags with
  | Some _ =>
      ["maintenance windows are "
       +:+ (if default false (stop_new_instances flags) then "" else "not ")
       +:+ "used to start instances"]
  | None => []
  end ++
  match enforced flags with
  | Some b =>
      ["schedule state is " +:+ (if b then "" else "not ")
       +:+ "enforced to start or stop instances"]
  | None => []
  end ++
  match retain_running flags with
  | Some b =>
      ["instances are " +:+ (if b then "not" else "")
       +:+ "stopped if at the and of a period if they were already running at the start of the period"]
  | None => []
  end ++
  match periods self with
  | Some (p :: ps) =>
      ["periods: [" +:+ String.concat ", " (map period_str (p :: ps)) +:+ "]"]
  | _ => []
  end.

Definition __str__ (self : InstanceSchedule) (flags : ScheduleFlags) : string :=
  "Schedule " +:+ dquote +:+ name self +:+ dquote +:+ ": "
  +:+ String.concat newline (attributes self flags).

(** ** Definitions for the statements *)

(** The order of the tie-break: no begin time sorts first. *)
Definition begin_le (a b : option time) : bool :=
  match a, b with
  | None, _ => true
  | Some _, None => false
  | Some x, Some y => negb (time_gt x y)
  end.

Definition pws_begin (p : PeriodWithState) : option time :=
  Period.begintime (pws_period p).

(** [periods_with_running_state] for the schedule's periods [ps]. *)
Definition running_at (self : InstanceSchedule) (dt : option datetime)
  (ps : list SchedulePeriod) : list PeriodWithState :=
  List.filter (is_state STATE_RUNNING) (map (poll (get_check_time self dt)) ps).

(** The schedule with another list of periods. *)
Definition with_periods (self : InstanceSchedule)
  (ps : option (list SchedulePeriod)) : InstanceSchedule :=
  {| name := name self; periods := ps; timezone := timezone self;
     override_status := override_status self;
     schedule_dt := schedule_dt self |}.

(** An instant of the day of [dt] at a valid hour and minute, with the
    seconds and microseconds of [dt]. *)
Definition on_day (dt tm : datetime) : Prop :=
  ∃ h m, 0 ≤ h < 24 ∧ 0 ≤ m < 60 ∧ tm = replace dt h m.

(** [b] is at least one minute after [a]. *)
Definition minute_after (a b : datetime) : Prop :=
  to_us a + 60000000 ≤ to_us b.

Definition valid_opt_time (t : option time) : bool :=
  match t with
  | Some t => valid_time t
  | None => true
  end.

(** The begin and end times of all periods are times of day. *)
Definition valid_periods (ps : list SchedulePeriod) : bool :=
  forallb (fun p => valid_opt_time (Period.begintime (period p)) &&
                    valid_opt_time (Period.endtime (period p))) ps.

(** What the walk records about an interval of the day of [dt]. *)
Definition good_period (dt : datetime) (rp : RunningPeriod) : Prop :=
  on_day dt (rp_begin rp) ∧
  (on_day dt (rp_end rp) ∨ rp_end rp = day_close dt) ∧
  minute_after (rp_begin rp) (rp_end rp) ∧
  rp = make_period (rp_begin rp) (rp_end rp) (rp_instancetype rp).

(** The invariant of the walk, [rest] being the instants still to visit. *)
Definition walk_inv (dt : datetime) (rest : list datetime) (st : Walk) : Prop :=
  (∀ k rp, w_running_periods st !! k = Some rp → good_period dt rp) ∧
  (w_current_state st = Some STATE_RUNNING →
   ∃ b, w_started st = Some b ∧ on_day dt b ∧ Forall (minute_after b) rest).

(** While running, [started] is set. *)
Definition started_set (st : Walk) : Prop :=
  w_current_state st = Some STATE_RUNNING → is_Some (w_started st).

(** The loop variable [dt] on the day with ordinal [o]: the clock of the
    start instant on that date. *)
Definition day_of (start : datetime) (o : Z) : datetime :=
  {| ordinal := o; hour := hour start; minute := minute start;
     second := second start; microsecond := microsecond start |}.

(** ** Schedules for the examples *)

(** A schedule in UTC evaluated at UTC instants: the conversion to the
    schedule's timezone is the identity. *)
Definition utc (_ : string) (d : datetime) : datetime := d.

Definition at_time (h m : Z) : time :=
  {| t_hour := h; t_minute := m; t_second := 0; t_microsecond := 0 |}.

Definition minute_of_day (d : datetime) : Z := hour d * 60 + minute d.

(** A period that reports running from [lo] to [hi], in minutes of the
    day, and stopped otherwise. *)
Definition running_between (lo hi : Z) (d : datetime) : State :=
  if (lo <=? minute_of_day d) && (minute_of_day d <? hi)
  then STATE_RUNNING else STATE_STOPPED.

Definition always (s : State) (_ : datetime) : State := s.

Definition a_schedule (ps : option (list SchedulePeriod)) : InstanceSchedule :=
  {| name := "schedule"; periods := ps; timezone := "UTC";
     override_status := None;
     schedule_dt := mk_datetime 737000 12 0 0 0 |}.

Definition day0 : datetime := mk_datetime 737000 0 0 0 0.

Definition office : Period.t :=
  Period.mk "office" (Some (at_time 9 0)) (Some (at_time 17 0))
            (running_between 540 1020).

Definition early : Period.t :=
  Period.mk "early" (Some (at_time 8 0)) (Some (at_time 12 0))
            (running_between 480 720).

(** Two periods with the same begin time. *)
Definition first_nine : Period.t :=
  Period.mk "a" (Some (at_time 9 0)) (Some (at_time 17 0))
            (running_between 540 1020).

Definition second_nine : Period.t :=
  Period.mk "b" (Some (at_time 9 0)) (Some (at_time 18 0))
            (running_between 540 1080).

Definition always_on : Period.t :=
  Period.mk "always" None None (always STATE_RUNNING).

(** A period with two windows, 09:00-10:00 and 14:00-15:00; its begin
    and end time are those of the first. *)
Definition two_windows : Period.t :=
  Period.mk "split" (Some (at_time 9 0)) (Some (at_time 10 0))
    (fun d => if ((540 <=? minute_of_day d) && (minute_of_day d <? 600))
                 || ((840 <=? minute_of_day d) && (minute_of_day d <? 900))
              then STATE_RUNNING else STATE_STOPPED).

(** A period that never runs and only contributes the boundaries 14:00
    and 15:00. *)
Definition afternoon_marks : Period.t :=
  Period.mk "marks" (Some (at_time 14 0)) (Some (at_time 15 0))
            (always STATE_STOPPED).

Definition resizable (running : bool) (ty : option string) : Instance.t :=
  {| Instance.allow_resize := true; Instance.is_running := running;
     Instance.instancetype := ty |}.

Definition forced_running : InstanceSchedule :=
  {| name := "forced"; periods := None; timezone := "UTC";
     override_status := Some "running"%string; schedule_dt := day0 |}.

Definition early_and_office : list SchedulePeriod :=
  [mk_entry office (Some "large"%string); mk_entry early None].

(** The condition of the forced stop in the words of the specification:
    [allow_resize] is true, [is_running] is true, [current_type] is set,
    and [desired_type] differs from [current_type]. *)
Definition spec_resize_condition (inst : Instance.t)
  (desired_type : option string) : Prop :=
  Instance.allow_resize inst = true ∧ Instance.is_running inst = true ∧
  Instance.instancetype inst ≠ None ∧
  desired_type ≠ Instance.instancetype inst.

Definition nine_ab : list SchedulePeriod :=
  [mk_entry first_nine None; mk_entry second_nine None].

Definition nine_ba : list SchedulePeriod :=
  [mk_entry second_nine None; mk_entry first_nine None].

Definition office_hours : InstanceSchedule :=
  a_schedule (Some [mk_entry office None]).

Definition office_interval : RunningPeriod :=
  make_period (replace day0 9 0) (replace day0 17 0) None.

Definition office_day : DayUsage :=
  {| running_periods := {[Some "office"%string := office_interval]};
     billing_seconds := 28800; billing_hours := 8 |}.

Definition office_usage : Usage :=
  {| schedule := "schedule"; usage := {[737000 := office_day]} |}.

(** A schedule with [two_windows]; [afternoon_marks] makes 14:00 and
    15:00 boundaries of the day. *)
Definition split_schedule : InstanceSchedule :=
  a_schedule (Some [mk_entry two_windows None; mk_entry afternoon_marks None]).

(** The walk of [split_schedule] at 15:00: running since 14:00, with the
    morning interval in the map. *)
Definition split_at_three : Walk :=
  {| w_running_periods :=
       {[Some "split"%string :=
           make_period (replace day0 9 0) (replace day0 10 0) None]};
     w_started := Some (replace day0 14 0);
     w_starting_period := Some "split"%string;
     w_current_state := Some STATE_RUNNING;
     w_instance_type := None |}.

(** A schedule whose only period leaves the state open. *)
Definition any_period : Period.t :=
  Period.mk "open" (Some (at_time 12 0)) None (always STATE_ANY).

(** ** Definitions for the further properties *)

(** [tm] is an instant the period [p] adds to the timeline of the day of
    [dt]. *)
Definition boundary_of (dt : datetime) (p : SchedulePeriod) (tm : datetime)
  : Prop :=
  match Period.begintime (period p), Period.endtime (period p) with
  | None, None => tm = replace dt 0 0 ∨ tm = replace dt 23 59
  | b, e =>
      (∃ t, b = Some t ∧ tm = replace dt (t_hour t) (t_minute t)) ∨
      (∃ t, e = Some t ∧ tm = replace dt (t_hour t) (t_minute t))
  end.

(** The keys a day's map can have for the periods [ps]. *)
Definition period_key (ps : list SchedulePeriod) (k : option string) : Prop :=
  k = Some "override_status"%string ∨
  ∃ p, p ∈ ps ∧ k = Some (Period.name (period p)).

(** Two intervals that do not overlap. *)
Definition disjoint_periods (rp1 rp2 : RunningPeriod) : Prop :=
  to_us (rp_end rp1) ≤ to_us (rp_begin rp2) ∨
  to_us (rp_end rp2) ≤ to_us (rp_begin rp1).

(** The intervals recorded so far end before what is still to come. *)
Definition walk_ordered (rest : list datetime) (st : Walk) : Prop :=
  StronglySorted minute_after rest ∧
  (∀ k rp, w_running_periods st !! k = Some rp →
           Forall (fun tm => to_us (rp_end rp) ≤ to_us tm) rest) ∧
  (w_current_state st = Some STATE_RUNNING →
   ∃ b, w_started st = Some b ∧
        (∀ k rp, w_running_periods st !! k = Some rp →
                 to_us (rp_end rp) ≤ to_us b) ∧
        Forall (fun tm => to_us b ≤ to_us tm) rest) ∧
  (∀ k1 k2 rp1 rp2,
     k1 ≠ k2 →
     w_running_periods st !! k1 = Some rp1 →
     w_running_periods st !! k2 = Some rp2 →
     disjoint_periods rp1 rp2).

(** ** Schedules for the further examples *)

Definition morning : Period.t :=
  Period.mk "morning" (Some (at_time 6 0)) (Some (at_time 8 0))
            (running_between 360 480).

Definition two_shifts_periods : list SchedulePeriod :=
  [mk_entry morning None; mk_entry office None].

Definition two_shifts : InstanceSchedule := a_schedule (Some two_shifts_periods).

Definition morning_interval (dt : datetime) : RunningPeriod :=
  make_period (replace dt 6 0) (replace dt 8 0) None.

Definition shift_interval (dt : datetime) : RunningPeriod :=
  make_period (replace dt 9 0) (replace dt 17 0) None.

Definition two_shifts_day (dt : datetime) : DayUsage :=
  {| running_periods :=
       {[Some "morning"%string := morning_interval dt;
         Some "office"%string := shift_interval dt]};
     billing_seconds := 36000; billing_hours := 10 |}.

Definition two_shifts_usage : Usage :=
  {| schedule := "schedule";
     usage := {[737000 := two_shifts_day day0;
                737001 := two_shifts_day (add_day day0)]} |}.

Definition forced_stopped : InstanceSchedule :=
  {| name := "forced"; periods := Some two_shifts_periods; timezone := "UTC";
     override_status := Some "stopped"%string; schedule_dt := day0 |}.

Definition forced_running_with_periods : InstanceSchedule :=
  {| name := "forced"; periods := Some two_shifts_periods; timezone := "UTC";
     override_status := Some "running"%string; schedule_dt := day0 |}.

Definition some_flags : ScheduleFlags :=
  {| description := Some "office hours"%string;
     stop_new_instances := Some true;
     use_maintenance_window := Some false;
     enforced := Some false;
     retain_running := Some false |}.

(** The seconds billed so far fit between midnight and a frontier [F]
    that nothing still to come precedes. *)
Definition walk_bounded (dt : datetime) (rest : list datetime) (st : Walk)
  : Prop :=
  Forall (on_day dt) rest ∧ StronglySorted minute_after rest ∧
  (∀ k rp, w_running_periods st !! k = Some rp → 0 ≤ rp_billing_seconds rp) ∧
  ∃ F, on_day dt F ∧
       sum_billing_seconds (w_running_periods st) * 1000000
         ≤ to_us F - to_us (replace dt 0 0) ∧
       Forall (fun tm => to_us F ≤ to_us tm) rest ∧
       (w_current_state st = Some STATE_RUNNING →
        ∃ b, w_started st = Some b ∧ to_us F ≤ to_us b ∧ on_day dt b ∧
             Forall (minute_after b) rest).

(** ** The running periods that begin latest *)

(** The type the result takes from the running period [p]: its type for
    an instance that may be resized, none otherwise. *)
Definition desired_type_of (inst : Instance.t) (p : PeriodWithState)
  : option string :=
  if Instance.allow_resize inst then pws_instancetype p else None.

(** No period of [l] begins later than [p]. *)
Definition begins_latest (l : list PeriodWithState) (p : PeriodWithState)
  : bool :=
  forallb (fun q => begin_le (pws_begin q) (pws_begin p)) l.

(** The periods of [l] that begin latest carry the same name and give the
    instance the same type. *)
Definition latest_agree (inst : Instance.t) (l : list PeriodWithState) : bool :=
  forallb (fun p => forallb (fun q =>
    implb (begins_latest l p && begins_latest l q)
          (bool_decide (Period.name (pws_period p) = Period.name (pws_period q))
           && bool_decide (desired_type_of inst p = desired_type_of inst q)))
    l) l.

(** ** The running intervals of a day *)

(** What a reading of the day's boundaries keeps track of: no interval is
    open, or one is, since [started] and under the name [name]. *)
Inductive Tracking : Type :=
  | Idle
  | Open (started : datetime) (name : option string).

(** The running intervals of a day in the order they are closed, read off
    the desired states [rs] at the day's boundaries: an interval opens at
    a boundary that resolves to running while none is open, under the
    name of the period that wins there; it is closed by the next boundary
    that resolves to stopped, or at [close], the end of the day, when no
    such boundary follows. Its type is the one resolved at the boundary
    that closes it, at the end of the day the one resolved last. *)
Fixpoint intervals_from (tr : Tracking) (last_type : option string)
  (close : datetime) (rs : list (datetime * DesiredState))
  : list (option string * RunningPeriod) :=
  match rs with
  | [] =>
      match tr with
      | Open started k => [(k, make_period started close last_type)]
      | Idle => []
      end
  | (tm, (desired_state, ty, nm)) :: rest =>
      match tr, desired_state with
      | Idle, STATE_RUNNING => intervals_from (Open tm nm) ty close rest
      | Open started k, STATE_STOPPED =>
          (k, make_period started tm ty) :: intervals_from Idle ty close rest
      | _, _ => intervals_from tr ty close rest
      end
  end.

Definition closed_intervals (close : datetime)
  (rs : list (datetime * DesiredState)) : list (option string * RunningPeriod) :=
  intervals_from Idle None close rs.

(** The map in which every interval of [l] is stored under its name, in
    the order of the list: of two intervals with the same name the later
    one remains. *)
Definition last_wins_from (m : gmap (option string) RunningPeriod)
  (l : list (option string * RunningPeriod))
  : gmap (option string) RunningPeriod :=
  fold_left (fun m kv => <[kv.1 := kv.2]> m) l m.

Definition last_wins (l : list (option string * RunningPeriod))
  : gmap (option string) RunningPeriod :=
  last_wins_from ∅ l.

(** The desired states at the instants [tms], each with its instant, as
    the walk obtains them one after the other. *)
Fixpoint resolved (self : InstanceSchedule) (inst : Instance.t)
  (tms : list datetime) : Result (list (datetime * DesiredState)) :=
  match tms with
  | [] => Ok []
  | tm :: rest =>
      r ← get_desired_state self inst (Some tm);
      rs ← resolved self inst rest;
      Ok ((tm, r) :: rs)
  end.

(** What the walk tracks, in the terms of [Tracking]. *)
Definition tracks (st : Walk) (tr : Tracking) : Prop :=
  match tr with
  | Idle => w_current_state st ≠ Some STATE_RUNNING
  | Open b k =>
      w_current_state st = Some STATE_RUNNING ∧ w_started st = Some b ∧
      w_starting_period st = k
  end.

(** [end_dt] is strictly before [start_dt], for two values Python orders:
    two dates or two datetimes. *)
Definition strictly_before (end_dt start_dt : PyDate) : Prop :=
  match end_dt, start_dt with
  | a_date e, a_date s => e < s
  | a_datetime e, a_datetime s => dt_lt e s = true
  | _, _ => False
  end.

(** ** Further schedules for the examples *)

(** The zones known are those of this list. *)
Definition only_utc (tz : string) : bool := bool_decide (tz = "UTC"%string).

(** A schedule without periods in a zone that does not exist. *)
Definition nowhere : InstanceSchedule :=
  {| name := "nowhere"; periods := Some []; timezone := "Mars/Olympus";
     override_status := None; schedule_dt := day0 |}.

(** Two periods that begin at 08:00 and one that begins at 09:00. *)
Definition eight_a : Period.t :=
  Period.mk "a" (Some (at_time 8 0)) (Some (at_time 17 0))
            (running_between 480 1020).

Definition eight_b : Period.t :=
  Period.mk "b" (Some (at_time 8 0)) (Some (at_time 18 0))
            (running_between 480 1080).

Definition tie_below : list SchedulePeriod :=
  [mk_entry eight_a None; mk_entry eight_b None; mk_entry office None].

(** The desired states of [split_schedule] at the boundaries of [day0]. *)
Definition split_day_results : list (datetime * DesiredState) :=
  [(replace day0 0 0, (STATE_STOPPED, None, None));
   (replace day0 9 0, (STATE_RUNNING, None, Some "split"%string));
   (replace day0 10 0, (STATE_STOPPED, None, None));
   (replace day0 14 0, (STATE_RUNNING, None, Some "split"%string));
   (replace day0 15 0, (STATE_STOPPED, None, None))].

Definition split_morning : RunningPeriod :=
  make_period (replace day0 9 0) (replace day0 10 0) None.

Definition split_afternoon : RunningPeriod :=
  make_period (replace day0 14 0) (replace day0 15 0) None.

Definition split_day : DayUsage :=
  {| running_periods := {[Some "split"%string := split_afternoon]};
     billing_seconds := 3600; billing_hours := 1 |}.

(** ** Tuple comparison *)

Lemma tuple_cmp_refl x : tuple_cmp x x = Eq.
Proof. induction x as [|a x IH]; simpl; [done|]. by rewrite Z.compare_refl. Qed.

Lemma tuple_cmp_eq x y : tuple_cmp x y = Eq → x = y.
Proof.
  revert y. induction x as [|a x IH]; intros [|b y]; simpl; try done.
  destruct (Z.compare_spec a b) as [Hab|Hab|Hab]; try done.
  intros Hxy. f_equal; [done|]. by apply IH.
Qed.

Lemma tuple_cmp_opp x y : tuple_cmp y x = CompOpp (tuple_cmp x y).
Proof.
  revert y. induction x as [|a x IH]; intros [|b y]; simpl; try done.
  rewrite (Z.compare_antisym a b).
  destruct (a ?= b); simpl; auto.
Qed.

Lemma tuple_cmp_lt_trans x y z :
  tuple_cmp x y = Lt → tuple_cmp y z = Lt → tuple_cmp x z = Lt.
Proof.
  revert y z. induction x as [|a x IH]; intros [|b y] [|c z]; simpl; try done.
  destruct (Z.compare_spec a b), (Z.compare_spec b c); try done; subst.
  - rewrite Z.compare_refl. apply IH.
  - intros _ _. by destruct (Z.compare_spec b c); try lia.
  - intros _ _. by destruct (Z.compare_spec a c); try lia.
  - intros _ _. by destruct (Z.compare_spec a c); try lia.
Qed.

Lemma tuple_cmp_not_gt_trans x y z :
  tuple_cmp x y ≠ Gt → tuple_cmp y z ≠ Gt → tuple_cmp x z ≠ Gt.
Proof.
  intros Hxy Hyz.
  destruct (tuple_cmp x y) eqn:E1; [| |done].
  - apply tuple_cmp_eq in E1. by subst.
  - destruct (tuple_cmp y z) eqn:E2; [| |done].
    + apply tuple_cmp_eq in E2. subst. by rewrite E1.
    + by rewrite (tuple_cmp_lt_trans x y z).
Qed.

Lemma time_tuple_inj a b : time_tuple a = time_tuple b → a = b.
Proof. destruct a, b. unfold time_tuple. simpl. congruence. Qed.

Lemma datetime_tuple_inj a b : datetime_tuple a = datetime_tuple b → a = b.
Proof. destruct a, b. unfold datetime_tuple. simpl. congruence. Qed.

Lemma dt_gt_lt a b : dt_gt a b = dt_lt b a.
Proof.
  unfold dt_gt, dt_lt. rewrite (tuple_cmp_opp (datetime_tuple a)).
  by destruct (tuple_cmp _ _).
Qed.

(** ** The tie-break *)

Lemma begin_le_refl a : begin_le a a = true.
Proof.
  destruct a as [x|]; simpl; [|done].
  unfold time_gt. by rewrite tuple_cmp_refl.
Qed.

Lemma begin_le_trans a b c :
  begin_le a b = true → begin_le b c = true → begin_le a c = true.
Proof.
  destruct a as [x|], b as [y|], c as [z|]; simpl; try done.
  unfold time_gt. intros H1 H2.
  pose proof (tuple_cmp_not_gt_trans (time_tuple x) (time_tuple y) (time_tuple z)) as H.
  destruct (tuple_cmp (time_tuple x) (time_tuple y)); try done;
    destruct (tuple_cmp (time_tuple y) (time_tuple z)); try done;
    destruct (tuple_cmp (time_tuple x) (time_tuple z)); try done;
    exfalso; by apply H.
Qed.

Lemma begin_le_antisym a b :
  begin_le a b = true → begin_le b a = true → a = b.
Proof.
  destruct a as [x|], b as [y|]; simpl; try done.
  unfold time_gt. rewrite (tuple_cmp_opp (time_tuple x) (time_tuple y)).
  destruct (tuple_cmp (time_tuple x) (time_tuple y)) eqn:E; simpl; try done.
  intros _ _. f_equal. by apply time_tuple_inj, tuple_cmp_eq.
Qed.

Lemma latest_starttime_cases p1 p2 :
  latest_starttime p1 p2 = p1 ∨ latest_starttime p1 p2 = p2.
Proof.
  unfold latest_starttime.
  destruct (Period.begintime (pws_period p1)); [|by right].
  destruct (Period.begintime (pws_period p2)); [|by left].
  destruct (time_gt _ _); auto.
Qed.

Lemma latest_starttime_ge_l p1 p2 :
  begin_le (pws_begin p1) (pws_begin (latest_starttime p1 p2)) = true.
Proof.
  destruct p1 as [[n1 [b1|] e1 f1] t1 s1], p2 as [[n2 [b2|] e2 f2] t2 s2];
    unfold latest_starttime, pws_begin; simpl; try done.
  - destruct (time_gt b1 b2) eqn:E; simpl.
    + apply (begin_le_refl (Some b1)).
    + by rewrite E.
  - apply (begin_le_refl (Some b1)).
Qed.

Lemma latest_starttime_ge_r p1 p2 :
  begin_le (pws_begin p2) (pws_begin (latest_starttime p1 p2)) = true.
Proof.
  destruct p1 as [[n1 [b1|] e1 f1] t1 s1], p2 as [[n2 [b2|] e2 f2] t2 s2];
    unfold latest_starttime, pws_begin; simpl; try done.
  - destruct (time_gt b1 b2) eqn:E; simpl.
    + unfold time_gt in *.
      rewrite (tuple_cmp_opp (time_tuple b1) (time_tuple b2)).
      by destruct (tuple_cmp (time_tuple b1) (time_tuple b2)).
    + apply (begin_le_refl (Some b2)).
  - apply (begin_le_refl (Some b2)).
Qed.

Lemma fold_latest_elem l x :
  fold_left latest_starttime l x ∈ x :: l.
Proof.
  revert x. induction l as [|y l IH]; intros x; simpl.
  - apply list_elem_of_here.
  - pose proof (IH (latest_starttime x y)) as Hin.
    apply elem_of_cons in Hin as [Hin | Hin].
    + rewrite Hin.
      destruct (latest_starttime_cases x y) as [E | E]; rewrite E.
      * apply list_elem_of_here.
      * apply list_elem_of_further, list_elem_of_here.
    + by do 2 apply list_elem_of_further.
Qed.

Lemma fold_latest_max l x p :
  p ∈ x :: l →
  begin_le (pws_begin p) (pws_begin (fold_left latest_starttime l x)) = true.
Proof.
  revert x p. induction l as [|y l IH]; intros x p Hp; simpl.
  - apply list_elem_of_singleton in Hp as ->. apply begin_le_refl.
  - apply elem_of_cons in Hp as [-> | Hp].
    + apply begin_le_trans with (pws_begin (latest_starttime x y)).
      * apply latest_starttime_ge_l.
      * apply IH, list_elem_of_here.
    + apply elem_of_cons in Hp as [-> | Hp].
      * apply begin_le_trans with (pws_begin (latest_starttime x y)).
        -- apply latest_starttime_ge_r.
        -- apply IH, list_elem_of_here.
      * by apply IH, list_elem_of_further.
Qed.

(** The winner of a non-empty list of running periods. *)
Lemma reduce_latest_spec running :
  running ≠ [] →
  ∃ w, _reduce latest_starttime running = Some w ∧ w ∈ running ∧
       ∀ p, p ∈ running → begin_le (pws_begin p) (pws_begin w) = true.
Proof.
  destruct running as [|x l]; [done|]. intros _.
  exists (fold_left latest_starttime l x). split; [done|]. split.
  - apply fold_latest_elem.
  - intros p Hp. by apply fold_latest_max.
Qed.

(** ** Desired-state resolution *)

Lemma get_desired_state_running self inst dt ps :
  override_status self = None → periods self = Some ps →
  running_at self dt ps ≠ [] →
  get_desired_state self inst dt =
    handle_running_state inst (running_at self dt ps).
Proof.
  intros Ho Hp Hne. unfold get_desired_state, resolve. rewrite Ho, Hp.
  fold (running_at self dt ps).
  by destruct (running_at self dt ps).
Qed.

Lemma get_desired_state_not_running self inst dt ps :
  override_status self = None → periods self = Some ps →
  running_at self dt ps = [] →
  get_desired_state self inst dt =
    Ok (if existsb (is_state STATE_ANY) (map (poll (get_check_time self dt)) ps)
        then handle_any_state else handle_stopped_state).
Proof.
  intros Ho Hp Hr. unfold get_desired_state, resolve. rewrite Ho, Hp.
  fold (running_at self dt ps). rewrite Hr.
  by destruct (existsb _ _).
Qed.

(** With [allow_resize] false neither [is_running] nor [instancetype] of
    the instance is read. *)
Lemma get_desired_state_no_resize self i1 i2 dt :
  Instance.allow_resize i1 = false → Instance.allow_resize i2 = false →
  get_desired_state self i1 dt = get_desired_state self i2 dt.
Proof.
  intros H1 H2. unfold get_desired_state, resolve, handle_running_state,
    requires_adjust_instance_size.
  by rewrite H1, H2.
Qed.

(** [get_desired_state] raises only when [periods] is [None] and no override
    is set. *)
Lemma get_desired_state_ok self inst dt :
  (override_status self = None → periods self ≠ None) →
  ∃ r, get_desired_state self inst dt = Ok r.
Proof.
  intros Hp. unfold get_desired_state.
  destruct (override_status self) as [o|]; [by eexists|].
  destruct (periods self) as [ps|]; [|by destruct Hp].
  unfold resolve.
  destruct (List.filter _ _) as [|x l] eqn:E.
  - destruct (existsb _ _); by eexists.
  - unfold handle_running_state. simpl. by eexists.
Qed.

(** C3: with [override_status] set, the result is running when the override
    equals [OVERRIDE_STATUS_RUNNING] and stopped otherwise, the period name
    is "override_status", there is no resource type, and the periods are
    not consulted: any list of periods, or none at all, gives this same
    result for every instance and instant. *)
Theorem override_status_decides self inst dt o :
  override_status self = Some o →
  get_desired_state self inst dt =
    Ok (if bool_decide (o = OVERRIDE_STATUS_RUNNING)
        then STATE_RUNNING else STATE_STOPPED,
        None, Some "override_status"%string) ∧
  ∀ ps inst' dt',
    get_desired_state (with_periods self ps) inst' dt' =
    get_desired_state self inst dt.
Proof.
  intros Ho. unfold get_desired_state, with_periods. simpl. by rewrite Ho.
Qed.

(** With the zone found, an empty list of periods and no override resolve
    to stopped. *)
Lemma get_desired_state_empty self inst dt :
  periods self = Some [] → override_status self = None →
  get_desired_state self inst dt = Ok (STATE_STOPPED, None, None).
Proof.
  intros Hp Ho. unfold get_desired_state. by rewrite Ho, Hp.
Qed.

(** C2: when at least one period reports running, exactly one of the
    running periods is selected, the result of [_reduce latest_starttime];
    its name is the period name returned; no running period has a later
    begin time, a period without begin time counting as earliest, so the
    winner has a begin time as soon as some running period has one; a
    single running period wins. *)
Theorem latest_begin_wins self inst dt ps :
  override_status self = None → periods self = Some ps →
  running_at self dt ps ≠ [] →
  ∃ w state,
    _reduce latest_starttime (running_at self dt ps) = Some w ∧
    w ∈ running_at self dt ps ∧
    get_desired_state self inst dt =
      Ok (state,
          if Instance.allow_resize inst then pws_instancetype w else None,
          Some (Period.name (pws_period w))) ∧
    (∀ p, p ∈ running_at self dt ps →
          begin_le (pws_begin p) (pws_begin w) = true) ∧
    (∀ p, p ∈ running_at self dt ps →
          is_Some (pws_begin p) → is_Some (pws_begin w)) ∧
    (∀ p, running_at self dt ps = [p] → w = p).
Proof.
  intros Ho Hp Hne.
  destruct (reduce_latest_spec _ Hne) as (w & Hw & Hin & Hmax).
  exists w. eexists. split; [done|]. split; [done|]. split; [|split; [|split]].
  - rewrite (get_desired_state_running self inst dt ps Ho Hp Hne).
    unfold handle_running_state. rewrite Hw. reflexivity.
  - done.
  - intros p Hpin [b Hb]. specialize (Hmax p Hpin). rewrite Hb in Hmax.
    destruct (pws_begin w); [by eexists|done].
  - intros p Hsingle. rewrite Hsingle in Hw. simpl in Hw. congruence.
Qed.

(** C1, as the code has it: when at least one period reports running, the
    state is stopped exactly when [allow_resize] and [is_running] hold of
    the instance and the winning period carries a type that differs from
    the instance's type (an instance without type differs from every
    type); otherwise the state is running. The type returned is the
    winner's, and [None] when [allow_resize] is false. *)
Theorem resize_forces_stop self inst dt ps :
  override_status self = None → periods self = Some ps →
  running_at self dt ps ≠ [] →
  ∃ w state,
    _reduce latest_starttime (running_at self dt ps) = Some w ∧
    get_desired_state self inst dt =
      Ok (state,
          if Instance.allow_resize inst then pws_instancetype w else None,
          Some (Period.name (pws_period w))) ∧
    (state = STATE_STOPPED ↔
       Instance.allow_resize inst = true ∧ Instance.is_running inst = true ∧
       ∃ d, pws_instancetype w = Some d ∧ Instance.instancetype inst ≠ Some d) ∧
    (state ≠ STATE_STOPPED → state = STATE_RUNNING).
Proof.
  intros Ho Hp Hne.
  destruct (reduce_latest_spec _ Hne) as (w & Hw & _ & _).
  exists w. eexists. split; [done|]. split.
  - rewrite (get_desired_state_running self inst dt ps Ho Hp Hne).
    unfold handle_running_state. rewrite Hw. reflexivity.
  - unfold requires_adjust_instance_size.
    destruct (Instance.allow_resize inst); simpl.
    2:{ split; [|done]. split; [done|]. by intros (? & _). }
    destruct (pws_instancetype w) as [d|]; simpl.
    2:{ split; [|done]. split; [done|]. by intros (_ & _ & ? & ? & _). }
    destruct (Instance.is_running inst); simpl.
    2:{ split; [|done]. split; [done|]. by intros (_ & ? & _). }
    case_bool_decide as Hd.
    + split; [|done]. split; [|done]. intros _.
      repeat split. exists d. split; [done|]. congruence.
    + split; [|done]. split; [done|].
      intros (_ & _ & d' & Hd' & Hne'). exfalso. apply Hne'. congruence.
Qed.

(** ** Reordering the periods *)

Lemma filter_Permutation {A} (f : A → bool) (l l' : list A) :
  l ≡ₚ l' → List.filter f l ≡ₚ List.filter f l'.
Proof.
  induction 1 as [|x l l' _ IH|x y l|l l' l'' _ IH1 _ IH2]; simpl.
  - done.
  - destruct (f x); [by constructor|done].
  - destruct (f x), (f y); try done. apply perm_swap.
  - by etrans.
Qed.

Lemma existsb_Permutation {A} (f : A → bool) (l l' : list A) :
  l ≡ₚ l' → existsb f l = existsb f l'.
Proof.
  induction 1 as [|x l l' _ IH|x y l|l l' l'' _ IH1 _ IH2]; simpl.
  - done.
  - by rewrite IH.
  - by destruct (f x), (f y).
  - by etrans.
Qed.

Lemma running_at_Permutation self dt ps ps' :
  ps ≡ₚ ps' → running_at self dt ps ≡ₚ running_at self dt ps'.
Proof.
  intros H. unfold running_at. by apply filter_Permutation, Permutation_map.
Qed.


(** ** Datetime arithmetic *)

Lemma to_us_of_us n : to_us (of_us n) = n.
Proof. unfold to_us, of_us. simpl. Z.div_mod_to_equations. lia. Qed.

Lemma to_us_add_us d n : to_us (add_us d n) = to_us d + n.
Proof. apply to_us_of_us. Qed.

Lemma to_us_replace d h m :
  to_us (replace d h m) =
  (((ordinal d * 24 + h) * 60 + m) * 60 + second d) * 1000000 + microsecond d.
Proof. done. Qed.

Global Instance datetime_le_trans : Transitive datetime_le.
Proof.
  intros a b c. unfold datetime_le, dt_le, dt_gt. intros H1 H2.
  pose proof (tuple_cmp_not_gt_trans
                (datetime_tuple a) (datetime_tuple b) (datetime_tuple c)) as Ht.
  destruct (tuple_cmp (datetime_tuple a) (datetime_tuple b)); try done;
    destruct (tuple_cmp (datetime_tuple b) (datetime_tuple c)); try done;
    destruct (tuple_cmp (datetime_tuple a) (datetime_tuple c)); try done;
    exfalso; by apply Ht.
Qed.

Global Instance datetime_le_total : Total datetime_le.
Proof.
  intros a b. unfold datetime_le, dt_le, dt_gt.
  rewrite (tuple_cmp_opp (datetime_tuple a) (datetime_tuple b)).
  destruct (tuple_cmp (datetime_tuple a) (datetime_tuple b)); simpl; auto.
Qed.

Lemma dt_le_ordinal a b : dt_le a b = true → ordinal a ≤ ordinal b.
Proof.
  unfold dt_le, dt_gt, datetime_tuple. simpl.
  destruct (Z.compare_spec (ordinal a) (ordinal b)); [lia|lia|done].
Qed.

(** ** The boundary timeline *)

Lemma valid_time_on_day dt t :
  valid_time t = true → on_day dt (replace dt (t_hour t) (t_minute t)).
Proof.
  unfold valid_time. intros H. exists (t_hour t), (t_minute t).
  repeat (apply andb_true_iff in H as [H ?]). split_and!; try lia; done.
Qed.

Lemma on_day_midnight dt : on_day dt (replace dt 0 0).
Proof. exists 0, 0. split_and!; try lia; done. Qed.

Lemma on_day_last_minute dt : on_day dt (replace dt 23 59).
Proof. exists 23, 59. split_and!; try lia; done. Qed.

Lemma add_boundaries_on_day dt timeline p :
  valid_opt_time (Period.begintime (period p)) = true →
  valid_opt_time (Period.endtime (period p)) = true →
  (∀ tm, tm ∈ timeline → on_day dt tm) →
  ∀ tm, tm ∈ add_boundaries dt timeline p → on_day dt tm.
Proof.
  intros Hb He Hall tm. unfold add_boundaries.
  pose proof (on_day_midnight dt) as H0.
  pose proof (on_day_last_minute dt) as H1.
  destruct (Period.begintime (period p)) as [b|],
           (Period.endtime (period p)) as [e|]; simpl in *;
    rewrite ?elem_of_union, ?elem_of_singleton;
    try pose proof (valid_time_on_day dt b Hb) as Hb';
    try pose proof (valid_time_on_day dt e He) as He';
    intros Hin; repeat destruct Hin as [Hin|Hin]; subst; auto.
Qed.

Lemma fold_boundaries_on_day dt ps timeline tm :
  valid_periods ps = true →
  (∀ tm, tm ∈ timeline → on_day dt tm) →
  tm ∈ fold_left (add_boundaries dt) ps timeline → on_day dt tm.
Proof.
  revert timeline. induction ps as [|p ps IH]; intros timeline Hv Hinit;
    simpl in *.
  - apply Hinit.
  - apply andb_true_iff in Hv as [Hp Hv].
    apply andb_true_iff in Hp as [Hb He].
    apply IH; [done|].
    by apply add_boundaries_on_day.
Qed.

Lemma build_timeline_on_day ps dt tm :
  valid_periods ps = true → tm ∈ build_timeline ps dt → on_day dt tm.
Proof.
  intros Hv Hin.
  apply (fold_boundaries_on_day dt ps {[replace dt 0 0]} tm Hv); [|exact Hin].
  intros tm' Htm'. apply elem_of_singleton in Htm'. subst tm'.
  apply on_day_midnight.
Qed.

Lemma on_day_order dt a b :
  on_day dt a → on_day dt b → datetime_le a b → a ≠ b → minute_after a b.
Proof.
  intros (h & m & Hh & Hm & ->) (h' & m' & Hh' & Hm' & ->).
  unfold datetime_le, dt_le, dt_gt, datetime_tuple, minute_after.
  rewrite !to_us_replace. simpl. rewrite Z.compare_refl.
  intros Hle Hne.
  destruct (Z.compare_spec h h') as [->|Hlt|Hgt]; [|nia|done].
  destruct (Z.compare_spec m m') as [->|Hlt|Hgt]; [done|nia|done].
Qed.

Lemma on_day_before_close dt a : on_day dt a → minute_after a (day_close dt).
Proof.
  intros (h & m & Hh & Hm & ->). unfold minute_after, day_close.
  rewrite to_us_add_us, !to_us_replace. nia.
Qed.

(** The sorted timeline ascends in steps of at least one minute. *)
Lemma sorted_timeline_ascending ps dt :
  valid_periods ps = true →
  Forall (on_day dt) (sorted_timeline (build_timeline ps dt)) ∧
  StronglySorted minute_after (sorted_timeline (build_timeline ps dt)).
Proof.
  intros Hv. unfold sorted_timeline.
  set (l := merge_sort datetime_le (elements (build_timeline ps dt))).
  assert (l ≡ₚ elements (build_timeline ps dt)) as Hperm
    by apply merge_sort_Permutation.
  assert (Forall (on_day dt) l) as Hall.
  { apply Forall_forall. intros tm Hin. rewrite Hperm in Hin.
    apply elem_of_elements in Hin. by eapply build_timeline_on_day. }
  assert (NoDup l) as Hnd by (rewrite Hperm; apply NoDup_elements).
  assert (StronglySorted datetime_le l) as Hs
    by apply (StronglySorted_merge_sort _).
  split; [done|].
  clearbody l. clear Hperm.
  induction Hs as [|a l Hs IH Ha]; [constructor|].
  apply NoDup_cons in Hnd as [Hnotin Hnd].
  apply Forall_cons in Hall as [Hon Hall].
  constructor; [by apply IH|].
  apply Forall_forall. intros b Hb.
  apply (on_day_order dt); [done| |by eapply Forall_forall in Ha|].
  - by eapply Forall_forall in Hall.
  - intros ->. done.
Qed.

(** ** The boundary walk *)

Lemma walk_step_ok st tm r :
  started_set st → ∃ st', walk_step st tm r = Ok st' ∧ started_set st'.
Proof.
  destruct r as [[ds ty] p]. unfold started_set, walk_step, close_period.
  intros Hst. simpl.
  repeat case_bool_decide; simpl; try (eexists; split; [reflexivity|done]).
  destruct (Hst ltac:(done)) as [b ->].
  eexists; split; [reflexivity|done].
Qed.

Lemma walk_ok self inst st tms :
  (override_status self = None → periods self ≠ None) →
  started_set st →
  ∃ st', walk self inst st tms = Ok st' ∧ started_set st'.
Proof.
  intros Hp. revert st. induction tms as [|tm rest IH]; intros st Hst; simpl.
  - by eexists.
  - destruct (get_desired_state_ok self inst (Some tm) Hp) as [r ->]. simpl.
    destruct (walk_step_ok st tm r Hst) as (st' & -> & Hst'). simpl.
    by apply IH.
Qed.

Lemma walk_step_inv dt st tm rest r st' :
  walk_step st tm r = Ok st' →
  on_day dt tm → Forall (minute_after tm) rest →
  walk_inv dt (tm :: rest) st → walk_inv dt rest st'.
Proof.
  destruct r as [[ds ty] p]. unfold walk_step, close_period, walk_inv.
  intros Hstep Hon Hafter [Hgood Hrun]. simpl in Hstep.
  assert (w_current_state st = Some STATE_RUNNING →
          ∃ b, w_started st = Some b ∧ on_day dt b ∧ minute_after b tm ∧
               Forall (minute_after b) rest) as Hrun'.
  { intros Hc. destruct (Hrun Hc) as (b & Hb & Hbon & Hall).
    apply Forall_cons in Hall as [? ?]. by exists b. }
  repeat case_bool_decide; simpl in *.
  - inversion Hstep; subst; clear Hstep. simpl. split; [done|].
    intros _. by exists tm.
  - destruct (Hrun' ltac:(done)) as (b & Hb & Hbon & Hbtm & Hall).
    rewrite Hb in Hstep. inversion Hstep; subst; clear Hstep. simpl.
    split; [|done]. intros k rp Hk.
    destruct (decide (w_starting_period st = k)) as [Heq|Hne]; [subst k|].
    + rewrite lookup_insert_eq in Hk. inversion Hk; subst; clear Hk.
      unfold good_period. simpl. auto.
    + rewrite lookup_insert_ne in Hk by done. by eapply Hgood.
  - inversion Hstep; subst; clear Hstep. simpl. split; [done|].
    intros Hc. destruct (Hrun' Hc) as (b & ? & ? & ? & ?). by exists b.
  - inversion Hstep; subst; clear Hstep. simpl. split; [done|].
    intros Hc. destruct (Hrun' Hc) as (b & ? & ? & ? & ?). by exists b.
  - inversion Hstep; subst; clear Hstep. simpl. split; [done|].
    intros Hc. destruct (Hrun' Hc) as (b & ? & ? & ? & ?). by exists b.
Qed.

Lemma walk_inv_preserved self inst dt st tms st' :
  walk self inst st tms = Ok st' →
  Forall (on_day dt) tms → StronglySorted minute_after tms →
  walk_inv dt tms st → walk_inv dt [] st'.
Proof.
  revert st. induction tms as [|tm rest IH]; intros st Hwalk Hon Hsorted Hinv;
    simpl in Hwalk.
  - by inversion Hwalk; subst.
  - destruct (get_desired_state self inst (Some tm)) as [r|e]; [|done].
    simpl in Hwalk.
    destruct (walk_step st tm r) as [st1|e] eqn:Hstep; [|done].
    simpl in Hwalk.
    apply Forall_cons in Hon as [Hon1 Hon].
    apply StronglySorted_inv in Hsorted as [Hsorted Hafter].
    apply (IH st1); try done.
    by eapply walk_step_inv.
Qed.

Lemma walk_init_inv dt tms : walk_inv dt tms walk_init.
Proof.
  split; [|done]. intros k rp Hk. unfold walk_init in Hk. simpl in Hk.
  by rewrite lookup_empty in Hk.
Qed.

(** Every interval of a day's entry is a [good_period], and the totals are
    the sums over the entry's map. *)
Lemma day_usage_good self instance dt ps d :
  periods self = Some ps → valid_periods ps = true →
  day_usage self instance dt = Ok d →
  (∀ k rp, running_periods d !! k = Some rp → good_period dt rp) ∧
  billing_seconds d = sum_billing_seconds (running_periods d) ∧
  billing_hours d = sum_billing_hours (running_periods d).
Proof.
  intros Hp Hv. unfold day_usage. rewrite Hp.
  destruct (sorted_timeline_ascending ps dt Hv) as [Hon Hsorted].
  destruct (walk _ _ _ _) as [st|e] eqn:Hwalk; [|done]. simpl.
  pose proof (walk_inv_preserved _ _ dt _ _ _ Hwalk Hon Hsorted
                (walk_init_inv dt _)) as [Hgood Hrun].
  case_bool_decide as Hc; simpl.
  - destruct (Hrun Hc) as (b & Hb & Hbon & _).
    unfold close_period. rewrite Hb. simpl.
    intros Hd. inversion Hd; subst; clear Hd. simpl.
    split; [|done]. intros k rp Hk.
    destruct (decide (w_starting_period st = k)) as [Heq|Hne]; [subst k|].
    + rewrite lookup_insert_eq in Hk. inversion Hk; subst; clear Hk.
      unfold good_period. simpl. split_and!; auto.
      by apply on_day_before_close.
    + rewrite lookup_insert_ne in Hk by done. by eapply Hgood.
  - intros Hd. inversion Hd; subst; clear Hd. simpl. done.
Qed.

Lemma day_usage_ok self instance dt :
  periods self ≠ None → ∃ d, day_usage self instance dt = Ok d.
Proof.
  intros Hp. unfold day_usage.
  destruct (periods self) as [ps|] eqn:E; [|done].
  destruct (walk_ok self (default placeholder_instance instance) walk_init
              (sorted_timeline (build_timeline ps dt))) as (st & -> & Hst).
  { intros _. by rewrite E. }
  { done. }
  simpl. case_bool_decide as Hc; simpl.
  - destruct (Hst Hc) as [b Hb]. unfold close_period. rewrite Hb. simpl.
    by eexists.
  - by eexists.
Qed.

(** ** The loop over the days *)

Lemma day_of_ordinal dt : day_of dt (ordinal dt) = dt.
Proof. by destruct dt. Qed.

(** The bound on the iterations is never what ends the loop: with more
    fuel the result is the same. *)
Lemma usage_loop_fuel self instance stop n dt result :
  (Z.to_nat (ordinal stop - ordinal dt + 1) ≤ n)%nat →
  usage_loop self instance stop n dt result =
  usage_loop self instance stop (Z.to_nat (ordinal stop - ordinal dt + 1))
    dt result.
Proof.
  revert dt result. induction n as [|n IH]; intros dt result Hn.
  - by replace (Z.to_nat (ordinal stop - ordinal dt + 1)) with 0%nat by lia.
  - simpl. destruct (dt_le dt stop) eqn:Hle.
    + pose proof (dt_le_ordinal _ _ Hle) as Hord.
      replace (Z.to_nat (ordinal stop - ordinal dt + 1))
        with (S (Z.to_nat (ordinal stop - ordinal (add_day dt) + 1)))
        by (simpl; lia).
      simpl. rewrite Hle.
      destruct (day_usage self instance dt) as [day|e]; [|done]. simpl.
      apply IH. simpl in *. lia.
    + destruct (Z.to_nat _); [done|]. simpl. by rewrite Hle.
Qed.

Lemma usage_loop_ok self instance stop fuel dt result :
  periods self ≠ None →
  ∃ res, usage_loop self instance stop fuel dt result = Ok res.
Proof.
  intros Hp. revert dt result.
  induction fuel as [|fuel IH]; intros dt result; simpl.
  - by eexists.
  - destruct (dt_le dt stop); [|by eexists].
    destruct (day_usage_ok self instance dt Hp) as [d ->]. simpl.
    apply IH.
Qed.

Lemma usage_loop_entries self instance stop fuel dt result res o d :
  usage_loop self instance stop fuel dt result = Ok res →
  res !! o = Some d →
  result !! o = Some d ∨ day_usage self instance (day_of dt o) = Ok d.
Proof.
  revert dt result. induction fuel as [|fuel IH]; intros dt result; simpl.
  - intros Hres. inversion Hres; subst. auto.
  - destruct (dt_le dt stop); [|intros Hres; inversion Hres; subst; auto].
    destruct (day_usage self instance dt) as [day|e] eqn:Hday; [|done]. simpl.
    intros Hloop Hlook.
    destruct (IH _ _ Hloop Hlook) as [Hin|Hin]; [|by right].
    destruct (decide (ordinal dt = o)) as [Heq|Hne].
    + subst o. rewrite lookup_insert_eq in Hin. inversion Hin; subst.
      right. by rewrite day_of_ordinal.
    + rewrite lookup_insert_ne in Hin by done. by left.
Qed.

(** Every entry of the result is the [day_usage] of the start instant's
    clock on the entry's date. *)
Lemma get_usage_entries self start_dt stop_dt instance u o d :
  get_usage self start_dt stop_dt instance = Ok u →
  usage u !! o = Some d →
  day_usage self instance (day_of start_dt o) = Ok d.
Proof.
  unfold get_usage. destruct (dt_gt _ _); [done|].
  destruct (usage_loop _ _ _ _ _ _) as [res|e] eqn:Hloop; [|done]. simpl.
  intros Hu. inversion Hu; subst; clear Hu. simpl. intros Hlook.
  destruct (usage_loop_entries _ _ _ _ _ _ _ _ _ Hloop Hlook) as [Hin|Hin];
    [|done].
  by rewrite lookup_empty in Hin.
Qed.

Lemma get_usage_ok self start_dt stop_dt instance :
  periods self ≠ None →
  dt_gt start_dt (default start_dt stop_dt) = false →
  ∃ u, get_usage self start_dt stop_dt instance = Ok u.
Proof.
  intros Hp Hgt. unfold get_usage. rewrite Hgt.
  destruct (usage_loop_ok self instance (default start_dt stop_dt)
    (Z.to_nat (ordinal (default start_dt stop_dt) - ordinal start_dt + 1))
    start_dt ∅ Hp) as [res ->].
  simpl. by eexists.
Qed.

Lemma dt_gt_irrefl a : dt_gt a a = false.
Proof. unfold dt_gt. by rewrite tuple_cmp_refl. Qed.

(** Without a list of periods the first day of the loop raises. *)
Lemma get_usage_without_periods self start_dt instance :
  periods self = None →
  get_usage self start_dt None instance = Raise TypeError.
Proof.
  intros Hp. unfold get_usage. simpl. rewrite dt_gt_irrefl.
  replace (Z.to_nat (ordinal start_dt - ordinal start_dt + 1))
    with 1%nat by lia.
  simpl. unfold dt_le. rewrite dt_gt_irrefl. simpl.
  unfold day_usage. by rewrite Hp.
Qed.


(** ** Billing *)

Lemma running_seconds_floor b e :
  minute_after b e →
  running_seconds b e = Z.max ((to_us e - to_us b) / 1000000) 60.
Proof.
  unfold minute_after, running_seconds. intros H.
  by rewrite Z.quot_div_nonneg by lia.
Qed.

Lemma running_hours_floor b e :
  minute_after b e →
  running_hours b e = (to_us e - to_us b - 1000000) / 3600000000 + 1.
Proof.
  unfold minute_after, running_hours. intros H.
  by rewrite Z.quot_div_nonneg by lia.
Qed.

Lemma running_seconds_min b e : 60 ≤ running_seconds b e.
Proof. unfold running_seconds. lia. Qed.

Lemma running_hours_min b e : minute_after b e → 1 ≤ running_hours b e.
Proof.
  intros H. rewrite running_hours_floor by done. unfold minute_after in H.
  assert (0 ≤ (to_us e - to_us b - 1000000) / 3600000000)
    by (apply Z.div_pos; lia).
  lia.
Qed.

Lemma on_day_ordinal dt tm : on_day dt tm → ordinal tm = ordinal dt.
Proof. by intros (h & m & _ & _ & ->). Qed.

Lemma day_close_whole_minute start o :
  second start = 0 → microsecond start = 0 →
  day_close (day_of start o) = mk_datetime (o + 1) 0 0 0 0.
Proof.
  intros Hs Hu. unfold day_close, add_us, of_us, to_us, replace, day_of.
  simpl. rewrite Hs, Hu.
  f_equal; Z.div_mod_to_equations; lia.
Qed.

(** Python's [<] on datetimes with fields in range is the order of
    elapsed time. *)
Lemma dt_lt_to_us a b :
  valid_datetime a = true → valid_datetime b = true →
  dt_lt a b = true ↔ to_us a < to_us b.
Proof.
  unfold valid_datetime. intros Ha Hb.
  repeat (apply andb_true_iff in Ha as [Ha ?]).
  repeat (apply andb_true_iff in Hb as [Hb ?]).
  unfold dt_lt, datetime_tuple, to_us. simpl.
  destruct (Z.compare_spec (ordinal a) (ordinal b)) as [Ho|Ho|Ho];
    [|split; [nia|done]|split; [done|nia]].
  destruct (Z.compare_spec (hour a) (hour b)) as [Hh|Hh|Hh];
    [|split; [nia|done]|split; [done|nia]].
  destruct (Z.compare_spec (minute a) (minute b)) as [Hm|Hm|Hm];
    [|split; [nia|done]|split; [done|nia]].
  destruct (Z.compare_spec (second a) (second b)) as [Hs|Hs|Hs];
    [|split; [nia|done]|split; [done|nia]].
  destruct (Z.compare_spec (microsecond a) (microsecond b)) as [Hu|Hu|Hu];
    [split; [done|nia]|split; [nia|done]|split; [done|nia]].
Qed.

Lemma get_usage_good self start_dt stop_dt instance ps u o d k rp :
  periods self = Some ps → valid_periods ps = true →
  get_usage self start_dt stop_dt instance = Ok u →
  usage u !! o = Some d → running_periods d !! k = Some rp →
  good_period (day_of start_dt o) rp.
Proof.
  intros Hp Hv Hu Hd Hk.
  pose proof (get_usage_entries _ _ _ _ _ _ _ Hu Hd) as Hday.
  destruct (day_usage_good _ _ _ _ _ Hp Hv Hday) as (Hgood & _).
  by eapply Hgood.
Qed.

(** C9, as the code has it: every interval of a day's map begins strictly
    before it ends; it begins at an instant of the covered day, and ends
    at an instant of the covered day or at the synthesized close, 23:59 of
    that day plus one minute with the seconds and microseconds of the
    start instant, which is the end of the covered day when the start
    instant has neither; its [billing_seconds] is at least 60 and its
    [billing_hours] at least 1. *)
Theorem intervals_ordered self start_dt stop_dt instance ps u o d k rp :
  periods self = Some ps → valid_periods ps = true →
  get_usage self start_dt stop_dt instance = Ok u →
  usage u !! o = Some d → running_periods d !! k = Some rp →
  to_us (rp_begin rp) < to_us (rp_end rp) ∧
  ordinal (rp_begin rp) = o ∧
  on_day (day_of start_dt o) (rp_begin rp) ∧
  (on_day (day_of start_dt o) (rp_end rp) ∨
   rp_end rp = day_close (day_of start_dt o)) ∧
  (second start_dt = 0 → microsecond start_dt = 0 →
   day_close (day_of start_dt o) = mk_datetime (o + 1) 0 0 0 0) ∧
  60 ≤ rp_billing_seconds rp ∧ 1 ≤ rp_billing_hours rp.
Proof.
  intros Hp Hv Hu Hd Hk.
  destruct (get_usage_good _ _ _ _ _ _ _ _ _ _ Hp Hv Hu Hd Hk)
    as (Hb & He & Hgap & Heq).
  split_and!.
  - unfold minute_after in Hgap. lia.
  - by rewrite (on_day_ordinal _ _ Hb).
  - done.
  - done.
  - apply day_close_whole_minute.
  - rewrite Heq. simpl. apply running_seconds_min.
  - rewrite Heq. simpl. by apply running_hours_min.
Qed.

(** C5: for every interval of the result, [billing_seconds] is
    [max(floor(seconds), 60)] and [billing_hours] is
    [floor((seconds - 1) / 3600) + 1], the seconds being the time from
    begin to end; and for any two instants, 60 seconds apart give 60
    seconds and 1 hour, 3601 seconds apart give 2 hours, 8 hours apart
    give 28800 seconds and 8 hours. *)
Theorem billing_formulas :
  (∀ self start_dt stop_dt instance ps u o d k rp,
     periods self = Some ps → valid_periods ps = true →
     get_usage self start_dt stop_dt instance = Ok u →
     usage u !! o = Some d → running_periods d !! k = Some rp →
     rp_billing_seconds rp =
       Z.max ((to_us (rp_end rp) - to_us (rp_begin rp)) / 1000000) 60 ∧
     rp_billing_hours rp =
       (to_us (rp_end rp) - to_us (rp_begin rp) - 1000000) / 3600000000 + 1) ∧
  (∀ b e ty,
     (to_us e - to_us b = 60 * 1000000 →
      rp_billing_seconds (make_period b e ty) = 60 ∧
      rp_billing_hours (make_period b e ty) = 1) ∧
     (to_us e - to_us b = 3601 * 1000000 →
      rp_billing_hours (make_period b e ty) = 2) ∧
     (to_us e - to_us b = 8 * 3600 * 1000000 →
      rp_billing_seconds (make_period b e ty) = 28800 ∧
      rp_billing_hours (make_period b e ty) = 8)).
Proof.
  split.
  - intros self start_dt stop_dt instance ps u o d k rp Hp Hv Hu Hd Hk.
    destruct (get_usage_good _ _ _ _ _ _ _ _ _ _ Hp Hv Hu Hd Hk)
      as (_ & _ & Hgap & Heq).
    rewrite Heq. simpl. split.
    + by apply running_seconds_floor.
    + by apply running_hours_floor.
  - intros b e ty. unfold make_period, running_seconds, running_hours. simpl.
    split_and!; intros ->; done.
Qed.

(** ** Intervals under the same period name *)

Lemma walk_step_stop st tm ty p :
  w_current_state st = Some STATE_RUNNING →
  walk_step st tm (STATE_STOPPED, ty, p) =
    close_period (with_instance_type st ty) tm (Some STATE_STOPPED).
Proof.
  intros Hc. unfold walk_step. simpl. rewrite Hc.
  by repeat case_bool_decide.
Qed.

Lemma total_insert_fresh (f : RunningPeriod → Z)
  (m : gmap (option string) RunningPeriod) k rp :
  m !! k = None → map_total f (<[k := rp]> m) = f rp + map_total f m.
Proof.
  intros Hk. unfold map_total.
  rewrite map_fold_insert_L; [done| |done]. intros. lia.
Qed.

Lemma total_overwrite (f : RunningPeriod → Z)
  (m : gmap (option string) RunningPeriod) k rp old :
  m !! k = Some old →
  map_total f (<[k := rp]> m) = map_total f m - f old + f rp.
Proof.
  intros Hk.
  rewrite <- insert_delete_eq.
  rewrite total_insert_fresh by apply lookup_delete_eq.
  unfold map_total at 2.
  rewrite (map_fold_delete_L _ _ k old m); [|intros; lia|done].
  fold (map_total f (delete k m)). lia.
Qed.


(** ** Boundaries that resolve to any *)

(** C10: at a boundary whose desired state is any or unknown the walk
    keeps its map of intervals, [started], [starting_period] and
    [current_state]; only [instance_type] takes the value returned by the
    evaluation. Hence the walk from such a boundary on is the walk over
    the remaining boundaries from the same tracked state: an interval open
    before it stays open until a later boundary resolves to stopped or the
    day-end close. *)
Theorem any_state_keeps_interval :
  (∀ st tm ds ty p,
     ds = STATE_ANY ∨ ds = STATE_UNKNOWN →
     walk_step st tm (ds, ty, p) = Ok (with_instance_type st ty)) ∧
  (∀ self inst st tm rest ds ty p,
     get_desired_state self inst (Some tm) = Ok (ds, ty, p) →
     ds = STATE_ANY ∨ ds = STATE_UNKNOWN →
     walk self inst st (tm :: rest) =
     walk self inst (with_instance_type st ty) rest).
Proof.
  assert (∀ st tm ds ty p,
     ds = STATE_ANY ∨ ds = STATE_UNKNOWN →
     walk_step st tm (ds, ty, p) = Ok (with_instance_type st ty)) as Hstep.
  { intros st tm ds ty p Hds. unfold walk_step, with_instance_type. simpl.
    destruct Hds as [-> | ->]; by repeat case_bool_decide. }
  split; [done|].
  intros self inst st tm rest ds ty p Hgds Hds.
  change (walk self inst st (tm :: rest))
    with (get_desired_state self inst (Some tm) ≫= fun r =>
          walk_step st tm r ≫= fun st' => walk self inst st' rest).
  rewrite Hgds.
  change ((walk_step st tm (ds, ty, p) ≫= fun st' => walk self inst st' rest)
          = walk self inst (with_instance_type st ty) rest).
  by rewrite Hstep.
Qed.

(** ** More on desired-state resolution *)

Lemma running_at_elem self dt ps w :
  w ∈ running_at self dt ps ↔
  ∃ p, p ∈ ps ∧ w = poll (get_check_time self dt) p ∧
       Period.get_desired_state (period p) (get_check_time self dt)
       = STATE_RUNNING.
Proof.
  unfold running_at. rewrite list_elem_of_In, filter_In, in_map_iff.
  unfold is_state. split.
  - intros [(p & <- & Hin) Hst]. apply bool_decide_eq_true_1 in Hst.
    exists p. by rewrite list_elem_of_In.
  - intros (p & Hin & -> & Hst). split.
    + exists p. by rewrite <- list_elem_of_In.
    + by apply bool_decide_eq_true_2.
Qed.

Lemma running_at_nil self dt ps :
  running_at self dt ps = [] ↔
  ∀ p, p ∈ ps →
       Period.get_desired_state (period p) (get_check_time self dt)
       ≠ STATE_RUNNING.
Proof.
  split.
  - intros Hnil p Hp Hst.
    assert (poll (get_check_time self dt) p ∈ running_at self dt ps) as Hin
      by (apply running_at_elem; by exists p).
    rewrite Hnil in Hin. by apply not_elem_of_nil in Hin.
  - intros Hall. destruct (running_at self dt ps) as [|w l] eqn:E; [done|].
    assert (w ∈ running_at self dt ps) as Hin
      by (rewrite E; apply list_elem_of_here).
    apply running_at_elem in Hin as (p & Hp & _ & Hst). by destruct (Hall p Hp).
Qed.

Lemma any_polled self dt ps :
  existsb (is_state STATE_ANY) (map (poll (get_check_time self dt)) ps) = true ↔
  ∃ p, p ∈ ps ∧
       Period.get_desired_state (period p) (get_check_time self dt) = STATE_ANY.
Proof.
  rewrite existsb_exists. unfold is_state. split.
  - intros (w & Hin & Hst). apply in_map_iff in Hin as (p & <- & Hin).
    apply bool_decide_eq_true_1 in Hst. exists p. by rewrite list_elem_of_In.
  - intros (p & Hin & Hst). exists (poll (get_check_time self dt) p). split.
    + apply in_map. by rewrite <- list_elem_of_In.
    + by apply bool_decide_eq_true_2.
Qed.

(** The evaluation of the periods raises nothing but the [TypeError] of a
    schedule without list of periods. *)
Lemma get_desired_state_error self inst dt e :
  get_desired_state self inst dt = Raise e → e = TypeError.
Proof.
  destruct (override_status self) as [o|] eqn:Ho.
  { unfold get_desired_state. by rewrite Ho. }
  destruct (periods self) as [ps|] eqn:Hp.
  - destruct (get_desired_state_ok self inst dt) as [r Hr].
    { intros _. by rewrite Hp. }
    by rewrite Hr.
  - unfold get_desired_state. rewrite Ho, Hp. intros He. by inversion He.
Qed.


(** X3: whatever the schedule, the state returned is running, stopped or
    any, never unknown, retain-running or standby; a result without period
    name has no type, and the state any has neither. *)
Theorem desired_state_range self inst dt st ty nm :
  get_desired_state self inst dt = Ok (st, ty, nm) →
  (st = STATE_RUNNING ∨ st = STATE_STOPPED ∨ st = STATE_ANY) ∧
  (nm = None → ty = None) ∧
  (st = STATE_ANY → ty = None ∧ nm = None).
Proof.
  unfold get_desired_state, handle_override_status.
  destruct (override_status self) as [o|].
  { intros H. inversion H; subst. case_bool_decide; split_and!; auto; done. }
  destruct (periods self) as [ps|]; [|done].
  unfold resolve, handle_running_state.
  destruct (List.filter _ _) as [|x l].
  - destruct (existsb _ _); intros H; inversion H; subst; split_and!; auto.
  - simpl. intros H. inversion H; subst.
    destruct (requires_adjust_instance_size _ _); split_and!; auto; done.
Qed.

(** X4: for an instance with [allow_resize] false the result does not
    depend on the instance's other attributes, the type returned is
    [None], and a running period always gives the state running: the
    stop that forces a resize never happens. *)
Theorem no_resize_never_stops self inst dt :
  Instance.allow_resize inst = false →
  (∀ inst', Instance.allow_resize inst' = false →
            get_desired_state self inst' dt = get_desired_state self inst dt) ∧
  (∀ st ty nm, get_desired_state self inst dt = Ok (st, ty, nm) → ty = None) ∧
  (∀ ps, override_status self = None → periods self = Some ps →
         running_at self dt ps ≠ [] →
         ∃ nm, get_desired_state self inst dt =
               Ok (STATE_RUNNING, None, Some nm)).
Proof.
  intros Ha. split_and!.
  - intros inst' Ha'. by apply get_desired_state_no_resize.
  - intros st ty nm. unfold get_desired_state, handle_override_status.
    destruct (override_status self) as [o|].
    { intros H. by inversion H. }
    destruct (periods self) as [ps|]; [|done].
    unfold resolve, handle_running_state. rewrite Ha.
    destruct (List.filter _ _) as [|x l].
    + destruct (existsb _ _); intros H; by inversion H.
    + simpl. intros H. by inversion H.
  - intros ps Ho Hp Hne.
    rewrite (get_desired_state_running self inst dt ps Ho Hp Hne).
    destruct (reduce_latest_spec _ Hne) as (w & Hw & _).
    unfold handle_running_state, requires_adjust_instance_size.
    rewrite Hw, Ha. simpl. by eexists.
Qed.

Lemma latest_starttime_le p1 p2 :
  begin_le (pws_begin p1) (pws_begin p2) = true → latest_starttime p1 p2 = p2.
Proof.
  destruct p1 as [[n1 [b1|] e1 f1] t1 s1], p2 as [[n2 [b2|] e2 f2] t2 s2];
    unfold latest_starttime, pws_begin; simpl; try done.
  by destruct (time_gt b1 b2).
Qed.

Lemma latest_starttime_gt p1 p2 :
  begin_le (pws_begin p1) (pws_begin p2) = false → latest_starttime p1 p2 = p1.
Proof.
  destruct p1 as [[n1 [b1|] e1 f1] t1 s1], p2 as [[n2 [b2|] e2 f2] t2 s2];
    unfold latest_starttime, pws_begin; simpl; try done.
  by destruct (time_gt b1 b2).
Qed.

Lemma begin_le_total a b : begin_le a b = false → begin_le b a = true.
Proof.
  destruct a as [x|], b as [y|]; simpl; try done.
  unfold time_gt. rewrite (tuple_cmp_opp (time_tuple x) (time_tuple y)).
  by destruct (tuple_cmp (time_tuple x) (time_tuple y)).
Qed.

Lemma fold_latest_split l x :
  ∃ before after,
    x :: l = before ++ fold_left latest_starttime l x :: after ∧
    (∀ p, p ∈ before →
          begin_le (pws_begin p)
            (pws_begin (fold_left latest_starttime l x)) = true) ∧
    (∀ p, p ∈ after →
          begin_le (pws_begin (fold_left latest_starttime l x))
            (pws_begin p) = false).
Proof.
  revert x. induction l as [|y l IH]; intros x; simpl.
  - exists [], []. split; [done|]. split; intros p Hp; by apply not_elem_of_nil in Hp.
  - destruct (begin_le (pws_begin x) (pws_begin y)) eqn:Hxy.
    + rewrite (latest_starttime_le _ _ Hxy).
      destruct (IH y) as (before & after & Heq & Hb & Ha).
      exists (x :: before), after. split; [by rewrite Heq|]. split; [|done].
      intros p [-> | Hp]%elem_of_cons; [|by apply Hb].
      apply begin_le_trans with (pws_begin y); [done|].
      apply fold_latest_max, list_elem_of_here.
    + rewrite (latest_starttime_gt _ _ Hxy).
      destruct (IH x) as (before & after & Heq & Hb & Ha).
      destruct before as [|x' before]; simpl in Heq.
      * injection Heq as Hx Hl. rewrite <- Hx in *.
        exists [], (y :: l). split; [done|]. split.
        -- intros p Hp. by apply not_elem_of_nil in Hp.
        -- intros p [-> | Hp]%elem_of_cons; [done|].
           apply Ha. by rewrite <- Hl.
      * injection Heq as Hx Hl. subst x'.
        exists (x :: y :: before), after.
        split; [simpl; do 2 f_equal; exact Hl|]. split; [|done].
        intros p [-> | [-> | Hp]%elem_of_cons]%elem_of_cons.
        -- apply Hb, list_elem_of_here.
        -- apply begin_le_trans with (pws_begin x);
             [by apply begin_le_total|apply Hb, list_elem_of_here].
        -- by apply Hb, list_elem_of_further.
Qed.

(** X5: among the periods reporting running, the one that gives the
    result its name and type is the last listed of those with the latest
    begin time: no running period listed before it begins later, and every
    running period listed after it begins strictly earlier (a period
    without begin time counting as earliest). *)
Theorem last_listed_latest_wins self inst dt ps :
  override_status self = None → periods self = Some ps →
  running_at self dt ps ≠ [] →
  ∃ before w after state,
    running_at self dt ps = before ++ w :: after ∧
    (∀ p, p ∈ before → begin_le (pws_begin p) (pws_begin w) = true) ∧
    (∀ p, p ∈ after → begin_le (pws_begin w) (pws_begin p) = false) ∧
    get_desired_state self inst dt =
      Ok (state,
          if Instance.allow_resize inst then pws_instancetype w else None,
          Some (Period.name (pws_period w))).
Proof.
  intros Ho Hp Hne.
  rewrite (get_desired_state_running self inst dt ps Ho Hp Hne).
  destruct (running_at self dt ps) as [|x l]; [done|].
  destruct (fold_latest_split l x) as (before & after & Heq & Hb & Ha).
  exists before, (fold_left latest_starttime l x), after. eexists.
  split; [done|]. split; [done|]. split; [done|].
  unfold handle_running_state. simpl. reflexivity.
Qed.

(** ** More on the boundary timeline *)

Lemma add_boundaries_elem dt timeline p tm :
  tm ∈ add_boundaries dt timeline p ↔ tm ∈ timeline ∨ boundary_of dt p tm.
Proof.
  unfold add_boundaries, boundary_of.
  destruct (Period.begintime (period p)) as [b|],
           (Period.endtime (period p)) as [e|];
    rewrite ?elem_of_union, ?elem_of_singleton.
  - split.
    + intros [[?| ->]| ->]; [by left|right; left|right; right]; by eexists.
    + intros [?|[(t & [= <-] & ->)|(t & [= <-] & ->)]]; auto.
  - split.
    + intros [?| ->]; [by left|right; left]; by eexists.
    + intros [?|[(t & [= <-] & ->)|(t & ? & _)]]; auto; done.
  - split.
    + intros [?| ->]; [by left|right; right]; by eexists.
    + intros [?|[(t & ? & _)|(t & [= <-] & ->)]]; auto; done.
  - split.
    + intros [[?| ->]| ->]; auto.
    + intros [?|[->| ->]]; auto.
Qed.

Lemma fold_boundaries_elem dt ps timeline tm :
  tm ∈ fold_left (add_boundaries dt) ps timeline ↔
  tm ∈ timeline ∨ ∃ p, p ∈ ps ∧ boundary_of dt p tm.
Proof.
  revert timeline. induction ps as [|p ps IH]; intros timeline; simpl.
  - split; [by left|]. intros [?|(p & Hp & _)]; [done|].
    by apply not_elem_of_nil in Hp.
  - rewrite IH, add_boundaries_elem. split.
    + intros [[?|?]|(q & Hq & ?)]; [by left| |].
      * right. exists p. split; [apply list_elem_of_here|done].
      * right. exists q. split; [by apply list_elem_of_further|done].
    + intros [?|(q & [-> | Hq]%elem_of_cons & ?)]; [by left; left| |].
      * by left; right.
      * right. by exists q.
Qed.

Lemma build_timeline_elem ps dt tm :
  tm ∈ build_timeline ps dt ↔
  tm = replace dt 0 0 ∨ ∃ p, p ∈ ps ∧ boundary_of dt p tm.
Proof.
  unfold build_timeline. by rewrite fold_boundaries_elem, elem_of_singleton.
Qed.

(** X6: the boundary instants of a day are midnight and, for every
    period, the hour and minute of its begin time and of its end time on
    that day, or midnight and 23:59 when it has neither; nothing else. *)
Theorem timeline_members ps dt tm :
  tm ∈ build_timeline ps dt ↔
  tm = replace dt 0 0 ∨ ∃ p, p ∈ ps ∧ boundary_of dt p tm.
Proof. apply build_timeline_elem. Qed.

Lemma size_add_one (X : gset datetime) x : (size (X ∪ {[x]}) ≤ size X + 1)%nat.
Proof.
  rewrite size_union_alt.
  assert (size ({[x]} ∖ X : gset datetime) ≤ size ({[x]} : gset datetime))%nat
    as Hle.
  { apply subseteq_size. intros y Hy. by apply elem_of_difference in Hy as [? _]. }
  rewrite size_singleton in Hle. lia.
Qed.

Lemma size_add_boundaries dt timeline p :
  (size (add_boundaries dt timeline p) ≤ size timeline + 2)%nat.
Proof.
  unfold add_boundaries.
  destruct (Period.begintime (period p)) as [b|],
           (Period.endtime (period p)) as [e|]; simpl.
  - pose proof (size_add_one timeline (replace dt (t_hour b) (t_minute b))).
    pose proof (size_add_one
                  (timeline ∪ {[replace dt (t_hour b) (t_minute b)]})
                  (replace dt (t_hour e) (t_minute e))).
    lia.
  - pose proof (size_add_one timeline (replace dt (t_hour b) (t_minute b))).
    lia.
  - pose proof (size_add_one timeline (replace dt (t_hour e) (t_minute e))).
    lia.
  - pose proof (size_add_one timeline (replace dt 0 0)).
    pose proof (size_add_one (timeline ∪ {[replace dt 0 0]}) (replace dt 23 59)).
    lia.
Qed.

Lemma size_fold_boundaries dt ps timeline :
  (size (fold_left (add_boundaries dt) ps timeline)
   ≤ size timeline + 2 * length ps)%nat.
Proof.
  revert timeline. induction ps as [|p ps IH]; intros timeline; simpl.
  - lia.
  - pose proof (IH (add_boundaries dt timeline p)).
    pose proof (size_add_boundaries dt timeline p). lia.
Qed.

Lemma on_day_after_midnight dt tm :
  on_day dt tm → to_us (replace dt 0 0) ≤ to_us tm.
Proof.
  intros (h & m & Hh & Hm & ->). rewrite !to_us_replace. nia.
Qed.

Lemma sorted_timeline_midnight_first ps dt :
  valid_periods ps = true →
  ∃ rest,
    sorted_timeline (build_timeline ps dt) = replace dt 0 0 :: rest ∧
    Forall (on_day dt) rest ∧
    StronglySorted minute_after (replace dt 0 0 :: rest) ∧
    (length rest ≤ 2 * length ps)%nat.
Proof.
  intros Hv.
  destruct (sorted_timeline_ascending ps dt Hv) as [Hon Hsorted].
  assert (replace dt 0 0 ∈ sorted_timeline (build_timeline ps dt)) as Hin.
  { unfold sorted_timeline. rewrite merge_sort_Permutation.
    apply elem_of_elements, build_timeline_elem. by left. }
  assert (length (sorted_timeline (build_timeline ps dt))
          ≤ 1 + 2 * length ps)%nat as Hlen.
  { unfold sorted_timeline. rewrite merge_sort_Permutation.
    change (length (elements (build_timeline ps dt)))
      with (size (build_timeline ps dt)).
    unfold build_timeline.
    pose proof (size_fold_boundaries dt ps {[replace dt 0 0]}) as Hs.
    rewrite size_singleton in Hs. lia. }
  destruct (sorted_timeline (build_timeline ps dt)) as [|h rest];
    [by apply not_elem_of_nil in Hin|].
  assert (h = replace dt 0 0) as ->.
  { apply elem_of_cons in Hin as [Hin|Hin]; [done|].
    apply StronglySorted_inv in Hsorted as [_ Hafter].
    apply Forall_cons in Hon as [Hh _].
    pose proof (proj1 (Forall_forall _ _) Hafter _ Hin) as Hgap.
    pose proof (on_day_after_midnight dt h Hh). unfold minute_after in Hgap.
    lia. }
  exists rest. apply Forall_cons in Hon as [_ Hon].
  split_and!; try done. simpl in Hlen. lia.
Qed.

(** X7: for periods with valid times of day, the walk visits midnight
    first and then instants of the same day, each at least one minute
    after all earlier ones; there are at most one plus twice the number of
    periods of them. *)
Theorem timeline_shape ps dt :
  valid_periods ps = true →
  ∃ rest,
    sorted_timeline (build_timeline ps dt) = replace dt 0 0 :: rest ∧
    Forall (on_day dt) rest ∧
    StronglySorted minute_after (replace dt 0 0 :: rest) ∧
    (length rest ≤ 2 * length ps)%nat.
Proof. apply sorted_timeline_midnight_first. Qed.

(** ** More on the loop over the days *)

Lemma usage_loop_raises self instance stop fuel dt result :
  periods self = None → dt_le dt stop = true →
  usage_loop self instance stop (S fuel) dt result = Raise TypeError.
Proof.
  intros Hp Hle. simpl. rewrite Hle. unfold day_usage. by rewrite Hp.
Qed.


Lemma dt_le_day_of dt stop o :
  dt_le (day_of dt o) stop = true ↔
  o < ordinal stop ∨ (o = ordinal stop ∧ dt_le (day_of dt (ordinal stop)) stop = true).
Proof.
  unfold dt_le, dt_gt, datetime_tuple, day_of. simpl.
  rewrite Z.compare_refl.
  destruct (Z.compare_spec o (ordinal stop)) as [->|Hlt|Hgt]; simpl.
  - split; [intros H; right; by split|]. intros [?|[_ ?]]; [lia|done].
  - split; [intros _; by left|done].
  - split; [done|]. intros [?|[? _]]; lia.
Qed.

Lemma usage_loop_domain self instance stop fuel dt result res o :
  usage_loop self instance stop fuel dt result = Ok res →
  is_Some (res !! o) ↔
  is_Some (result !! o) ∨
  (ordinal dt ≤ o < ordinal dt + Z.of_nat fuel ∧
   dt_le (day_of dt o) stop = true).
Proof.
  revert dt result. induction fuel as [|fuel IH]; intros dt result; simpl.
  - intros Hres. inversion Hres; subst. split; [by left|].
    intros [?|[? _]]; [done|lia].
  - destruct (dt_le dt stop) eqn:Hle.
    + destruct (day_usage self instance dt) as [day|e]; [|done]. simpl.
      intros Hloop. rewrite (IH _ _ Hloop).
      change (day_of (add_day dt) o) with (day_of dt o).
      change (ordinal (add_day dt)) with (ordinal dt + 1).
      destruct (decide (ordinal dt = o)) as [Heq|Hne].
      * subst o. rewrite lookup_insert_eq, day_of_ordinal, Hle. split.
        -- intros _. right. split; [lia|done].
        -- intros _. left. by eexists.
      * rewrite lookup_insert_ne by done. split.
        -- intros [?|[? ?]]; [by left|right; split; [lia|done]].
        -- intros [?|[? ?]]; [by left|right; split; [lia|done]].
    + intros Hres. inversion Hres; subst. split; [by left|].
      intros [?|[Ho Hle']]; [done|]. exfalso.
      apply dt_le_day_of in Hle'.
      assert (dt_le (day_of dt (ordinal dt)) stop = true) as Hle2.
      { apply dt_le_day_of. destruct Hle' as [?|[-> ?]]; [left; lia|].
        destruct (decide (ordinal dt = ordinal stop)) as [->|?];
          [by right|left; lia]. }
      rewrite day_of_ordinal in Hle2. congruence.
Qed.

(** X9: the result has an entry for exactly the dates from the start date
    on at which the start instant's time of day is not later than the end
    instant: all dates before the end date, and the end date itself unless
    the end instant's time of day is earlier than the start instant's. *)
Theorem covered_days self start_dt stop_dt instance u o :
  get_usage self start_dt stop_dt instance = Ok u →
  is_Some (usage u !! o) ↔
  ordinal start_dt ≤ o ∧
  dt_le (day_of start_dt o) (default start_dt stop_dt) = true.
Proof.
  unfold get_usage. destruct (dt_gt _ _); [done|].
  destruct (usage_loop _ _ _ _ _ _) as [res|e] eqn:Hloop; [|done]. simpl.
  intros Hu. inversion Hu; subst; clear Hu. simpl.
  rewrite (usage_loop_domain _ _ _ _ _ _ _ o Hloop), lookup_empty. split.
  - intros [[? ?]|[? ?]]; [done|]. split; [lia|done].
  - intros [Ho Hle]. right. split; [|done].
    pose proof (dt_le_ordinal _ _ Hle) as Hord. simpl in Hord. lia.
Qed.

Lemma get_usage_one_day self dt instance d :
  day_usage self instance dt = Ok d →
  get_usage self dt None instance =
    Ok {| schedule := name self; usage := {[ordinal dt := d]} |}.
Proof.
  intros Hd. unfold get_usage. simpl. rewrite dt_gt_irrefl.
  replace (Z.to_nat (ordinal dt - ordinal dt + 1)) with 1%nat by lia.
  simpl. unfold dt_le. rewrite dt_gt_irrefl. simpl. rewrite Hd. simpl.
  by rewrite insert_empty.
Qed.

(** X10: the days are computed independently: the entry of a date in the
    result of a range is the entry that the query for that single day,
    at the start instant's time of day and without end date, returns. *)
Theorem range_is_union_of_days self start_dt stop_dt instance u o d :
  get_usage self start_dt stop_dt instance = Ok u →
  usage u !! o = Some d →
  get_usage self (day_of start_dt o) None instance =
    Ok {| schedule := name self; usage := {[o := d]} |}.
Proof.
  intros Hu Hd.
  pose proof (get_usage_entries _ _ _ _ _ _ _ Hu Hd) as Hday.
  by rewrite (get_usage_one_day _ _ _ _ Hday).
Qed.

(** ** More on the boundary walk *)

(** The three ways a boundary changes the walk's variables. *)
Lemma walk_step_cases st tm ds ty nm st1 :
  walk_step st tm (ds, ty, nm) = Ok st1 →
  (ds = STATE_RUNNING ∧ w_current_state st ≠ Some STATE_RUNNING ∧
   st1 = {| w_running_periods := w_running_periods st;
            w_started := Some tm;
            w_starting_period := nm;
            w_current_state := Some STATE_RUNNING;
            w_instance_type := ty |}) ∨
  (ds = STATE_STOPPED ∧ w_current_state st = Some STATE_RUNNING ∧
   ∃ b, w_started st = Some b ∧
        st1 = {| w_running_periods :=
                   <[w_starting_period st := make_period b tm ty]>
                     (w_running_periods st);
                 w_started := Some b;
                 w_starting_period := w_starting_period st;
                 w_current_state := Some STATE_STOPPED;
                 w_instance_type := ty |}) ∨
  ((ds = STATE_RUNNING → w_current_state st = Some STATE_RUNNING) ∧
   (ds = STATE_STOPPED → w_current_state st ≠ Some STATE_RUNNING) ∧
   st1 = with_instance_type st ty).
Proof.
  destruct st as [m started sp cur ity].
  unfold walk_step, close_period, with_instance_type. simpl.
  destruct (decide (cur = Some ds)) as [Hsame|Hdiff].
  { rewrite bool_decide_eq_false_2 by (by intros ?).
    intros Heq. inversion Heq; subst. right; right.
    split_and!; [by intros ->| |done]. by intros ->. }
  rewrite bool_decide_eq_true_2 by done.
  destruct (decide (ds = STATE_RUNNING)) as [->|Hnr].
  { rewrite bool_decide_eq_true_2 by done.
    intros Heq. inversion Heq; subst. left. split_and!; done. }
  rewrite bool_decide_eq_false_2 by done.
  destruct (decide (ds = STATE_STOPPED)) as [->|Hns].
  - rewrite bool_decide_eq_true_2 by done.
    destruct (decide (cur = Some STATE_RUNNING)) as [Hc|Hc].
    + rewrite bool_decide_eq_true_2 by done.
      destruct started as [b|]; [|done]. simpl.
      intros Heq. inversion Heq; subst. right; left. split_and!; [done|done|].
      by exists b.
    + rewrite bool_decide_eq_false_2 by done.
      intros Heq. inversion Heq; subst. right; right. split_and!; done.
  - rewrite bool_decide_eq_false_2 by done.
    intros Heq. inversion Heq; subst. right; right. split_and!; done.
Qed.

(** Induction over the walk: [visited] are the boundaries behind, the
    second list those ahead. *)
Lemma walk_invariant self inst
  (I : list datetime → list datetime → Walk → Prop) tms st0 st' :
  I [] tms st0 →
  (∀ visited tm rest st r st1,
     I visited (tm :: rest) st →
     get_desired_state self inst (Some tm) = Ok r →
     walk_step st tm r = Ok st1 →
     I (visited ++ [tm]) rest st1) →
  walk self inst st0 tms = Ok st' → I tms [] st'.
Proof.
  intros Hinit Hstep.
  assert (∀ rest visited st,
            I visited rest st → walk self inst st rest = Ok st' →
            I (visited ++ rest) [] st') as Hgen.
  { induction rest as [|tm rest IH]; intros visited st HI Hwalk;
      simpl in Hwalk.
    - inversion Hwalk; subst. by rewrite app_nil_r.
    - destruct (get_desired_state self inst (Some tm)) as [r|e] eqn:Hr;
        [|done].
      simpl in Hwalk.
      destruct (walk_step st tm r) as [st1|e] eqn:Hs; [|done].
      simpl in Hwalk.
      replace (visited ++ tm :: rest) with ((visited ++ [tm]) ++ rest)
        by (by rewrite <- app_assoc).
      apply (IH _ st1); [|done]. by eapply Hstep. }
  intros Hwalk. by apply (Hgen tms [] st0).
Qed.

Lemma day_usage_totals self instance dt d :
  day_usage self instance dt = Ok d →
  billing_seconds d = sum_billing_seconds (running_periods d) ∧
  billing_hours d = sum_billing_hours (running_periods d).
Proof.
  unfold day_usage. destruct (periods self); [|done].
  destruct (walk _ _ _ _) as [st|e]; [|done]. simpl.
  case_bool_decide; simpl.
  - unfold close_period. destruct (w_started st); [|done]. simpl.
    intros Hd. by inversion Hd.
  - intros Hd. by inversion Hd.
Qed.

Lemma sorted_timeline_elem (timeline : gset datetime) tm :
  tm ∈ sorted_timeline timeline ↔ tm ∈ timeline.
Proof.
  unfold sorted_timeline. by rewrite merge_sort_Permutation, elem_of_elements.
Qed.

(** X11: the intervals of a day come from what the boundary instants
    resolve to: the day's map is empty exactly when no boundary instant of
    the day resolves to running, and then both totals are zero. What
    periods report between boundaries is not seen. *)
Theorem no_running_boundary_no_interval self instance dt ps d :
  periods self = Some ps →
  day_usage self instance dt = Ok d →
  (running_periods d = ∅ ↔
   ∀ tm, tm ∈ build_timeline ps dt →
         ∀ ty nm, get_desired_state self
                    (default placeholder_instance instance) (Some tm)
                  ≠ Ok (STATE_RUNNING, ty, nm)) ∧
  (running_periods d = ∅ → billing_seconds d = 0 ∧ billing_hours d = 0).
Proof.
  intros Hp Hd. split.
  2:{ intros He. destruct (day_usage_totals _ _ _ _ Hd) as [-> ->].
      rewrite He. unfold sum_billing_seconds, sum_billing_hours, map_total.
      by rewrite !map_fold_empty. }
  revert Hd. unfold day_usage. rewrite Hp.
  set (inst := default placeholder_instance instance).
  destruct (walk _ _ _ _) as [st|e] eqn:Hwalk; [|done]. simpl.
  assert ((w_running_periods st ≠ ∅ ∨ w_current_state st = Some STATE_RUNNING) ↔
          ∃ tm ty nm, tm ∈ sorted_timeline (build_timeline ps dt) ∧
            get_desired_state self inst (Some tm) = Ok (STATE_RUNNING, ty, nm))
    as Hfinal.
  { apply (walk_invariant self inst
      (fun visited _ st =>
         (w_running_periods st ≠ ∅ ∨ w_current_state st = Some STATE_RUNNING) ↔
         ∃ tm ty nm, tm ∈ visited ∧
           get_desired_state self inst (Some tm) = Ok (STATE_RUNNING, ty, nm))
      (sorted_timeline (build_timeline ps dt)) walk_init st); [| |exact Hwalk].
    - split.
      + intros [?|?]; done.
      + intros (tm & _ & _ & Hin & _). by apply not_elem_of_nil in Hin.
    - intros visited tm rest st0 [[ds ty] nm] st1 HI Hr Hs.
      apply walk_step_cases in Hs as
        [(-> & Hc & ->)|[(-> & Hc & b & Hb & ->)|(Hrun & Hstop & ->)]]; simpl.
      + split; [|by right]. intros _. exists tm, ty, nm.
        split; [|done]. apply elem_of_app. right. apply list_elem_of_here.
      + split; [|intros _; left; apply insert_non_empty].
        intros _.
        destruct (proj1 HI (or_intror Hc)) as (tm' & ty' & nm' & ? & ?).
        exists tm', ty', nm'. split; [|done]. apply elem_of_app. by left.
      + rewrite HI. split.
        * intros (tm' & ty' & nm' & ? & ?). exists tm', ty', nm'.
          split; [|done]. apply elem_of_app. by left.
        * intros (tm' & ty' & nm' & Hin & Hr').
          apply elem_of_app in Hin as [Hin|Hin].
          -- by exists tm', ty', nm'.
          -- apply list_elem_of_singleton in Hin. subst tm'.
             rewrite Hr in Hr'. inversion Hr'; subst.
             apply HI. right. by apply Hrun. }
  assert ((∃ tm ty nm, tm ∈ sorted_timeline (build_timeline ps dt) ∧
             get_desired_state self inst (Some tm) = Ok (STATE_RUNNING, ty, nm))
          ↔ ¬ ∀ tm, tm ∈ build_timeline ps dt →
                ∀ ty nm, get_desired_state self inst (Some tm)
                         ≠ Ok (STATE_RUNNING, ty, nm)) as Hex.
  { split.
    - intros (tm & ty & nm & Hin & Hr) Hall.
      apply sorted_timeline_elem in Hin. by apply (Hall tm Hin ty nm).
    - intros Hnot.
      destruct (decide (w_running_periods st ≠ ∅ ∨
                        w_current_state st = Some STATE_RUNNING)) as [Hy|Hn].
      + by apply Hfinal.
      + exfalso. apply Hnot. intros tm Hin ty nm Hr. apply Hn, Hfinal.
        exists tm, ty, nm. by rewrite sorted_timeline_elem. }
  case_bool_decide as Hc; simpl.
  - unfold close_period. destruct (w_started st) as [b|]; [|done]. simpl.
    intros Hd. inversion Hd; subst; clear Hd. simpl. split.
    + intros He. by apply insert_non_empty in He.
    + intros Hall. exfalso. apply Hex; [|done]. apply Hfinal. by right.
  - intros Hd. inversion Hd; subst; clear Hd. simpl. split.
    + intros He tm Hin ty nm Hr.
      assert (w_running_periods st ≠ ∅ ∨
              w_current_state st = Some STATE_RUNNING) as [?|?]; try done.
      apply Hfinal. exists tm, ty, nm. by rewrite sorted_timeline_elem.
    + intros Hall.
      destruct (decide (w_running_periods st = ∅)) as [?|Hne]; [done|].
      exfalso. apply Hex; [|done]. apply Hfinal. by left.
Qed.

(** ** Schedules that always run or never run *)

Lemma with_instance_type_id st :
  with_instance_type st (w_instance_type st) = st.
Proof. by destruct st. Qed.

Lemma walk_steady self inst st tms nm :
  w_current_state st = Some STATE_RUNNING → w_instance_type st = None →
  (∀ tm, get_desired_state self inst (Some tm) = Ok (STATE_RUNNING, None, nm)) →
  walk self inst st tms = Ok st.
Proof.
  intros Hc Hty Hall. induction tms as [|tm rest IH]; [done|].
  change (walk self inst st (tm :: rest))
    with (get_desired_state self inst (Some tm) ≫= fun r =>
          walk_step st tm r ≫= fun st' => walk self inst st' rest).
  rewrite Hall.
  change ((walk_step st tm (STATE_RUNNING, None, nm) ≫= fun st' =>
           walk self inst st' rest) = Ok st).
  assert (walk_step st tm (STATE_RUNNING, None, nm) = Ok st) as ->.
  { unfold walk_step. simpl. rewrite Hc.
    rewrite bool_decide_eq_false_2 by (by intros ?).
    by rewrite <- Hty, with_instance_type_id. }
  exact IH.
Qed.

Lemma map_total_singleton (f : RunningPeriod → Z) k rp :
  map_total f ({[k := rp]} : gmap (option string) RunningPeriod) = f rp.
Proof.
  rewrite <- insert_empty, total_insert_fresh by apply lookup_empty.
  unfold map_total. rewrite map_fold_empty. lia.
Qed.

Lemma full_day dt :
  to_us (day_close dt) - to_us (replace dt 0 0) = 86400000000.
Proof.
  unfold day_close. rewrite to_us_add_us, !to_us_replace. lia.
Qed.

(** X12: a schedule forced to run, with a list of periods whose times are
    valid, has on every day one interval, under the name
    "override_status", from midnight to the day-end close: 86400 seconds
    and 24 hours, whatever the periods and the instance. *)
Theorem forced_running_full_day self instance dt ps :
  override_status self = Some OVERRIDE_STATUS_RUNNING →
  periods self = Some ps → valid_periods ps = true →
  day_usage self instance dt =
    Ok {| running_periods :=
            {[Some "override_status"%string :=
                make_period (replace dt 0 0) (day_close dt) None]};
          billing_seconds := 86400; billing_hours := 24 |} ∧
  rp_billing_seconds (make_period (replace dt 0 0) (day_close dt) None)
    = 86400 ∧
  rp_billing_hours (make_period (replace dt 0 0) (day_close dt) None) = 24.
Proof.
  intros Ho Hp Hv.
  assert (rp_billing_seconds (make_period (replace dt 0 0) (day_close dt) None)
          = 86400) as Hs.
  { unfold make_period, running_seconds. simpl. by rewrite full_day. }
  assert (rp_billing_hours (make_period (replace dt 0 0) (day_close dt) None)
          = 24) as Hh.
  { unfold make_period, running_hours. simpl. by rewrite full_day. }
  split; [|done].
  set (inst := default placeholder_instance instance).
  assert (∀ tm, get_desired_state self inst (Some tm) =
                Ok (STATE_RUNNING, None, Some "override_status"%string))
    as Hall.
  { intros tm. unfold get_desired_state, handle_override_status.
    rewrite Ho. by rewrite bool_decide_eq_true_2. }
  destruct (sorted_timeline_midnight_first ps dt Hv) as (rest & Hsorted & _).
  unfold day_usage. rewrite Hp, Hsorted. fold inst.
  change (walk self inst walk_init (replace dt 0 0 :: rest))
    with (get_desired_state self inst (Some (replace dt 0 0)) ≫= fun r =>
          walk_step walk_init (replace dt 0 0) r ≫= fun st' =>
          walk self inst st' rest).
  rewrite Hall.
  change (walk_step walk_init (replace dt 0 0)
            (STATE_RUNNING, None, Some "override_status"%string))
    with (Ok {| w_running_periods := ∅;
                w_started := Some (replace dt 0 0);
                w_starting_period := Some "override_status"%string;
                w_current_state := Some STATE_RUNNING;
                w_instance_type := None |}).
  set (st := {| w_running_periods := ∅;
                w_started := Some (replace dt 0 0);
                w_starting_period := Some "override_status"%string;
                w_current_state := Some STATE_RUNNING;
                w_instance_type := None |}).
  change ((walk self inst st rest ≫= fun st0 =>
           (if bool_decide (w_current_state st0 = Some STATE_RUNNING)
            then close_period st0 (day_close dt) (w_current_state st0)
            else Ok st0) ≫= fun st1 =>
           Ok {| running_periods := w_running_periods st1;
                 billing_seconds := sum_billing_seconds (w_running_periods st1);
                 billing_hours := sum_billing_hours (w_running_periods st1) |})
          = Ok {| running_periods :=
                    {[Some "override_status"%string :=
                        make_period (replace dt 0 0) (day_close dt) None]};
                  billing_seconds := 86400; billing_hours := 24 |}).
  rewrite (walk_steady self inst st rest (Some "override_status"%string))
    by done.
  simpl. rewrite insert_empty. unfold sum_billing_seconds, sum_billing_hours.
  rewrite !map_total_singleton. by rewrite Hs, Hh.
Qed.

Lemma walk_idle self inst st tms :
  w_current_state st ≠ Some STATE_RUNNING →
  (∀ tm, tm ∈ tms →
         ∃ ds ty nm, get_desired_state self inst (Some tm) = Ok (ds, ty, nm) ∧
                     ds ≠ STATE_RUNNING) →
  ∃ ty, walk self inst st tms = Ok (with_instance_type st ty).
Proof.
  revert st. induction tms as [|tm rest IH]; intros st Hc Hall.
  - exists (w_instance_type st). by rewrite with_instance_type_id.
  - destruct (Hall tm (list_elem_of_here _ _)) as (ds & ty & nm & Hr & Hds).
    destruct (walk_step_ok st tm (ds, ty, nm)) as (st1 & Hs & _);
      [by intros ?|].
    pose proof Hs as Hs'.
    apply walk_step_cases in Hs' as [(-> & _)|[(_ & ? & _)|(_ & _ & ->)]];
      [done|done|].
    destruct (IH (with_instance_type st ty)) as [ty' Hw]; [done| |].
    { intros tm' Hin. by apply Hall, list_elem_of_further. }
    exists ty'.
    change (walk self inst st (tm :: rest))
      with (get_desired_state self inst (Some tm) ≫= fun r =>
            walk_step st tm r ≫= fun st' => walk self inst st' rest).
    rewrite Hr.
    change ((walk_step st tm (ds, ty, nm) ≫= fun st' =>
             walk self inst st' rest) = Ok (with_instance_type st ty')).
    rewrite Hs. exact Hw.
Qed.


(** ** More on the intervals of a day *)

(** The day's map is the walk's, with the interval of the day-end close
    when the walk ends running. *)
Lemma day_usage_unfold self instance dt ps d :
  periods self = Some ps →
  day_usage self instance dt = Ok d →
  ∃ st,
    walk self (default placeholder_instance instance) walk_init
      (sorted_timeline (build_timeline ps dt)) = Ok st ∧
    ((w_current_state st = Some STATE_RUNNING ∧
      ∃ b, w_started st = Some b ∧
           running_periods d =
             <[w_starting_period st :=
                 make_period b (day_close dt) (w_instance_type st)]>
               (w_running_periods st)) ∨
     (w_current_state st ≠ Some STATE_RUNNING ∧
      running_periods d = w_running_periods st)).
Proof.
  intros Hp. unfold day_usage. rewrite Hp.
  destruct (walk _ _ _ _) as [st|e]; [|done]. simpl.
  case_bool_decide as Hc; simpl.
  - unfold close_period. destruct (w_started st) as [b|] eqn:Hb; [|done].
    simpl. intros Hd. inversion Hd; subst; clear Hd. simpl.
    exists st. split; [done|]. left. split; [done|]. by exists b.
  - intros Hd. inversion Hd; subst; clear Hd. simpl.
    exists st. split; [done|]. by right.
Qed.

Lemma good_period_minutes dt rp :
  good_period dt rp →
  ∃ k, 1 ≤ k ≤ 1440 ∧
       to_us (rp_end rp) - to_us (rp_begin rp) = k * 60000000.
Proof.
  intros ((h & m & Hh & Hm & Hb) & He & Hgap & _).
  unfold minute_after in Hgap. rewrite Hb in *.
  destruct He as [(h' & m' & Hh' & Hm' & He)| He]; rewrite He in *.
  - exists ((h' - h) * 60 + (m' - m)).
    rewrite !to_us_replace in *. split; [nia|lia].
  - exists ((23 - h) * 60 + (59 - m) + 1).
    unfold day_close in *. rewrite to_us_add_us, !to_us_replace in *.
    split; [nia|lia].
Qed.

(** X14: every interval of the result lasts a whole number of minutes,
    between one minute and 24 hours: its [billing_seconds] is exactly its
    length, and its [billing_hours] is that length rounded up to whole
    hours, at most 24. *)
Theorem billing_whole_minutes self start_dt stop_dt instance ps u o d k rp :
  periods self = Some ps → valid_periods ps = true →
  get_usage self start_dt stop_dt instance = Ok u →
  usage u !! o = Some d → running_periods d !! k = Some rp →
  ∃ n, 1 ≤ n ≤ 1440 ∧
       to_us (rp_end rp) - to_us (rp_begin rp) = n * 60000000 ∧
       rp_billing_seconds rp = 60 * n ∧
       3600 * (rp_billing_hours rp - 1) < rp_billing_seconds rp
         ≤ 3600 * rp_billing_hours rp ∧
       rp_billing_hours rp ≤ 24.
Proof.
  intros Hp Hv Hu Hd Hk.
  pose proof (get_usage_good _ _ _ _ _ _ _ _ _ _ Hp Hv Hu Hd Hk) as Hgood.
  destruct (good_period_minutes _ _ Hgood) as (n & Hn & Hlen).
  destruct Hgood as (_ & _ & _ & Heq).
  exists n. split; [done|]. split; [done|].
  rewrite Heq. simpl. unfold running_seconds, running_hours. rewrite Hlen.
  rewrite !Z.quot_div_nonneg by lia.
  replace (n * 60000000) with (60 * n * 1000000) by lia.
  rewrite Z.div_mul by lia.
  assert (Z.max (60 * n) 60 = 60 * n) as -> by lia.
  split; [done|].
  Z.div_mod_to_equations. lia.
Qed.

Lemma running_result_key self inst t ps ty nm :
  periods self = Some ps →
  get_desired_state self inst t = Ok (STATE_RUNNING, ty, nm) →
  period_key ps nm.
Proof.
  intros Hp. unfold get_desired_state, handle_override_status.
  destruct (override_status self) as [o|] eqn:Ho.
  { intros H. inversion H; subst. by left. }
  rewrite Hp. fold (running_at self t ps).
  unfold resolve. fold (running_at self t ps).
  destruct (running_at self t ps) as [|x l] eqn:E.
  - destruct (existsb _ _); intros H; by inversion H.
  - assert (running_at self t ps ≠ []) as Hne by (by rewrite E).
    destruct (reduce_latest_spec _ Hne) as (w & Hw & Hin & _).
    rewrite E in Hw. unfold handle_running_state. rewrite Hw.
    intros H. inversion H; subst.
    apply running_at_elem in Hin as (p & Hpin & -> & _).
    right. by exists p.
Qed.

(** X15: the names under which a day's intervals are recorded are names of
    the schedule's periods or "override_status"; no interval is recorded
    without a name. *)
Theorem interval_keys self start_dt stop_dt instance ps u o d k rp :
  periods self = Some ps →
  get_usage self start_dt stop_dt instance = Ok u →
  usage u !! o = Some d → running_periods d !! k = Some rp →
  period_key ps k ∧ k ≠ None.
Proof.
  intros Hp Hu Hd Hk.
  assert (period_key ps k) as Hkey.
  2:{ split; [done|]. destruct Hkey as [->|(p & _ & ->)]; done. }
  pose proof (get_usage_entries _ _ _ _ _ _ _ Hu Hd) as Hday.
  destruct (day_usage_unfold _ _ _ _ _ Hp Hday) as (st & Hwalk & Hmap).
  assert ((∀ k rp, w_running_periods st !! k = Some rp → period_key ps k) ∧
          (w_current_state st = Some STATE_RUNNING →
           period_key ps (w_starting_period st))) as [Hkeys Hcur].
  { apply (walk_invariant self (default placeholder_instance instance)
      (fun _ _ st =>
         (∀ k rp, w_running_periods st !! k = Some rp → period_key ps k) ∧
         (w_current_state st = Some STATE_RUNNING →
          period_key ps (w_starting_period st)))
      (sorted_timeline (build_timeline ps (day_of start_dt o))) walk_init st);
      [| |exact Hwalk].
    - split; [|done]. intros k' rp' Hl. simpl in Hl.
      by rewrite lookup_empty in Hl.
    - intros _ tm _ st0 [[ds ty] nm] st1 [Hkeys Hcur] Hr Hs.
      apply walk_step_cases in Hs as
        [(-> & Hc & ->)|[(-> & Hc & b & Hb & ->)|(Hrun & Hstop & ->)]]; simpl.
      + split; [done|]. intros _. by eapply running_result_key.
      + split; [|done]. intros k' rp' Hl.
        destruct (decide (w_starting_period st0 = k')) as [<-|Hne].
        * by apply Hcur.
        * rewrite lookup_insert_ne in Hl by done. by eapply Hkeys.
      + done. }
  destruct Hmap as [(Hc & b & _ & Hm)|(_ & Hm)]; rewrite Hm in Hk.
  - destruct (decide (w_starting_period st = k)) as [<-|Hne].
    + by apply Hcur.
    + rewrite lookup_insert_ne in Hk by done. by eapply Hkeys.
  - by eapply Hkeys.
Qed.

Lemma no_resize_type self inst t st ty nm :
  Instance.allow_resize inst = false →
  get_desired_state self inst t = Ok (st, ty, nm) → ty = None.
Proof.
  intros Ha. unfold get_desired_state, handle_override_status.
  destruct (override_status self) as [o|].
  { intros H. by inversion H. }
  destruct (periods self) as [ps|]; [|done].
  unfold resolve, handle_running_state. rewrite Ha.
  destruct (List.filter _ _) as [|x l].
  - destruct (existsb _ _); intros H; by inversion H.
  - simpl. intros H. by inversion H.
Qed.

(** X16: without instance, or for an instance with [allow_resize] false,
    no interval of the result carries an instance type. *)
Theorem no_resize_no_instancetype self start_dt stop_dt instance ps u o d k rp :
  Instance.allow_resize (default placeholder_instance instance) = false →
  periods self = Some ps →
  get_usage self start_dt stop_dt instance = Ok u →
  usage u !! o = Some d → running_periods d !! k = Some rp →
  rp_instancetype rp = None.
Proof.
  intros Ha Hp Hu Hd Hk.
  pose proof (get_usage_entries _ _ _ _ _ _ _ Hu Hd) as Hday.
  destruct (day_usage_unfold _ _ _ _ _ Hp Hday) as (st & Hwalk & Hmap).
  assert ((∀ k rp, w_running_periods st !! k = Some rp →
                   rp_instancetype rp = None) ∧
          w_instance_type st = None) as [Hnone Hty].
  { apply (walk_invariant self (default placeholder_instance instance)
      (fun _ _ st =>
         (∀ k rp, w_running_periods st !! k = Some rp →
                  rp_instancetype rp = None) ∧
         w_instance_type st = None)
      (sorted_timeline (build_timeline ps (day_of start_dt o))) walk_init st);
      [| |exact Hwalk].
    - split; [|done]. intros k' rp' Hl. simpl in Hl.
      by rewrite lookup_empty in Hl.
    - intros _ tm _ st0 [[ds ty] nm] st1 [Hnone Hty] Hr Hs.
      pose proof (no_resize_type _ _ _ _ _ _ Ha Hr) as ->.
      apply walk_step_cases in Hs as
        [(-> & Hc & ->)|[(-> & Hc & b & Hb & ->)|(Hrun & Hstop & ->)]]; simpl.
      + done.
      + split; [|done]. intros k' rp' Hl.
        destruct (decide (w_starting_period st0 = k')) as [<-|Hne].
        * rewrite lookup_insert_eq in Hl. by inversion Hl.
        * rewrite lookup_insert_ne in Hl by done. by eapply Hnone.
      + done. }
  destruct Hmap as [(Hc & b & _ & Hm)|(_ & Hm)]; rewrite Hm in Hk.
  - destruct (decide (w_starting_period st = k)) as [<-|Hne].
    + rewrite lookup_insert_eq in Hk. inversion Hk; subst. simpl. done.
    + rewrite lookup_insert_ne in Hk by done. by eapply Hnone.
  - by eapply Hnone.
Qed.

Lemma disjoint_periods_sym rp1 rp2 :
  disjoint_periods rp1 rp2 → disjoint_periods rp2 rp1.
Proof. unfold disjoint_periods. tauto. Qed.

Lemma insert_disjoint (m : gmap (option string) RunningPeriod) k0 new :
  (∀ k rp, m !! k = Some rp → to_us (rp_end rp) ≤ to_us (rp_begin new)) →
  (∀ k1 k2 rp1 rp2, k1 ≠ k2 → m !! k1 = Some rp1 → m !! k2 = Some rp2 →
                    disjoint_periods rp1 rp2) →
  ∀ k1 k2 rp1 rp2, k1 ≠ k2 →
    <[k0 := new]> m !! k1 = Some rp1 → <[k0 := new]> m !! k2 = Some rp2 →
    disjoint_periods rp1 rp2.
Proof.
  intros Hbefore Hdis k1 k2 rp1 rp2 Hne H1 H2.
  destruct (decide (k0 = k1)) as [->|Hn1].
  - rewrite lookup_insert_eq in H1. inversion H1; subst.
    rewrite lookup_insert_ne in H2 by done.
    right. exact (Hbefore k2 rp2 H2).
  - rewrite lookup_insert_ne in H1 by done.
    destruct (decide (k0 = k2)) as [->|Hn2].
    + rewrite lookup_insert_eq in H2. inversion H2; subst.
      left. exact (Hbefore k1 rp1 H1).
    + rewrite lookup_insert_ne in H2 by done.
      exact (Hdis k1 k2 rp1 rp2 Hne H1 H2).
Qed.

Lemma walk_step_ordered st tm rest r st1 :
  walk_step st tm r = Ok st1 →
  walk_ordered (tm :: rest) st → walk_ordered rest st1.
Proof.
  destruct r as [[ds ty] nm].
  intros Hs (Hsorted & Hends & Hrun & Hdis).
  apply StronglySorted_inv in Hsorted as [Hsorted Hafter].
  assert (Forall (fun x => to_us tm ≤ to_us x) rest) as Hafter'.
  { eapply Forall_impl; [exact Hafter|]. unfold minute_after. intros; lia. }
  assert (∀ k rp, w_running_periods st !! k = Some rp →
                  to_us (rp_end rp) ≤ to_us tm ∧
                  Forall (fun x => to_us (rp_end rp) ≤ to_us x) rest) as Hends'.
  { intros k rp Hl. specialize (Hends k rp Hl).
    by apply Forall_cons in Hends. }
  apply walk_step_cases in Hs as
    [(-> & Hc & ->)|[(-> & Hc & b & Hb & ->)|(_ & _ & ->)]];
    unfold walk_ordered; simpl.
  - split_and!; [done| | |done].
    + intros k rp Hl. by destruct (Hends' k rp Hl).
    + intros _. exists tm. split_and!; [done| |done].
      intros k rp Hl. by destruct (Hends' k rp Hl).
  - destruct (Hrun Hc) as (b' & Hb' & Hbefore & Hlater).
    rewrite Hb in Hb'. inversion Hb'; subst b'. clear Hb'.
    split_and!; [done| |done|].
    + intros k rp Hl.
      destruct (decide (w_starting_period st = k)) as [<-|Hne].
      * rewrite lookup_insert_eq in Hl. inversion Hl; subst. by simpl.
      * rewrite lookup_insert_ne in Hl by done. by destruct (Hends' k rp Hl).
    + by apply insert_disjoint.
  - split_and!; [done| | |done].
    + intros k rp Hl. by destruct (Hends' k rp Hl).
    + intros Hc. destruct (Hrun Hc) as (b & Hb & Hbefore & Hlater).
      exists b. split_and!; [done|done|].
      by apply Forall_cons in Hlater as [_ ?].
Qed.

(** X17: for periods with valid times of day, the intervals of a day do
    not overlap: of two intervals recorded under different names, one
    ends no later than the other begins. *)
Theorem intervals_disjoint
  self start_dt stop_dt instance ps u o d k1 k2 rp1 rp2 :
  periods self = Some ps → valid_periods ps = true →
  get_usage self start_dt stop_dt instance = Ok u →
  usage u !! o = Some d →
  k1 ≠ k2 →
  running_periods d !! k1 = Some rp1 → running_periods d !! k2 = Some rp2 →
  disjoint_periods rp1 rp2.
Proof.
  intros Hp Hv Hu Hd Hne H1 H2.
  pose proof (get_usage_entries _ _ _ _ _ _ _ Hu Hd) as Hday.
  destruct (day_usage_unfold _ _ _ _ _ Hp Hday) as (st & Hwalk & Hmap).
  destruct (sorted_timeline_ascending ps (day_of start_dt o) Hv)
    as [_ Hsorted].
  assert (walk_ordered [] st) as (_ & _ & Hrun & Hdis).
  { apply (walk_invariant self (default placeholder_instance instance)
      (fun _ rest st => walk_ordered rest st)
      (sorted_timeline (build_timeline ps (day_of start_dt o))) walk_init st);
      [| |exact Hwalk].
    - unfold walk_ordered. simpl. split_and!; [done| |done|].
      + intros k rp Hl. by rewrite lookup_empty in Hl.
      + intros k k' rp rp' _ Hl. by rewrite lookup_empty in Hl.
    - intros _ tm rest st0 r st1 HI _ Hs. by eapply walk_step_ordered. }
  destruct Hmap as [(Hc & b & Hb & Hm)|(_ & Hm)]; rewrite Hm in H1, H2.
  - destruct (Hrun Hc) as (b' & Hb' & Hbefore & _).
    rewrite Hb in Hb'. inversion Hb'; subst b'.
    exact (insert_disjoint (w_running_periods st) (w_starting_period st)
             (make_period b (day_close (day_of start_dt o))
                (w_instance_type st))
             Hbefore Hdis k1 k2 rp1 rp2 Hne H1 H2).
  - exact (Hdis k1 k2 rp1 rp2 Hne H1 H2).
Qed.

(** ** The description of a schedule *)

Lemma or_iff_both (A A' B B' : Prop) :
  (A ↔ A') → (B ↔ B') → (A ∨ B ↔ A' ∨ B').
Proof. tauto. Qed.

Lemma attributes_elem x self flags :
  x ∈ attributes self flags ↔
  (∃ d, description flags = Some d ∧ d ≠ "" ∧ x = " (" +:+ d +:+ ")") ∨
  (∃ o, override_status self = Some o ∧
        x = "always " +:+ (if bool_decide (o = "") then "stopped" else "running")
            +:+ " through override_status") ∨
  (timezone self ≠ "" ∧ x = "timezone is " +:+ timezone self) ∨
  (∃ b, stop_new_instances flags = Some b ∧
        x = "new instanced are " +:+ (if b then "" else "not ") +:+ "stopped") ∨
  (∃ b, use_maintenance_window flags = Some b ∧
        x = "maintenance windows are "
            +:+ (if default false (stop_new_instances flags) then "" else "not ")
            +:+ "used to start instances") ∨
  (∃ b, enforced flags = Some b ∧
        x = "schedule state is " +:+ (if b then "" else "not ")
            +:+ "enforced to start or stop instances") ∨
  (∃ b, retain_running flags = Some b ∧
        x = "instances are " +:+ (if b then "not" else "")
            +:+ "stopped if at the and of a period if they were already running at the start of the period") ∨
  (∃ p ps, periods self = Some (p :: ps) ∧
           x = "periods: [" +:+ String.concat ", " (map period_str (p :: ps))
               +:+ "]").
Proof.
  unfold attributes. rewrite !elem_of_app.
  repeat apply or_iff_both.
  - destruct (description flags) as [d|].
    + case_bool_decide as Hd.
      * split; [by intros ?%not_elem_of_nil|]. intros (d' & [= <-] & ? & _). done.
      * rewrite list_elem_of_singleton. split.
        -- intros ->. by exists d.
        -- by intros (d' & [= <-] & _ & ->).
    + split; [by intros ?%not_elem_of_nil|]. by intros (? & ? & _).
  - destruct (override_status self) as [o|].
    + rewrite list_elem_of_singleton. split.
      * intros ->. by exists o.
      * by intros (o' & [= <-] & ->).
    + split; [by intros ?%not_elem_of_nil|]. by intros (? & ? & _).
  - case_bool_decide as Ht.
    + split; [by intros ?%not_elem_of_nil|]. by intros [? _].
    + rewrite list_elem_of_singleton. split; [by intros ->|by intros [_ ->]].
  - destruct (stop_new_instances flags) as [b|].
    + rewrite list_elem_of_singleton. split.
      * intros ->. by exists b.
      * by intros (b' & [= <-] & ->).
    + split; [by intros ?%not_elem_of_nil|]. by intros (? & ? & _).
  - destruct (use_maintenance_window flags) as [b|].
    + rewrite list_elem_of_singleton. split.
      * intros ->. by exists b.
      * by intros (b' & _ & ->).
    + split; [by intros ?%not_elem_of_nil|]. by intros (? & ? & _).
  - destruct (enforced flags) as [b|].
    + rewrite list_elem_of_singleton. split.
      * intros ->. by exists b.
      * by intros (b' & [= <-] & ->).
    + split; [by intros ?%not_elem_of_nil|]. by intros (? & ? & _).
  - destruct (retain_running flags) as [b|].
    + rewrite list_elem_of_singleton. split.
      * intros ->. by exists b.
      * by intros (b' & [= <-] & ->).
    + split; [by intros ?%not_elem_of_nil|]. by intros (? & ? & _).
  - destruct (periods self) as [[|p ps]|].
    + split; [by intros ?%not_elem_of_nil|]. by intros (? & ? & ? & _).
    + rewrite list_elem_of_singleton. split.
      * intros ->. by exists p, ps.
      * by intros (p' & ps' & [= <- <-] & ->).
    + split; [by intros ?%not_elem_of_nil|]. by intros (? & ? & ? & _).
Qed.

(** The attributes that cannot be the string looked for are told apart by
    their first characters. *)
Ltac attribute_cases H :=
  let d := fresh "d" in
  let b := fresh "b" in
  destruct H as [(d & _ & _ & H)|[(? & ? & H)|[[_ H]|[(b & _ & H)|[(? & ? & H)|
                 [(b & _ & H)|[(b & _ & H)|(? & ? & _ & H)]]]]]]];
  try (simpl in H; discriminate H);
  try (destruct b; simpl in H; discriminate H).

(** X18: in the description the override is shown by the truth value of
    [override_status], not by comparing it with the running status: every
    non-empty override, "stopped" as well as "running", is described as
    always running, and only the empty string as always stopped. *)
Theorem str_override_display self flags :
  ("always running through override_status" ∈ attributes self flags ↔
   ∃ o, override_status self = Some o ∧ o ≠ "") ∧
  ("always stopped through override_status" ∈ attributes self flags ↔
   override_status self = Some "").
Proof.
  rewrite !attributes_elem. split; split.
  - intros H. attribute_cases H.
    match goal with Ho : override_status self = Some ?o |- _ =>
      exists o; split; [done|]; intros -> end.
    simpl in H. discriminate H.
  - intros (o & Ho & Hne). right; left. exists o. split; [done|].
    by rewrite bool_decide_eq_false_2.
  - intros H. attribute_cases H.
    match goal with Ho : override_status self = Some ?o |- _ =>
      destruct (decide (o = "")) as [->|Hne]; [done|] end.
    rewrite bool_decide_eq_false_2 in H by done. simpl in H. discriminate H.
  - intros Ho. right; left. exists "". split; [done|].
    by rewrite bool_decide_eq_true_2.
Qed.

(** X19: the line on maintenance windows appears when
    [use_maintenance_window] is not [None], and what it says follows
    [stop_new_instances], not [use_maintenance_window]: the windows are
    described as used exactly when [stop_new_instances] is true. *)
Theorem str_maintenance_window self flags :
  ("maintenance windows are used to start instances"
     ∈ attributes self flags ↔
   use_maintenance_window flags ≠ None ∧
   stop_new_instances flags = Some true) ∧
  ("maintenance windows are not used to start instances"
     ∈ attributes self flags ↔
   use_maintenance_window flags ≠ None ∧
   stop_new_instances flags ≠ Some true).
Proof.
  rewrite !attributes_elem. split; split.
  - intros H. attribute_cases H.
    match goal with Hw : use_maintenance_window flags = Some _ |- _ =>
      split; [by rewrite Hw|] end.
    destruct (stop_new_instances flags) as [[|]|]; simpl in H;
      [done|discriminate H|discriminate H].
  - intros [Hw Hs]. do 4 right. left.
    destruct (use_maintenance_window flags) as [b|]; [|done].
    exists b. split; [done|]. by rewrite Hs.
  - intros H. attribute_cases H.
    match goal with Hw : use_maintenance_window flags = Some _ |- _ =>
      split; [by rewrite Hw|] end.
    destruct (stop_new_instances flags) as [[|]|]; simpl in H;
      [discriminate H|done|done].
  - intros [Hw Hs]. do 4 right. left.
    destruct (use_maintenance_window flags) as [b|]; [|done].
    exists b. split; [done|].
    by destruct (stop_new_instances flags) as [[|]|].
Qed.

(** ** Open intervals and the seconds of a day *)

(** X20: while an interval is open, a boundary that resolves to running,
    under whatever period, neither closes nor renames it: the walk keeps
    its map, [started], [starting_period] and [current_state], and goes on
    over the remaining boundaries. The interval keeps the name of the
    period that won when it was opened. *)
Theorem open_interval_keeps_name self inst st tm rest ty nm :
  w_current_state st = Some STATE_RUNNING →
  get_desired_state self inst (Some tm) = Ok (STATE_RUNNING, ty, nm) →
  walk_step st tm (STATE_RUNNING, ty, nm) = Ok (with_instance_type st ty) ∧
  walk self inst st (tm :: rest) =
    walk self inst (with_instance_type st ty) rest.
Proof.
  intros Hc Hr.
  assert (walk_step st tm (STATE_RUNNING, ty, nm)
          = Ok (with_instance_type st ty)) as Hs.
  { unfold walk_step. simpl. rewrite Hc.
    by rewrite bool_decide_eq_false_2 by (by intros ?). }
  split; [done|].
  change (walk self inst st (tm :: rest))
    with (get_desired_state self inst (Some tm) ≫= fun r =>
          walk_step st tm r ≫= fun st' => walk self inst st' rest).
  rewrite Hr.
  change ((walk_step st tm (STATE_RUNNING, ty, nm) ≫= fun st' =>
           walk self inst st' rest)
          = walk self inst (with_instance_type st ty) rest).
  by rewrite Hs.
Qed.

Lemma whole_minutes_seconds dt b e :
  on_day dt b → on_day dt e ∨ e = day_close dt → minute_after b e →
  running_seconds b e * 1000000 = to_us e - to_us b.
Proof.
  intros Hb He Hgap.
  destruct (good_period_minutes dt (make_period b e None)) as (n & Hn & Hlen).
  { by split_and!. }
  simpl in Hlen. unfold running_seconds. rewrite Hlen.
  rewrite Z.quot_div_nonneg by lia.
  replace (n * 60000000) with (60 * n * 1000000) by lia.
  rewrite Z.div_mul by lia. lia.
Qed.

Lemma sum_seconds_insert (m : gmap (option string) RunningPeriod)
  (k : option string) (rp : RunningPeriod) :
  (∀ k' rp', m !! k' = Some rp' → 0 ≤ rp_billing_seconds rp') →
  sum_billing_seconds (<[k := rp]> m)
    ≤ sum_billing_seconds m + rp_billing_seconds rp.
Proof.
  intros Hpos. unfold sum_billing_seconds.
  destruct (m !! k) as [old|] eqn:Hk.
  - rewrite (total_overwrite _ _ _ _ _ Hk).
    pose proof (Hpos k old Hk). lia.
  - rewrite (total_insert_fresh _ _ _ _ Hk). lia.
Qed.

Lemma close_bounded (dt : datetime) (m : gmap (option string) RunningPeriod)
  (k : option string) (b e : datetime) (ty : option string) (F : datetime) :
  (∀ k' rp', m !! k' = Some rp' → 0 ≤ rp_billing_seconds rp') →
  sum_billing_seconds m * 1000000 ≤ to_us F - to_us (replace dt 0 0) →
  to_us F ≤ to_us b →
  on_day dt b → on_day dt e ∨ e = day_close dt → minute_after b e →
  (∀ k' rp', <[k := make_period b e ty]> m !! k' = Some rp' →
             0 ≤ rp_billing_seconds rp') ∧
  sum_billing_seconds (<[k := make_period b e ty]> m) * 1000000
    ≤ to_us e - to_us (replace dt 0 0).
Proof.
  intros Hpos Hsum HF Hb He Hgap.
  pose proof (whole_minutes_seconds dt b e Hb He Hgap) as Hsec.
  split.
  - intros k' rp' Hl. destruct (decide (k = k')) as [->|Hne].
    + rewrite lookup_insert_eq in Hl. inversion Hl; subst. simpl.
      pose proof (running_seconds_min b e). lia.
    + rewrite lookup_insert_ne in Hl by done. by eapply Hpos.
  - pose proof (sum_seconds_insert m k (make_period b e ty) Hpos) as Hle.
    simpl in Hle. lia.
Qed.

Lemma walk_step_bounded dt st tm rest r st1 :
  walk_step st tm r = Ok st1 →
  walk_bounded dt (tm :: rest) st → walk_bounded dt rest st1.
Proof.
  destruct r as [[ds ty] nm].
  intros Hs (Hon & Hsorted & Hpos & F & HF0 & Hsum & HFrest & Hrun).
  apply Forall_cons in Hon as [Hontm Hon].
  apply StronglySorted_inv in Hsorted as [Hsorted Hafter].
  apply Forall_cons in HFrest as [HFtm HFrest].
  assert (Forall (fun x => to_us tm ≤ to_us x) rest) as Hafter'.
  { eapply Forall_impl; [exact Hafter|]. unfold minute_after. intros; lia. }
  apply walk_step_cases in Hs as
    [(-> & Hc & ->)|[(-> & Hc & b & Hb & ->)|(_ & _ & ->)]];
    unfold walk_bounded; simpl.
  - split_and!; [done|done|done|]. exists F. split_and!; [done|done|done|].
    intros _. exists tm. by split_and!.
  - destruct (Hrun Hc) as (b' & Hb' & HFb & Hbon & Hbafter).
    rewrite Hb in Hb'. inversion Hb'; subst b'. clear Hb'.
    apply Forall_cons in Hbafter as [Hbtm _].
    destruct (close_bounded dt (w_running_periods st) (w_starting_period st)
                b tm ty F Hpos Hsum HFb Hbon (or_introl Hontm) Hbtm)
      as [Hpos' Hsum'].
    split_and!; [done|done|done|]. exists tm. by split_and!.
  - split_and!; [done|done|done|]. exists F. split_and!; [done|done|done|].
    intros Hc. destruct (Hrun Hc) as (b & Hb & HFb & Hbon & Hbafter).
    exists b. split_and!; [done|done|done|].
    by apply Forall_cons in Hbafter as [_ ?].
Qed.

(** X21: for periods with valid times of day, no day bills more than
    86400 seconds, and never a negative number. *)
Theorem day_seconds_bounded self start_dt stop_dt instance ps u o d :
  periods self = Some ps → valid_periods ps = true →
  get_usage self start_dt stop_dt instance = Ok u →
  usage u !! o = Some d →
  0 ≤ billing_seconds d ≤ 86400.
Proof.
  intros Hp Hv Hu Hd.
  pose proof (get_usage_entries _ _ _ _ _ _ _ Hu Hd) as Hday.
  set (dt := day_of start_dt o) in *.
  destruct (day_usage_totals _ _ _ _ Hday) as [-> _].
  destruct (day_usage_unfold _ _ _ _ _ Hp Hday) as (st & Hwalk & Hmap).
  destruct (sorted_timeline_ascending ps dt Hv) as [Hon Hsorted].
  assert (walk_bounded dt [] st)
    as (_ & _ & Hpos & F & HF0 & Hsum & _ & Hrun).
  { apply (walk_invariant self (default placeholder_instance instance)
      (fun _ rest st => walk_bounded dt rest st)
      (sorted_timeline (build_timeline ps dt)) walk_init st);
      [| |exact Hwalk].
    - unfold walk_bounded. simpl. split_and!; [done|done| |].
      + intros k rp Hl. by rewrite lookup_empty in Hl.
      + exists (replace dt 0 0).
        split_and!; [apply on_day_midnight| | |done].
        * unfold sum_billing_seconds, map_total. rewrite map_fold_empty. lia.
        * eapply Forall_impl; [exact Hon|]. intros tm Htm.
          by apply on_day_after_midnight.
    - intros _ tm rest st0 r st1 HI _ Hs. by eapply walk_step_bounded. }
  assert (∀ m : gmap (option string) RunningPeriod,
            (∀ k rp, m !! k = Some rp → 0 ≤ rp_billing_seconds rp) →
            0 ≤ sum_billing_seconds m) as Hnonneg.
  { intros m. induction m as [|k rp m' Hk IH] using map_ind; intros Hall.
    - unfold sum_billing_seconds, map_total. rewrite map_fold_empty. lia.
    - unfold sum_billing_seconds in *.
      rewrite total_insert_fresh by done.
      assert (0 ≤ rp_billing_seconds rp)
        by (apply (Hall k); apply lookup_insert_eq).
      assert (0 ≤ map_total rp_billing_seconds m').
      { apply IH. intros k' rp' Hl. apply (Hall k').
        rewrite lookup_insert_ne; [done|]. intros ->. congruence. }
      lia. }
  destruct Hmap as [(Hc & b & Hb & Hm)|(_ & Hm)]; rewrite Hm.
  - destruct (Hrun Hc) as (b' & Hb' & HFb & Hbon & _).
    rewrite Hb in Hb'. inversion Hb'; subst b'. clear Hb'.
    destruct (close_bounded dt (w_running_periods st) (w_starting_period st)
                b (day_close dt) (w_instance_type st) F Hpos Hsum HFb Hbon
                (or_intror eq_refl) (on_day_before_close dt b Hbon))
      as [Hpos' Hsum'].
    pose proof (full_day dt). split; [by apply Hnonneg|lia].
  - split; [by apply Hnonneg|].
    pose proof (on_day_before_close dt F HF0) as HFclose.
    unfold minute_after in HFclose. pose proof (full_day dt). lia.
Qed.

(** X22: a period that reports neither running nor any at the instant,
    whatever else it reports, has no part in the result: the schedule
    without it resolves to the same state, type and name. *)
Theorem idle_period_ignored self inst dt ps1 p ps2 :
  Period.get_desired_state (period p) (get_check_time self dt)
    ≠ STATE_RUNNING →
  Period.get_desired_state (period p) (get_check_time self dt) ≠ STATE_ANY →
  get_desired_state (with_periods self (Some (ps1 ++ p :: ps2))) inst dt =
  get_desired_state (with_periods self (Some (ps1 ++ ps2))) inst dt.
Proof.
  intros Hr Ha. unfold get_desired_state, with_periods. simpl.
  destruct (override_status self) as [o|]; [done|].
  change (get_check_time
            {| name := name self; periods := Some (ps1 ++ p :: ps2);
               timezone := timezone self; override_status := None;
               schedule_dt := schedule_dt self |} dt)
    with (get_check_time self dt).
  change (get_check_time
            {| name := name self; periods := Some (ps1 ++ ps2);
               timezone := timezone self; override_status := None;
               schedule_dt := schedule_dt self |} dt)
    with (get_check_time self dt).
  unfold resolve. rewrite !List.map_app, !List.filter_app, !existsb_app.
  simpl.
  assert (is_state STATE_RUNNING (poll (get_check_time self dt) p) = false)
    as -> by (by apply bool_decide_eq_false_2).
  assert (is_state STATE_ANY (poll (get_check_time self dt) p) = false)
    as -> by (by apply bool_decide_eq_false_2).
  done.
Qed.

(** ** The order of the periods *)

Lemma begins_latest_spec l p :
  begins_latest l p = true ↔
  ∀ q, q ∈ l → begin_le (pws_begin q) (pws_begin p) = true.
Proof.
  unfold begins_latest. rewrite forallb_forall. split.
  - intros H q Hq. apply H. by apply list_elem_of_In.
  - intros H q Hq. apply H. by apply list_elem_of_In.
Qed.

Lemma latest_agree_spec inst l :
  latest_agree inst l = true ↔
  ∀ p q, p ∈ l → q ∈ l →
         begins_latest l p = true → begins_latest l q = true →
         Period.name (pws_period p) = Period.name (pws_period q) ∧
         desired_type_of inst p = desired_type_of inst q.
Proof.
  unfold latest_agree. rewrite forallb_forall. split.
  - intros H p q Hp Hq Lp Lq. apply list_elem_of_In in Hp, Hq.
    specialize (H p Hp). rewrite forallb_forall in H. specialize (H q Hq).
    rewrite Lp, Lq in H. simpl in H.
    apply andb_true_iff in H as [H1 H2].
    by apply bool_decide_eq_true_1 in H1, H2.
  - intros H p Hp. rewrite forallb_forall. intros q Hq.
    destruct (begins_latest l p) eqn:Lp; [|done].
    destruct (begins_latest l q) eqn:Lq; [|done]. simpl.
    destruct (H p q) as [H1 H2]; [by apply list_elem_of_In..|done|done|].
    by rewrite !bool_decide_eq_true_2.
Qed.

(** The result for a list of running periods, in terms of the period the
    reduction selects. *)
Lemma handle_running_state_winner inst l w :
  _reduce latest_starttime l = Some w →
  handle_running_state inst l =
    Ok (if requires_adjust_instance_size (desired_type_of inst w) inst
        then STATE_STOPPED else STATE_RUNNING,
        desired_type_of inst w, Some (Period.name (pws_period w))).
Proof. intros H. unfold handle_running_state. by rewrite H. Qed.

(** A period listed last that no other begins later than is selected. *)
Lemma reduce_latest_last l p :
  (∀ q, q ∈ l → begin_le (pws_begin q) (pws_begin p) = true) →
  _reduce latest_starttime (l ++ [p]) = Some p.
Proof.
  intros H. destruct l as [|x l]; [done|]. simpl.
  rewrite fold_left_app. simpl. f_equal.
  apply latest_starttime_le, H, fold_latest_elem.
Qed.

Lemma running_at_app self dt l1 l2 :
  running_at self dt (l1 ++ l2) = running_at self dt l1 ++ running_at self dt l2.
Proof. unfold running_at. by rewrite List.map_app, List.filter_app. Qed.

(** Moving a running period that begins latest to the end of the list
    makes it the one that decides the result. *)
Lemma moved_last_decides self inst dt l1 sw l2 :
  override_status self = None →
  Period.get_desired_state (period sw) (get_check_time self dt)
    = STATE_RUNNING →
  begins_latest (running_at self dt (l1 ++ sw :: l2))
    (poll (get_check_time self dt) sw) = true →
  get_desired_state (with_periods self (Some (l1 ++ l2 ++ [sw]))) inst dt =
    Ok (if requires_adjust_instance_size
             (desired_type_of inst (poll (get_check_time self dt) sw)) inst
        then STATE_STOPPED else STATE_RUNNING,
        desired_type_of inst (poll (get_check_time self dt) sw),
        Some (Period.name (period sw))).
Proof.
  intros Ho Hst Hlatest.
  assert (running_at self dt [sw] = [poll (get_check_time self dt) sw]) as Hone.
  { unfold running_at, is_state. simpl. by rewrite bool_decide_eq_true_2. }
  assert (running_at self dt (l1 ++ l2 ++ [sw]) =
          running_at self dt (l1 ++ l2) ++ [poll (get_check_time self dt) sw])
    as Hrun.
  { by rewrite app_assoc, running_at_app, Hone. }
  rewrite (get_desired_state_running _ inst dt (l1 ++ l2 ++ [sw]));
    [|done|done|].
  2:{ change (running_at (with_periods self (Some (l1 ++ l2 ++ [sw]))) dt
                (l1 ++ l2 ++ [sw]))
        with (running_at self dt (l1 ++ l2 ++ [sw])).
      rewrite Hrun. intros E. by apply app_eq_nil in E as [_ ?]. }
  change (running_at (with_periods self (Some (l1 ++ l2 ++ [sw]))) dt
            (l1 ++ l2 ++ [sw]))
    with (running_at self dt (l1 ++ l2 ++ [sw])).
  rewrite Hrun.
  apply (handle_running_state_winner inst _ (poll (get_check_time self dt) sw)).
  apply reduce_latest_last. intros q Hq.
  apply (proj1 (begins_latest_spec _ _) Hlatest).
  rewrite running_at_app in Hq. rewrite running_at_app.
  change (sw :: l2) with ([sw] ++ l2). rewrite running_at_app.
  apply elem_of_app in Hq as [Hq|Hq].
  - apply elem_of_app. by left.
  - apply elem_of_app. right. apply elem_of_app. by right.
Qed.

(** C8, as the code has it: the state, the resource type and the period
    name are the same under every reordering of the periods exactly when
    an override is set or the running periods that begin latest (a period
    without begin time counting as earliest) carry the same name and give
    the instance the same type. Running periods that tie on an earlier
    begin time do not matter. *)
Theorem permutation_invariant self inst dt ps :
  (∀ ps', ps ≡ₚ ps' →
          get_desired_state (with_periods self (Some ps')) inst dt =
          get_desired_state (with_periods self (Some ps)) inst dt) ↔
  (is_Some (override_status self) ∨
   latest_agree inst (running_at self dt ps) = true).
Proof.
  destruct (override_status self) as [o|] eqn:Ho.
  { split; [intros _; left; by eexists|]. intros _ ps' _.
    unfold get_desired_state, with_periods. simpl. by rewrite Ho. }
  split.
  - intros Hinv. right. apply latest_agree_spec. intros p q Hp Hq Lp Lq.
    assert (∀ w, w ∈ running_at self dt ps →
                 begins_latest (running_at self dt ps) w = true →
                 get_desired_state (with_periods self (Some ps)) inst dt =
                   Ok (if requires_adjust_instance_size
                            (desired_type_of inst w) inst
                       then STATE_STOPPED else STATE_RUNNING,
                       desired_type_of inst w,
                       Some (Period.name (pws_period w)))) as Hdecides.
    { intros w Hw Lw.
      apply running_at_elem in Hw as (sw & Hsw & -> & Hst).
      apply list_elem_of_split in Hsw as (l1 & l2 & ->).
      rewrite <- (Hinv (l1 ++ l2 ++ [sw])).
      - by apply moved_last_decides.
      - apply Permutation_app_head. apply Permutation_cons_append. }
    pose proof (Hdecides p Hp Lp) as Rp.
    rewrite (Hdecides q Hq Lq) in Rp.
    inversion Rp as [[Hstate Htype Hname]]. by split.
  - intros [[o Ho']|Hagree] ps' Hperm; [done|].
    pose proof (running_at_Permutation self dt ps ps' Hperm) as Hrun.
    assert (∀ l, running_at (with_periods self (Some l)) dt l
                 = running_at self dt l) as Hsame by done.
    destruct (running_at self dt ps) as [|x l] eqn:E.
    + apply Permutation_nil_l in Hrun.
      rewrite (get_desired_state_not_running _ inst dt ps');
        [|done|done|by rewrite Hsame].
      rewrite (get_desired_state_not_running _ inst dt ps);
        [|done|done|by rewrite Hsame].
      f_equal. erewrite existsb_Permutation; [reflexivity|].
      by apply Permutation_map.
    + assert (running_at self dt ps ≠ []) as Hne by (by rewrite E).
      assert (running_at self dt ps' ≠ []) as Hne'.
      { intros E'. rewrite E' in Hrun. by apply Permutation_nil_r in Hrun. }
      rewrite <- E in Hagree, Hrun.
      rewrite (get_desired_state_running _ inst dt ps');
        [|done|done|by rewrite Hsame].
      rewrite (get_desired_state_running _ inst dt ps);
        [|done|done|by rewrite Hsame].
      rewrite !Hsame.
      destruct (reduce_latest_spec _ Hne) as (w & Hw & Hin & Hmax).
      destruct (reduce_latest_spec _ Hne') as (w' & Hw' & Hin' & Hmax').
      rewrite (handle_running_state_winner inst _ w Hw).
      rewrite (handle_running_state_winner inst _ w' Hw').
      assert (w' ∈ running_at self dt ps) as Hin2 by (by rewrite Hrun).
      assert (begins_latest (running_at self dt ps) w = true) as Lw
        by (by apply begins_latest_spec).
      assert (begins_latest (running_at self dt ps) w' = true) as Lw'.
      { apply begins_latest_spec. intros q Hq. apply Hmax'.
        by rewrite <- Hrun. }
      destruct (proj1 (latest_agree_spec inst _) Hagree w' w Hin2 Hin Lw' Lw)
        as [-> ->].
      done.
Qed.

(** ** The lookup of the zone *)

(** For a zone that is found, the evaluation is [get_desired_state]. *)
Lemma get_desired_state_pytz_known known_timezone self inst dt :
  known_timezone (timezone self) = true →
  get_desired_state_pytz known_timezone self inst dt =
  get_desired_state self inst dt.
Proof.
  intros H.
  unfold get_desired_state_pytz, get_desired_state, get_check_time_pytz.
  rewrite H. by destruct (override_status self).
Qed.

(** C6, as the code has it: a schedule with an empty list of periods and
    no override resolves to stopped, with no resource type and no period
    name, for every instance and instant, when its timezone is one the
    lookup finds; when it is not, the evaluation raises
    [UnknownTimeZoneError] with the name of the zone. *)
Theorem empty_periods_stopped known_timezone self inst dt :
  periods self = Some [] → override_status self = None →
  get_desired_state_pytz known_timezone self inst dt =
    if known_timezone (timezone self)
    then Ok (STATE_STOPPED, None, None)
    else Raise (UnknownTimeZoneError (timezone self)).
Proof.
  intros Hp Ho. unfold get_desired_state_pytz, get_check_time_pytz.
  rewrite Ho, Hp. by destruct (known_timezone (timezone self)).
Qed.

(** X1: the errors of [get_desired_state] in the order the code meets
    them. With an override set nothing is looked up: the result of the
    override is returned whatever the timezone and the periods. Without
    override a timezone that is not found raises [UnknownTimeZoneError]
    before the periods are read, also when there is no list of periods;
    with a timezone that is found, a schedule without list of periods
    raises [TypeError]. *)
Theorem get_desired_state_raises known_timezone self inst dt :
  (∀ o, override_status self = Some o →
        get_desired_state_pytz known_timezone self inst dt =
          Ok (handle_override_status self o)) ∧
  (override_status self = None →
   known_timezone (timezone self) = false →
   get_desired_state_pytz known_timezone self inst dt =
     Raise (UnknownTimeZoneError (timezone self))) ∧
  (override_status self = None →
   known_timezone (timezone self) = true →
   periods self = None →
   get_desired_state_pytz known_timezone self inst dt = Raise TypeError).
Proof.
  unfold get_desired_state_pytz, get_check_time_pytz. split_and!.
  - intros o Ho. by rewrite Ho.
  - intros Ho Hk. by rewrite Ho, Hk.
  - intros Ho Hk Hp. by rewrite Ho, Hk, Hp.
Qed.

(** ** The errors of [get_usage] *)

Lemma walk_step_error st tm r e :
  walk_step st tm r = Raise e → e = TypeError.
Proof.
  destruct r as [[ds ty] nm]. unfold walk_step, close_period.
  repeat case_bool_decide; try done.
  simpl. destruct (w_started st); [done|]. intros Hr. by inversion Hr.
Qed.

Lemma walk_error self inst st tms e :
  walk self inst st tms = Raise e → e = TypeError.
Proof.
  revert st. induction tms as [|tm rest IH]; intros st; simpl; [done|].
  destruct (get_desired_state self inst (Some tm)) as [r|e'] eqn:Hr; simpl.
  - destruct (walk_step st tm r) as [st1|e''] eqn:Hs; simpl.
    + apply IH.
    + intros H. inversion H; subst. by eapply walk_step_error.
  - intros H. inversion H; subst. by eapply get_desired_state_error.
Qed.

Lemma day_usage_error self instance dt e :
  day_usage self instance dt = Raise e → e = TypeError.
Proof.
  unfold day_usage. destruct (periods self) as [ps|].
  2:{ intros H. by inversion H. }
  destruct (walk _ _ _ _) as [st|e'] eqn:Hw; simpl.
  - case_bool_decide; simpl; [|done].
    unfold close_period. destruct (w_started st); [done|].
    simpl. intros Hr. by inversion Hr.
  - intros H. inversion H; subst. by eapply walk_error.
Qed.

Lemma usage_loop_error self instance stop fuel dt result e :
  usage_loop self instance stop fuel dt result = Raise e → e = TypeError.
Proof.
  revert dt result. induction fuel as [|fuel IH]; intros dt result; simpl;
    [done|].
  destruct (dt_le dt stop); [|done].
  destruct (day_usage self instance dt) as [day|e'] eqn:Hd; simpl.
  - apply IH.
  - intros H. inversion H; subst. by eapply day_usage_error.
Qed.

(** Once the range is accepted, [get_usage] does not raise its error. *)
Lemma get_usage_error self start_dt stop_dt instance e :
  dt_gt start_dt (default start_dt stop_dt) = false →
  get_usage self start_dt stop_dt instance = Raise e → e = TypeError.
Proof.
  intros Hgt. unfold get_usage. rewrite Hgt.
  destruct (usage_loop _ _ _ _ _ _) as [res|e'] eqn:Hl; simpl; [done|].
  intros H. inversion H; subst. by eapply usage_loop_error.
Qed.

(** X8: the first two errors of [get_usage], in the order they are
    raised: a start later than the end is the [ValueError] of the range,
    whatever the schedule; otherwise a schedule without list of periods
    is a [TypeError], also when an override is set, as the boundaries of
    the first day are collected from the periods before anything is
    evaluated. *)
Theorem get_usage_errors self start_dt stop_dt instance :
  (dt_gt start_dt (default start_dt stop_dt) = true →
   get_usage self start_dt stop_dt instance =
     Raise (ValueError ERR_STOP_MUST_BE_LATER_OR_EQUAL_TO_START)) ∧
  (dt_gt start_dt (default start_dt stop_dt) = false →
   periods self = None →
   get_usage self start_dt stop_dt instance = Raise TypeError).
Proof.
  split.
  - intros Hgt. unfold get_usage. by rewrite Hgt.
  - intros Hgt Hp. unfold get_usage. rewrite Hgt.
    assert (dt_le start_dt (default start_dt stop_dt) = true) as Hle
      by (unfold dt_le; by rewrite Hgt).
    pose proof (dt_le_ordinal _ _ Hle) as Hord.
    replace (Z.to_nat (ordinal (default start_dt stop_dt) - ordinal start_dt + 1))
      with (S (Z.to_nat (ordinal (default start_dt stop_dt) - ordinal start_dt)))
      by lia.
    by rewrite usage_loop_raises.
Qed.


(** ** The intervals of a day in the order they are closed *)

Lemma intervals_from_step tr last_type close tm ds ty nm rest :
  (tr = Idle ∧ ds = STATE_RUNNING ∧
   intervals_from tr last_type close ((tm, (ds, ty, nm)) :: rest) =
     intervals_from (Open tm nm) ty close rest) ∨
  (∃ b k, tr = Open b k ∧ ds = STATE_STOPPED ∧
          intervals_from tr last_type close ((tm, (ds, ty, nm)) :: rest) =
            (k, make_period b tm ty) :: intervals_from Idle ty close rest) ∨
  ((tr = Idle → ds ≠ STATE_RUNNING) ∧
   (∀ b k, tr = Open b k → ds ≠ STATE_STOPPED) ∧
   intervals_from tr last_type close ((tm, (ds, ty, nm)) :: rest) =
     intervals_from tr ty close rest).
Proof.
  destruct tr as [|b k], ds; simpl;
    try (by left);
    try (right; left; by exists b, k);
    right; right; split_and!; try done; by intros.
Qed.

Lemma resolved_times self inst tms rs :
  resolved self inst tms = Ok rs → rs.*1 = tms.
Proof.
  revert rs. induction tms as [|tm rest IH]; intros rs; simpl.
  - intros H. by inversion H.
  - destruct (get_desired_state self inst (Some tm)) as [r|e]; [|done]. simpl.
    destruct (resolved self inst rest) as [rs'|e]; [|done]. simpl.
    intros H. inversion H; subst. simpl. f_equal. by apply IH.
Qed.

(** A walk that returns has obtained a desired state at every instant. *)
Lemma walk_resolved self inst st tms st' :
  walk self inst st tms = Ok st' → ∃ rs, resolved self inst tms = Ok rs.
Proof.
  revert st. induction tms as [|tm rest IH]; intros st; simpl.
  - by eexists.
  - destruct (get_desired_state self inst (Some tm)) as [r|e]; [|done]. simpl.
    destruct (walk_step st tm r) as [st1|e]; [|done]. simpl.
    intros Hw. destruct (IH _ Hw) as [rs ->]. simpl. by eexists.
Qed.

(** The walk stores the intervals read off the desired states: its map
    at the end, with the interval still open closed at [close], is the map
    at the start with the intervals stored one after the other. *)
Lemma walk_refines self inst close tms rs st st' tr :
  resolved self inst tms = Ok rs → tracks st tr →
  walk self inst st tms = Ok st' →
  ∃ tr', tracks st' tr' ∧
    last_wins_from (w_running_periods st)
      (intervals_from tr (w_instance_type st) close rs) =
    last_wins_from (w_running_periods st')
      (intervals_from tr' (w_instance_type st') close []).
Proof.
  revert rs st tr. induction tms as [|tm rest IH]; intros rs st tr.
  - simpl. intros Hrs Htr Hw. inversion Hrs; subst. inversion Hw; subst.
    by exists tr.
  - intros Hrs Htr Hw.
    change (walk self inst st (tm :: rest))
      with (get_desired_state self inst (Some tm) ≫= fun r =>
            walk_step st tm r ≫= fun st1 => walk self inst st1 rest) in Hw.
    simpl in Hrs.
    destruct (get_desired_state self inst (Some tm)) as [[[ds ty] nm]|e];
      [|done].
    destruct (resolved self inst rest) as [rs'|e] eqn:Hrest; [|done].
    simpl in Hrs. inversion Hrs; subst; clear Hrs.
    unfold mbind, Result_bind in Hw. cbv beta iota in Hw.
    destruct (walk_step st tm (ds, ty, nm)) as [st1|e] eqn:Hs; [|done].
    apply walk_step_cases in Hs
      as [(-> & Hc & ->)|[(-> & Hc & b & Hb & ->)|(H1 & H2 & ->)]].
    + destruct tr as [|b k]; [|by destruct Htr as (? & _)].
      refine (IH rs' _ (Open tm nm) eq_refl _ Hw). by simpl.
    + destruct tr as [|b' k]; [done|].
      destruct Htr as (_ & Hb' & Hk). rewrite Hb in Hb'.
      inversion Hb'; subst b'. rewrite <- Hk.
      refine (IH rs' _ Idle eq_refl _ Hw). by simpl.
    + unfold DesiredState in *.
      destruct (intervals_from_step tr (w_instance_type st) close
                  tm ds ty nm rs')
        as [(-> & -> & _)|[(b & k & -> & -> & _)|(_ & _ & ->)]].
      * simpl in Htr. by destruct Htr; apply H1.
      * destruct Htr as (Hc & _). by destruct (H2 eq_refl).
      * refine (IH rs' _ tr eq_refl _ Hw). by destruct tr.
Qed.

Lemma last_wins_from_absent m l k :
  (∀ kv, kv ∈ l → kv.1 ≠ k) → last_wins_from m l !! k = m !! k.
Proof.
  revert m. induction l as [|[k' v] l IH]; intros m Hl; [done|].
  unfold last_wins_from. simpl. fold (last_wins_from (<[k' := v]> m) l).
  rewrite IH.
  - apply lookup_insert_ne.
    exact (Hl (k', v) (list_elem_of_here _ _)).
  - intros kv Hkv. by apply Hl, list_elem_of_further.
Qed.

(** The interval stored last under a name is the one the map has. *)
Lemma last_wins_from_lookup m l1 k v l3 :
  (∀ kv, kv ∈ l3 → kv.1 ≠ k) →
  last_wins_from m (l1 ++ (k, v) :: l3) !! k = Some v.
Proof.
  intros Hl. unfold last_wins_from. rewrite fold_left_app. simpl.
  fold (last_wins_from m l1).
  fold (last_wins_from (<[k := v]> (last_wins_from m l1)) l3).
  rewrite last_wins_from_absent by done. apply lookup_insert_eq.
Qed.

(** What the map has was stored. *)
Lemma last_wins_from_elem m l k v :
  last_wins_from m l !! k = Some v → (k, v) ∈ l ∨ m !! k = Some v.
Proof.
  revert m. induction l as [|[k' v'] l IH]; intros m; [by right|].
  unfold last_wins_from. simpl. fold (last_wins_from (<[k' := v']> m) l).
  intros H. apply IH in H as [H|H].
  - left. by apply list_elem_of_further.
  - destruct (decide (k' = k)) as [->|Hne].
    + rewrite lookup_insert_eq in H. inversion H; subst. left.
      apply list_elem_of_here.
    + rewrite lookup_insert_ne in H by done. by right.
Qed.

(** The day's map holds the intervals of the day, each stored under its
    name in the order they are closed. *)
Lemma day_usage_intervals self instance dt ps d :
  periods self = Some ps →
  day_usage self instance dt = Ok d →
  ∃ rs,
    resolved self (default placeholder_instance instance)
      (sorted_timeline (build_timeline ps dt)) = Ok rs ∧
    running_periods d = last_wins (closed_intervals (day_close dt) rs).
Proof.
  intros Hp Hd.
  destruct (day_usage_unfold self instance dt ps d Hp Hd) as (st & Hw & Hcase).
  destruct (walk_resolved _ _ _ _ _ Hw) as [rs Hrs].
  exists rs. split; [done|].
  destruct (walk_refines _ _ (day_close dt) _ rs walk_init st Idle Hrs)
    as (tr' & Htr' & Heq); [by simpl|done|].
  unfold last_wins, closed_intervals.
  change (last_wins_from ∅ (intervals_from Idle None (day_close dt) rs))
    with (last_wins_from (w_running_periods walk_init)
            (intervals_from Idle (w_instance_type walk_init) (day_close dt) rs)).
  rewrite Heq.
  destruct Hcase as [(Hc & b & Hb & ->)|(Hc & ->)].
  - destruct tr' as [|b' k]; [done|].
    destruct Htr' as (_ & Hb' & <-). rewrite Hb in Hb'.
    by inversion Hb'; subst b'.
  - destruct tr' as [|b' k]; [done|]. by destruct Htr' as (? & _).
Qed.

(** The intervals read off boundaries in ascending order begin one after
    the other. *)
Lemma intervals_from_ascending close rs :
  ∀ tr last_type lower,
    StronglySorted minute_after rs.*1 →
    Forall (fun tm => to_us lower ≤ to_us tm) rs.*1 →
    match tr with
    | Idle => True
    | Open b _ => to_us lower ≤ to_us b ∧ Forall (minute_after b) rs.*1
    end →
    StronglySorted
      (fun x y => to_us (rp_begin x.2) < to_us (rp_begin y.2))
      (intervals_from tr last_type close rs) ∧
    Forall (fun x => to_us lower ≤ to_us (rp_begin x.2))
      (intervals_from tr last_type close rs).
Proof.
  induction rs as [|[tm [[ds ty] nm]] rest IH]; intros tr last_type lower.
  - intros _ _ Htr. destruct tr as [|b k]; simpl.
    + split; constructor.
    + split; [repeat constructor|]. repeat constructor. simpl. by destruct Htr.
  - rewrite fmap_cons. simpl fst. intros Hs Hl Htr.
    apply StronglySorted_inv in Hs as [Hs Htm].
    apply Forall_cons in Hl as [Hltm Hl].
    unfold DesiredState in *.
    destruct (intervals_from_step tr last_type close tm ds ty nm rest)
      as [(-> & -> & ->)|[(b & k & -> & -> & ->)|(_ & _ & ->)]].
    + destruct (IH (Open tm nm) ty tm Hs) as [IH1 IH2].
      { eapply Forall_impl; [exact Htm|]. unfold minute_after. intros; lia. }
      { split; [lia|done]. }
      split; [done|].
      eapply Forall_impl; [exact IH2|]. simpl. intros; lia.
    + destruct Htr as [Hlb Hb]. apply Forall_cons in Hb as [Hbtm Hb].
      unfold minute_after in Hbtm.
      destruct (IH Idle ty tm Hs) as [IH1 IH2]; [|done|].
      { eapply Forall_impl; [exact Htm|]. unfold minute_after. intros; lia. }
      split.
      * constructor; [done|].
        eapply Forall_impl; [exact IH2|]. simpl. intros; lia.
      * constructor; [done|].
        eapply Forall_impl; [exact IH2|]. simpl. intros; lia.
    + apply IH; [done|done|].
      destruct tr as [|b k]; [done|]. destruct Htr as [Hlb Hb].
      apply Forall_cons in Hb as [_ Hb]. by split.
Qed.

(** Of two intervals of a day stored under the same name the day's map
    has the later one. *)
Lemma day_usage_overwrites self instance dt ps d :
  periods self = Some ps →
  day_usage self instance dt = Ok d →
  ∃ rs,
    resolved self (default placeholder_instance instance)
      (sorted_timeline (build_timeline ps dt)) = Ok rs ∧
    running_periods d = last_wins (closed_intervals (day_close dt) rs) ∧
    (∀ l1 k earlier l2 later l3,
       closed_intervals (day_close dt) rs =
         l1 ++ (k, earlier) :: l2 ++ (k, later) :: l3 →
       (∀ kv, kv ∈ l3 → kv.1 ≠ k) →
       running_periods d !! k = Some later ∧
       (valid_periods ps = true →
        to_us (rp_begin earlier) < to_us (rp_begin later) ∧
        ∀ k', running_periods d !! k' ≠ Some earlier)) ∧
    billing_seconds d = sum_billing_seconds (running_periods d) ∧
    billing_hours d = sum_billing_hours (running_periods d).
Proof.
  intros Hp Hd.
  destruct (day_usage_intervals self instance dt ps d Hp Hd)
    as (rs & Hrs & Hmap).
  exists rs. split; [done|]. split; [done|].
  split; [|by apply (day_usage_totals self instance dt)].
  intros l1 k earlier l2 later l3 Hclosed Hl3.
  assert (running_periods d !! k = Some later) as Hlater.
  { rewrite Hmap, Hclosed. unfold last_wins.
    replace (l1 ++ (k, earlier) :: l2 ++ (k, later) :: l3)
      with ((l1 ++ (k, earlier) :: l2) ++ (k, later) :: l3)
      by (by rewrite <- app_assoc).
    by apply last_wins_from_lookup. }
  split; [done|]. intros Hv.
  destruct (sorted_timeline_ascending ps dt Hv) as [_ Hsorted].
  destruct (intervals_from_ascending (day_close dt) rs Idle None
              (replace dt 0 0)) as [Hasc _].
  { by rewrite (resolved_times _ _ _ _ Hrs). }
  { rewrite (resolved_times _ _ _ _ Hrs).
    destruct (sorted_timeline_midnight_first ps dt Hv)
      as (rest & -> & _ & Hs & _).
    apply StronglySorted_inv in Hs as [_ Hs]. constructor; [done|].
    eapply Forall_impl; [exact Hs|]. unfold minute_after. intros; lia. }
  { done. }
  fold (closed_intervals (day_close dt) rs) in Hasc. rewrite Hclosed in Hasc.
  assert (to_us (rp_begin earlier) < to_us (rp_begin later)) as Hlt.
  { replace (l1 ++ (k, earlier) :: l2 ++ (k, later) :: l3)
      with ((l1 ++ [(k, earlier)]) ++ (l2 ++ (k, later) :: l3)) in Hasc
      by (by rewrite <- app_assoc).
    apply (StronglySorted_app_1_elem_of _ _ _ (k, earlier) (k, later) Hasc).
    - apply elem_of_app. right. apply list_elem_of_here.
    - apply elem_of_app. right. apply list_elem_of_here. }
  split; [done|]. intros k' Hk'.
  assert ((k', earlier) ∈ closed_intervals (day_close dt) rs) as Hin.
  { rewrite Hmap in Hk'. unfold last_wins in Hk'.
    apply last_wins_from_elem in Hk' as [?|Hk']; [done|].
    by rewrite lookup_empty in Hk'. }
  rewrite Hclosed in Hin.
  apply elem_of_app in Hin as [Hin|Hin].
  - pose proof (StronglySorted_app_1_elem_of _ _ _ (k', earlier) (k, earlier)
                  Hasc Hin (list_elem_of_here _ _)) as Hcontra.
    simpl in Hcontra. lia.
  - apply elem_of_cons in Hin as [Hin|Hin].
    + inversion Hin; subst k'. rewrite Hlater in Hk'.
      inversion Hk'; subst. lia.
    + apply StronglySorted_app_1_r in Hasc.
      apply StronglySorted_inv in Hasc as [_ Hall].
      rewrite Forall_forall in Hall.
      pose proof (Hall (k', earlier) Hin) as Hcontra.
      simpl in Hcontra. lia.
Qed.


End Schedule.

(** * The theorems on concrete schedules *)

(** ** Desired state *)

Lemma override_status_decides_witness :
  override_status forced_running = Some "running"%string ∧
  get_desired_state "running" utc forced_running placeholder_instance None =
    Ok (STATE_RUNNING, None, Some "override_status"%string).
Proof.
  split; [reflexivity|].
  exact (proj1 (override_status_decides "running" utc forced_running
                  placeholder_instance None "running" eq_refl)).
Defined.


Lemma latest_begin_wins_witness :
  running_at utc (a_schedule (Some early_and_office))
    (Some (replace day0 10 0)) early_and_office ≠ [] ∧
  ∃ w state,
    Period.name (pws_period w) = "office"%string ∧
    get_desired_state "running" utc (a_schedule (Some early_and_office))
      (resizable false None) (Some (replace day0 10 0)) =
      Ok (state, pws_instancetype w, Some "office"%string).
Proof.
  assert (running_at utc (a_schedule (Some early_and_office))
            (Some (replace day0 10 0)) early_and_office ≠ []) as Hne
    by (vm_compute; discriminate).
  split; [exact Hne|].
  destruct (latest_begin_wins "running" utc
              (a_schedule (Some early_and_office)) (resizable false None)
              (Some (replace day0 10 0)) early_and_office
              eq_refl eq_refl Hne)
    as (w & state & Hw & _ & Hres & _).
  exists w, state. vm_compute in Hw. inversion Hw; subst w. clear Hw.
  split; [reflexivity|exact Hres].
Defined.

Lemma resize_forces_stop_witness :
  running_at utc (a_schedule (Some early_and_office))
    (Some (replace day0 10 0)) early_and_office ≠ [] ∧
  ∃ w state,
    get_desired_state "running" utc (a_schedule (Some early_and_office))
      (resizable true (Some "small"%string)) (Some (replace day0 10 0)) =
      Ok (state, pws_instancetype w, Some (Period.name (pws_period w))) ∧
    (state = STATE_STOPPED ↔
       ∃ d, pws_instancetype w = Some d ∧ Some "small"%string ≠ Some d).
Proof.
  assert (running_at utc (a_schedule (Some early_and_office))
            (Some (replace day0 10 0)) early_and_office ≠ []) as Hne
    by (vm_compute; discriminate).
  split; [exact Hne|].
  destruct (resize_forces_stop "running" utc
              (a_schedule (Some early_and_office))
              (resizable true (Some "small"%string))
              (Some (replace day0 10 0)) early_and_office
              eq_refl eq_refl Hne)
    as (w & state & _ & Hres & Hiff & _).
  exists w, state. split; [exact Hres|].
  simpl in Hiff. rewrite Hiff. clear.
  split; [intros (_ & _ & H); exact H|intros H; split_and!; done].
Defined.

(** C1, counterexample. An instance without type that may be resized and
    is running, under a period of type "B": the state is stopped although
    no current type is set. An instance of type "A" under a period without
    type: the state is running although the desired type, none, differs
    from "A". *)
Lemma resize_condition_counterexample :
  (get_desired_state "running" utc
     (a_schedule (Some [mk_entry office (Some "B"%string)]))
     (resizable true None) (Some (replace day0 10 0)) =
     Ok (STATE_STOPPED, Some "B"%string, Some "office"%string) ∧
   ¬ spec_resize_condition (resizable true None) (Some "B"%string)) ∧
  (get_desired_state "running" utc
     (a_schedule (Some [mk_entry office None]))
     (resizable true (Some "A"%string)) (Some (replace day0 10 0)) =
     Ok (STATE_RUNNING, None, Some "office"%string) ∧
   spec_resize_condition (resizable true (Some "A"%string)) None).
Proof.
  split; split.
  - reflexivity.
  - intros (_ & _ & H & _). by apply H.
  - reflexivity.
  - unfold spec_resize_condition. simpl. split_and!; done.
Qed.

(** ** Reordering *)

(** C8, counterexample: two periods that begin at 09:00, both running at
    10:00. Listed as a, b the period name returned is "b"; listed as b, a
    it is "a". *)
Lemma permutation_counterexample :
  nine_ab ≡ₚ nine_ba ∧
  get_desired_state "running" utc (a_schedule (Some nine_ab))
    placeholder_instance (Some (replace day0 10 0)) =
    Ok (STATE_RUNNING, None, Some "b"%string) ∧
  get_desired_state "running" utc (a_schedule (Some nine_ba))
    placeholder_instance (Some (replace day0 10 0)) =
    Ok (STATE_RUNNING, None, Some "a"%string).
Proof. split; [apply perm_swap|]. split; reflexivity. Qed.


(** ** Usage *)

(** One period from 09:00 to 17:00 on one day: 28800 seconds, 8 hours. *)
Example office_hours_usage :
  get_usage "running" utc office_hours day0 None None = Ok office_usage.
Proof. vm_compute. reflexivity. Qed.


Lemma billing_formulas_witness :
  get_usage "running" utc office_hours day0 None None = Ok office_usage ∧
  rp_billing_seconds office_interval =
    Z.max ((to_us (replace day0 17 0) - to_us (replace day0 9 0)) / 1000000) 60 ∧
  rp_billing_hours office_interval =
    (to_us (replace day0 17 0) - to_us (replace day0 9 0) - 1000000)
    / 3600000000 + 1.
Proof.
  assert (get_usage "running" utc office_hours day0 None None
          = Ok office_usage) as Hu by (vm_compute; reflexivity).
  split; [exact Hu|].
  apply (proj1 (billing_formulas "running" utc) office_hours day0 None None
           [mk_entry office None] office_usage 737000 office_day
           (Some "office"%string) office_interval).
  - reflexivity.
  - reflexivity.
  - exact Hu.
  - vm_compute. reflexivity.
  - vm_compute. reflexivity.
Defined.

Lemma intervals_ordered_witness :
  get_usage "running" utc office_hours day0 None None = Ok office_usage ∧
  to_us (rp_begin office_interval) < to_us (rp_end office_interval) ∧
  ordinal (rp_begin office_interval) = 737000 ∧
  60 ≤ rp_billing_seconds office_interval ∧
  1 ≤ rp_billing_hours office_interval.
Proof.
  assert (get_usage "running" utc office_hours day0 None None
          = Ok office_usage) as Hu by (vm_compute; reflexivity).
  split; [exact Hu|].
  destruct (intervals_ordered "running" utc office_hours day0 None None
              [mk_entry office None] office_usage 737000 office_day
              (Some "office"%string) office_interval)
    as (H1 & H2 & _ & _ & _ & H3 & H4).
  - reflexivity.
  - reflexivity.
  - exact Hu.
  - vm_compute. reflexivity.
  - vm_compute. reflexivity.
  - split_and!; assumption.
Defined.

(** C9, counterexample: with a start instant of 00:00:45 and a period
    that always runs, the interval of the day ends at 00:00:45 of the
    next day, which is neither an instant of the covered day nor its
    end. *)
Lemma day_end_counterexample :
  ∃ u d rp,
    get_usage "running" utc (a_schedule (Some [mk_entry always_on None]))
      (mk_datetime 737000 0 0 45 0) None None = Ok u ∧
    usage u !! 737000 = Some d ∧
    running_periods d !! Some "always"%string = Some rp ∧
    rp_begin rp = mk_datetime 737000 0 0 45 0 ∧
    rp_end rp = mk_datetime 737001 0 0 45 0 ∧
    ordinal (rp_end rp) ≠ 737000 ∧
    rp_end rp ≠ mk_datetime 737001 0 0 0 0.
Proof.
  exists {| schedule := "schedule";
            usage := {[737000 :=
              {| running_periods :=
                   {[Some "always"%string :=
                       make_period (mk_datetime 737000 0 0 45 0)
                                   (mk_datetime 737001 0 0 45 0) None]};
                 billing_seconds := 86400; billing_hours := 24 |}]} |}.
  eexists. eexists.
  split; [vm_compute; reflexivity|].
  split; [vm_compute; reflexivity|].
  split; [vm_compute; reflexivity|].
  split; [reflexivity|]. split; [reflexivity|].
  split; discriminate.
Qed.

(** A period running 09:00-10:00 and 14:00-15:00: the day's map has one
    interval under its name, the later one, and the totals are one hour. *)
Example two_windows_usage :
  get_usage "running" utc split_schedule day0 None None =
  Ok {| schedule := "schedule";
        usage := {[737000 :=
          {| running_periods :=
               {[Some "split"%string :=
                   make_period (replace day0 14 0) (replace day0 15 0) None]};
             billing_seconds := 3600; billing_hours := 1 |}]} |}.
Proof. vm_compute. reflexivity. Qed.


Lemma any_state_keeps_interval_witness :
  get_desired_state "running" utc (a_schedule (Some [mk_entry any_period None]))
    placeholder_instance (Some (replace day0 12 0)) = Ok (STATE_ANY, None, None) ∧
  walk "running" utc (a_schedule (Some [mk_entry any_period None]))
    placeholder_instance split_at_three [replace day0 12 0] =
    Ok split_at_three.
Proof.
  split; [reflexivity|].
  rewrite (proj2 (any_state_keeps_interval "running" utc)
             (a_schedule (Some [mk_entry any_period None]))
             placeholder_instance split_at_three (replace day0 12 0) []
             STATE_ANY None None eq_refl (or_introl eq_refl)).
  reflexivity.
Defined.

(** ** The further properties on concrete schedules *)

(** Two shifts on two days, the second instant given as end. *)
Example two_shifts_two_days :
  get_usage "running" utc two_shifts day0 (Some (add_day day0)) None =
  Ok two_shifts_usage.
Proof. vm_compute. reflexivity. Qed.

(** The description of a schedule forced to stop, with its periods. *)
Example forced_stopped_str :
  __str__ forced_stopped some_flags =
  "Schedule " +:+ dquote +:+ "forced" +:+ dquote +:+ ":  (office hours)"
  +:+ newline +:+ "always running through override_status"
  +:+ newline +:+ "timezone is UTC"
  +:+ newline +:+ "new instanced are stopped"
  +:+ newline +:+ "maintenance windows are used to start instances"
  +:+ newline +:+ "schedule state is not enforced to start or stop instances"
  +:+ newline +:+ "instances are stopped if at the and of a period if they were already running at the start of the period"
  +:+ newline +:+ "periods: [morning, office]".
Proof. vm_compute. reflexivity. Qed.


Lemma desired_state_range_witness :
  get_desired_state "running" utc two_shifts placeholder_instance
    (Some (replace day0 10 0)) =
    Ok (STATE_RUNNING, None, Some "office"%string) ∧
  (STATE_RUNNING = STATE_RUNNING ∨ STATE_RUNNING = STATE_STOPPED
   ∨ STATE_RUNNING = STATE_ANY).
Proof.
  split; [reflexivity|].
  apply (desired_state_range "running" utc two_shifts placeholder_instance
           (Some (replace day0 10 0)) STATE_RUNNING None
           (Some "office"%string) eq_refl).
Defined.

Lemma no_resize_never_stops_witness :
  Instance.allow_resize placeholder_instance = false ∧
  get_desired_state "running" utc (a_schedule (Some early_and_office))
    (Instance.mk false true (Some "small"%string)) (Some (replace day0 10 0)) =
  get_desired_state "running" utc (a_schedule (Some early_and_office))
    placeholder_instance (Some (replace day0 10 0)).
Proof.
  split; [reflexivity|].
  apply (no_resize_never_stops "running" utc
           (a_schedule (Some early_and_office)) placeholder_instance
           (Some (replace day0 10 0)) eq_refl).
  reflexivity.
Defined.

Lemma last_listed_latest_wins_witness :
  running_at utc (a_schedule (Some nine_ab)) (Some (replace day0 10 0)) nine_ab
    ≠ [] ∧
  ∃ before w after state,
    running_at utc (a_schedule (Some nine_ab)) (Some (replace day0 10 0))
      nine_ab = before ++ w :: after ∧
    (∀ p, p ∈ after → begin_le (pws_begin w) (pws_begin p) = false) ∧
    get_desired_state "running" utc (a_schedule (Some nine_ab))
      placeholder_instance (Some (replace day0 10 0)) =
      Ok (state, None, Some (Period.name (pws_period w))).
Proof.
  assert (running_at utc (a_schedule (Some nine_ab))
            (Some (replace day0 10 0)) nine_ab ≠ []) as Hne
    by (vm_compute; discriminate).
  split; [exact Hne|].
  destruct (last_listed_latest_wins "running" utc (a_schedule (Some nine_ab))
              placeholder_instance (Some (replace day0 10 0)) nine_ab
              eq_refl eq_refl Hne)
    as (before & w & after & state & Heq & _ & Hafter & Hres).
  exists before, w, after, state. split; [exact Heq|]. split; [exact Hafter|].
  exact Hres.
Defined.

Lemma timeline_shape_witness :
  valid_periods two_shifts_periods = true ∧
  ∃ rest,
    sorted_timeline (build_timeline two_shifts_periods day0) =
      replace day0 0 0 :: rest ∧
    (length rest ≤ 4)%nat.
Proof.
  split; [reflexivity|].
  destruct (timeline_shape two_shifts_periods day0 eq_refl)
    as (rest & Heq & _ & _ & Hlen).
  exists rest. split; [exact Heq|exact Hlen].
Defined.

Lemma covered_days_witness :
  get_usage "running" utc two_shifts day0 (Some (add_day day0)) None =
    Ok two_shifts_usage ∧
  (is_Some (usage two_shifts_usage !! 737001) ↔
   ordinal day0 ≤ 737001 ∧
   dt_le (day_of day0 737001) (add_day day0) = true) ∧
  (is_Some (usage two_shifts_usage !! 737002) ↔
   ordinal day0 ≤ 737002 ∧
   dt_le (day_of day0 737002) (add_day day0) = true).
Proof.
  assert (get_usage "running" utc two_shifts day0 (Some (add_day day0)) None
          = Ok two_shifts_usage) as Hu by (vm_compute; reflexivity).
  split; [exact Hu|]. split.
  - exact (covered_days "running" utc two_shifts day0 (Some (add_day day0))
             None two_shifts_usage 737001 Hu).
  - exact (covered_days "running" utc two_shifts day0 (Some (add_day day0))
             None two_shifts_usage 737002 Hu).
Defined.

Lemma range_is_union_of_days_witness :
  get_usage "running" utc two_shifts day0 (Some (add_day day0)) None =
    Ok two_shifts_usage ∧
  usage two_shifts_usage !! 737001 = Some (two_shifts_day (add_day day0)) ∧
  get_usage "running" utc two_shifts (add_day day0) None None =
    Ok {| schedule := "schedule";
          usage := {[737001 := two_shifts_day (add_day day0)]} |}.
Proof.
  assert (get_usage "running" utc two_shifts day0 (Some (add_day day0)) None
          = Ok two_shifts_usage) as Hu by (vm_compute; reflexivity).
  assert (usage two_shifts_usage !! 737001
          = Some (two_shifts_day (add_day day0))) as Hd
    by (vm_compute; reflexivity).
  split; [exact Hu|]. split; [exact Hd|].
  exact (range_is_union_of_days "running" utc two_shifts day0
           (Some (add_day day0)) None two_shifts_usage 737001
           (two_shifts_day (add_day day0)) Hu Hd).
Defined.

Lemma no_running_boundary_no_interval_witness :
  periods forced_stopped = Some two_shifts_periods ∧
  day_usage "running" utc forced_stopped None day0 =
    Ok {| running_periods := ∅; billing_seconds := 0; billing_hours := 0 |} ∧
  ∀ tm, tm ∈ build_timeline two_shifts_periods day0 →
        ∀ ty nm, get_desired_state "running" utc forced_stopped
                   placeholder_instance (Some tm)
                 ≠ Ok (STATE_RUNNING, ty, nm).
Proof.
  assert (day_usage "running" utc forced_stopped None day0 =
    Ok {| running_periods := ∅; billing_seconds := 0; billing_hours := 0 |})
    as Hd by (vm_compute; reflexivity).
  split; [reflexivity|]. split; [exact Hd|].
  apply (proj1 (no_running_boundary_no_interval "running" utc forced_stopped
                  None day0 two_shifts_periods _ eq_refl Hd)).
  reflexivity.
Defined.

Lemma forced_running_full_day_witness :
  override_status forced_running_with_periods = Some "running"%string ∧
  valid_periods two_shifts_periods = true ∧
  day_usage "running" utc forced_running_with_periods None day0 =
    Ok {| running_periods :=
            {[Some "override_status"%string :=
                make_period (replace day0 0 0) (day_close day0) None]};
          billing_seconds := 86400; billing_hours := 24 |}.
Proof.
  split; [reflexivity|]. split; [reflexivity|].
  apply (forced_running_full_day "running" utc forced_running_with_periods
           None day0 two_shifts_periods eq_refl eq_refl eq_refl).
Defined.


Lemma billing_whole_minutes_witness :
  get_usage "running" utc two_shifts day0 (Some (add_day day0)) None =
    Ok two_shifts_usage ∧
  ∃ n, 1 ≤ n ≤ 1440 ∧
       rp_billing_seconds (morning_interval day0) = 60 * n ∧
       rp_billing_hours (morning_interval day0) ≤ 24.
Proof.
  assert (get_usage "running" utc two_shifts day0 (Some (add_day day0)) None
          = Ok two_shifts_usage) as Hu by (vm_compute; reflexivity).
  split; [exact Hu|].
  destruct (billing_whole_minutes "running" utc two_shifts day0
              (Some (add_day day0)) None two_shifts_periods two_shifts_usage
              737000 (two_shifts_day day0) (Some "morning"%string)
              (morning_interval day0))
    as (n & Hn & _ & Hs & _ & Hh).
  - reflexivity.
  - reflexivity.
  - exact Hu.
  - vm_compute. reflexivity.
  - vm_compute. reflexivity.
  - exists n. split; [exact Hn|]. split; [exact Hs|exact Hh].
Defined.

Lemma interval_keys_witness :
  get_usage "running" utc two_shifts day0 (Some (add_day day0)) None =
    Ok two_shifts_usage ∧
  period_key two_shifts_periods (Some "morning"%string).
Proof.
  assert (get_usage "running" utc two_shifts day0 (Some (add_day day0)) None
          = Ok two_shifts_usage) as Hu by (vm_compute; reflexivity).
  split; [exact Hu|].
  apply (interval_keys "running" utc two_shifts day0 (Some (add_day day0))
           None two_shifts_periods two_shifts_usage 737000
           (two_shifts_day day0) (Some "morning"%string)
           (morning_interval day0)).
  - reflexivity.
  - exact Hu.
  - vm_compute. reflexivity.
  - vm_compute. reflexivity.
Defined.

Lemma no_resize_no_instancetype_witness :
  get_usage "running" utc two_shifts day0 (Some (add_day day0)) None =
    Ok two_shifts_usage ∧
  rp_instancetype (shift_interval day0) = None.
Proof.
  assert (get_usage "running" utc two_shifts day0 (Some (add_day day0)) None
          = Ok two_shifts_usage) as Hu by (vm_compute; reflexivity).
  split; [exact Hu|].
  apply (no_resize_no_instancetype "running" utc two_shifts day0
           (Some (add_day day0)) None two_shifts_periods two_shifts_usage
           737000 (two_shifts_day day0) (Some "office"%string)
           (shift_interval day0)).
  - reflexivity.
  - reflexivity.
  - exact Hu.
  - vm_compute. reflexivity.
  - vm_compute. reflexivity.
Defined.

Lemma intervals_disjoint_witness :
  get_usage "running" utc two_shifts day0 (Some (add_day day0)) None =
    Ok two_shifts_usage ∧
  disjoint_periods (morning_interval day0) (shift_interval day0).
Proof.
  assert (get_usage "running" utc two_shifts day0 (Some (add_day day0)) None
          = Ok two_shifts_usage) as Hu by (vm_compute; reflexivity).
  split; [exact Hu|].
  apply (intervals_disjoint "running" utc two_shifts day0
           (Some (add_day day0)) None two_shifts_periods two_shifts_usage
           737000 (two_shifts_day day0)
           (Some "morning"%string) (Some "office"%string)).
  - reflexivity.
  - reflexivity.
  - exact Hu.
  - vm_compute. reflexivity.
  - discriminate.
  - vm_compute. reflexivity.
  - vm_compute. reflexivity.
Defined.

Lemma open_interval_keeps_name_witness :
  w_current_state split_at_three = Some STATE_RUNNING ∧
  get_desired_state "running" utc (a_schedule (Some early_and_office))
    placeholder_instance (Some (replace day0 10 0)) =
    Ok (STATE_RUNNING, None, Some "office"%string) ∧
  walk_step split_at_three (replace day0 10 0)
    (STATE_RUNNING, None, Some "office"%string) = Ok split_at_three.
Proof.
  split; [reflexivity|]. split; [reflexivity|].
  exact (proj1 (open_interval_keeps_name "running" utc
                  (a_schedule (Some early_and_office)) placeholder_instance
                  split_at_three (replace day0 10 0) [] None
                  (Some "office"%string) eq_refl eq_refl)).
Defined.

(** An interval opened by one period and carried on by another keeps the
    first name: from 08:00 to 17:00 under "early". *)
Example early_then_office_usage :
  get_usage "running" utc (a_schedule (Some early_and_office)) day0 None None =
  Ok {| schedule := "schedule";
        usage := {[737000 :=
          {| running_periods :=
               {[Some "early"%string :=
                   make_period (replace day0 8 0) (replace day0 17 0) None]};
             billing_seconds := 32400; billing_hours := 9 |}]} |}.
Proof. vm_compute. reflexivity. Qed.

Lemma day_seconds_bounded_witness :
  get_usage "running" utc two_shifts day0 (Some (add_day day0)) None =
    Ok two_shifts_usage ∧
  0 ≤ billing_seconds (two_shifts_day day0) ≤ 86400.
Proof.
  assert (get_usage "running" utc two_shifts day0 (Some (add_day day0)) None
          = Ok two_shifts_usage) as Hu by (vm_compute; reflexivity).
  split; [exact Hu|].
  apply (day_seconds_bounded "running" utc two_shifts day0
           (Some (add_day day0)) None two_shifts_periods two_shifts_usage
           737000 (two_shifts_day day0)).
  - reflexivity.
  - reflexivity.
  - exact Hu.
  - vm_compute. reflexivity.
Defined.

Lemma idle_period_ignored_witness :
  Period.get_desired_state morning (replace day0 10 0) ≠ STATE_RUNNING ∧
  Period.get_desired_state morning (replace day0 10 0) ≠ STATE_ANY ∧
  get_desired_state "running" utc two_shifts placeholder_instance
    (Some (replace day0 10 0)) =
  get_desired_state "running" utc office_hours placeholder_instance
    (Some (replace day0 10 0)).
Proof.
  split; [by vm_compute|]. split; [by vm_compute|].
  apply (idle_period_ignored "running" utc two_shifts placeholder_instance
           (Some (replace day0 10 0)) [] (mk_entry morning None)
           [mk_entry office None]); by vm_compute.
Defined.

(** ** The lookup of the zone *)

Lemma empty_periods_stopped_witness :
  periods (a_schedule (Some [])) = Some [] ∧
  override_status (a_schedule (Some [])) = None ∧
  get_desired_state_pytz "running" utc only_utc (a_schedule (Some []))
    placeholder_instance None = Ok (STATE_STOPPED, None, None).
Proof.
  split; [reflexivity|]. split; [reflexivity|].
  exact (empty_periods_stopped "running" utc only_utc (a_schedule (Some []))
           placeholder_instance None eq_refl eq_refl).
Defined.

(** C6, counterexample: a schedule with an empty list of periods and no
    override whose timezone is not found. The evaluation raises
    [UnknownTimeZoneError] and returns no state. *)
Lemma empty_periods_unknown_timezone :
  periods nowhere = Some [] ∧
  override_status nowhere = None ∧
  only_utc (timezone nowhere) = false ∧
  get_desired_state_pytz "running" utc only_utc nowhere
    placeholder_instance None = Raise (UnknownTimeZoneError "Mars/Olympus").
Proof. repeat split. Qed.

(** ** The range of [get_usage] *)



(** An end that is a date and a start that is a datetime are not ordered:
    the test of the range raises a [TypeError], not the error of the
    range. *)
Example mixed_range_raises :
  get_usage_any "running" utc office_hours (a_datetime (add_day day0))
    (Some (a_date 737000)) None = Raise TypeError.
Proof. reflexivity. Qed.

(** ** Reordering with a tie below the latest begin time *)

(** Two periods tie at 08:00 and a third begins at 09:00: at 10:00 all
    three run, the third decides, and the order does not matter. *)
Lemma permutation_invariant_witness :
  override_status (a_schedule None) = None ∧
  latest_agree placeholder_instance
    (running_at utc (a_schedule None) (Some (replace day0 10 0)) tie_below)
    = true ∧
  tie_below ≡ₚ rev tie_below ∧
  get_desired_state "running" utc (a_schedule (Some (rev tie_below)))
    placeholder_instance (Some (replace day0 10 0)) =
  get_desired_state "running" utc (a_schedule (Some tie_below))
    placeholder_instance (Some (replace day0 10 0)).
Proof.
  split; [reflexivity|]. split; [reflexivity|].
  split; [apply Permutation_rev|].
  apply (proj2 (permutation_invariant "running" utc (a_schedule None)
                  placeholder_instance (Some (replace day0 10 0))
                  tie_below) (or_intror eq_refl) (rev tie_below)).
  apply Permutation_rev.
Defined.

Example tie_below_result :
  get_desired_state "running" utc (a_schedule (Some tie_below))
    placeholder_instance (Some (replace day0 10 0)) =
    Ok (STATE_RUNNING, None, Some "office"%string).
Proof. reflexivity. Qed.

(** ** Two intervals under one name *)

